(** * Finance tracker: the local (optionally encrypted) data store

    A shallow embedding of [js/data-manager.js] (class [DataManager]) and
    [js/security.js] (class [SecurityManager]) and the properties of the
    record store, the cipher plumbing and the security flows.

    Conventions of the embedding.
    - JavaScript strings are [string]s read as the bytes of their UTF-8
      encoding, so [TextEncoder.encode] and [TextDecoder.decode] are the
      conversions between [string] and [list byte].
    - JSON numbers are integers ([Z], amounts in minor units). Where the
      code does arithmetic ([updateGoalSavings]), a number is the IEEE
      double of that integer and [+] rounds as binary64 does; numbers with
      a fractional part are outside the embedding.
    - Everything the browser provides ([JSON], [btoa]/[atob],
      [crypto.subtle], [crypto.getRandomValues], the storage quota) is a
      field of the class [Host]; what is assumed about it is the class
      [HostLaws].
    - An [async] method is run to completion: the value it is awaited to, or
      the exception it rejects with, is a [Result]. Where the source does NOT
      await the call, the caller receives a promise ([VPromise], [Pending]).
    - The answers typed into the password prompts and the values of
      [new Date().toISOString()] and [generateId()] are inputs of the
      operation that reads them. *)

From Stdlib Require Import ZArith Ascii String List Strings.Byte.
From Stdlib Require Import Decimal DecimalString DecimalZ DecimalPos Lia.
From Stdlib Require Floats.
From stdpp Require Import base option list gmap strings.

Set Warnings "-register-all".
Local Open Scope string_scope.
Local Open Scope list_scope.
Local Open Scope Z_scope.

(** ** JSON values and the JavaScript operations used on them *)

Inductive json : Type :=
| JNull
| JBool (b : bool)
| JNum (n : Z)
| JStr (s : string)
| JArr (items : list json)
| JObj (fields : list (string * json)).

(** Exceptions: [new Error(message)] and the built-in exception classes the
    code can meet. *)
Inductive Exn : Type :=
| Error (message : string)
| TypeError
| SyntaxError.

Inductive Result (A : Type) : Type :=
| Ok (a : A)
| Throw (e : Exn).
Arguments Ok {A} a.
Arguments Throw {A} e.

(** What a variable of the code can hold: a JSON value or the promise
    returned by an [async] method that was not awaited; the promise carries
    what it settles to and the properties the code has set on the promise
    object itself. *)
Inductive jsval : Type :=
| VJson (j : json)
| VPromise (settles : Result json) (own : list (string * json)).

(** What [dataManager.encryptData] hands to [localStorage.setItem]: a text,
    or the promise of one. *)
Inductive Storable : Type :=
| Text (s : string)
| Pending (settles : Result string).

(** [String(v)] as [setItem] applies it to its value argument. *)
Definition to_storage_string (v : Storable) : string :=
  match v with
  | Text s => s
  | Pending _ => "[object Promise]"
  end.

(** JavaScript truthiness, [if (v)] and [v || d]. *)
Definition truthy_json (j : json) : bool :=
  match j with
  | JNull => false
  | JBool b => b
  | JNum n => negb (n =? 0)
  | JStr s => negb (String.eqb s "")
  | JArr _ | JObj _ => true
  end.

Definition truthy (v : jsval) : bool :=
  match v with
  | VJson j => truthy_json j
  | VPromise _ _ => true
  end.

(** [v || d] *)
Definition or_default (v : jsval) (d : json) : jsval :=
  if truthy v then v else VJson d.

(** Own properties of an object, in insertion order. *)
Fixpoint get_field (k : string) (fields : list (string * json)) : option json :=
  match fields with
  | [] => None
  | (k', v) :: rest => if String.eqb k k' then Some v else get_field k rest
  end.

(** [o.k = v], and [k: v] after a spread in an object literal: an existing
    property keeps its place, a new one goes last. *)
Fixpoint set_field (k : string) (v : json) (fields : list (string * json))
  : list (string * json) :=
  match fields with
  | [] => [(k, v)]
  | (k', v') :: rest =>
      if String.eqb k k' then (k, v) :: rest else (k', v') :: set_field k v rest
  end.

(** [v.k] for a property name [k] that is neither an index nor [length]:
    [undefined] ([None]) on a primitive or an array, a [TypeError] on
    [null]. *)
Definition prop (j : json) (k : string) : Result (option json) :=
  match j with
  | JNull => Throw TypeError
  | JObj fields => Ok (get_field k fields)
  | _ => Ok None
  end.

Definition prop_val (v : jsval) (k : string) : Result (option json) :=
  match v with
  | VJson j => prop j k
  | VPromise _ own => Ok (get_field k own)
  end.

(** [v.k = x] in strict mode (a class body): a [TypeError] on a primitive;
    on an array the named property is set but is not part of what
    [JSON.stringify] writes. *)
Definition set_prop_json (j : json) (k : string) (x : json) : Result json :=
  match j with
  | JObj fields => Ok (JObj (set_field k x fields))
  | JArr items => Ok (JArr items)
  | _ => Throw TypeError
  end.

Definition set_prop (v : jsval) (k : string) (x : json) : Result jsval :=
  match v with
  | VJson j =>
      match set_prop_json j k x with
      | Ok j' => Ok (VJson j')
      | Throw e => Throw e
      end
  | VPromise r own => Ok (VPromise r (set_field k x own))
  end.

Notation "'let*' x ':=' c 'in' k" :=
  (match c with Ok x => k | Throw e => Throw e end)
  (at level 10, x pattern, c at level 100, k at level 200, only parsing).

(** The receiver of an array method ([push], [findIndex], [splice], [reduce]):
    calling it on anything that is not an array is a [TypeError]. *)
Definition as_array (x : option json) : Result (list json) :=
  match x with
  | Some (JArr l) => Ok l
  | _ => Throw TypeError
  end.

(** [data.k] where the code goes on to call an array method on it. *)
Definition read_array (data : jsval) (k : string) : Result (list json) :=
  let* x := prop_val data k in as_array x.

(** [k: x] in an object literal that is serialised next: a property whose
    value is [undefined] is left out by [JSON.stringify]. *)
Definition field_opt (k : string) (x : option json) : list (string * json) :=
  match x with
  | Some v => [(k, v)]
  | None => []
  end.

(** [x === y] for two property values: primitives by value; an object or an
    array is only equal to itself, and the two sides here never are the same
    object (one comes from a fresh [JSON.parse]). *)
Definition strict_eq (x y : option json) : bool :=
  match x, y with
  | None, None => true
  | Some JNull, Some JNull => true
  | Some (JBool a), Some (JBool b) => Bool.eqb a b
  | Some (JNum a), Some (JNum b) => a =? b
  | Some (JStr a), Some (JStr b) => String.eqb a b
  | _, _ => false
  end.

(** [arr.findIndex(pred)] for a predicate that can throw; [None] is [-1]. *)
Fixpoint findIndex (pred : json -> Result bool) (l : list json) : Result (option nat) :=
  match l with
  | [] => Ok None
  | x :: rest =>
      match pred x with
      | Throw e => Throw e
      | Ok true => Ok (Some O)
      | Ok false =>
          match findIndex pred rest with
          | Ok (Some i) => Ok (Some (S i))
          | r => r
          end
      end
  end.

(** [arr.splice(i, 1)] *)
Definition splice1 (i : nat) (l : list json) : list json :=
  take i l ++ drop (S i) l.

(** ** JavaScript numbers and [+]

    The numbers of the embedding are the doubles with an integer value, the
    infinities and [NaN]; [Finite n] is the double whose value is [n], and
    a JSON number [JNum n] is the Number value of the numeral [n], the
    double nearest to it. *)
Inductive number : Type :=
| Finite (n : Z)
| NaN
| Infinity (negative : bool).

(** A natural number rounded to 53 significant bits, to nearest, ties to
    the even significand (IEEE 754 binary64, [roundTiesToEven]). *)
Definition round_to_53_bits (m : Z) : Z :=
  let k := Z.log2 m + 1 - 53 in
  if k <=? 0 then m
  else
    let q := Z.shiftr m k in
    let r := m - Z.shiftl q k in
    let half := Z.shiftl 1 (k - 1) in
    let q := if r <? half then q
             else if half <? r then q + 1
             else if Z.even q then q else q + 1 in
    Z.shiftl q k.

(** The Number value for an integer: what a numeral parses to, and what an
    exact result is rounded to; from [2^1024] on, it is an infinity. *)
Definition to_double (z : Z) : number :=
  let m := round_to_53_bits (Z.abs z) in
  if 2 ^ 1024 <=? m then Infinity (z <? 0) else Finite (Z.sgn z * m).

(** [x + y] on two numbers *)
Definition number_add (x y : number) : number :=
  match x, y with
  | NaN, _ | _, NaN => NaN
  | Infinity a, Infinity b => if Bool.eqb a b then Infinity a else NaN
  | Infinity a, Finite _ | Finite _, Infinity a => Infinity a
  | Finite a, Finite b => to_double (a + b)
  end.

(** The decimal numeral of a natural number. *)
Definition decimal (n : Z) : string := NilEmpty.string_of_uint (N.to_uint (Z.to_N n)).

(** [v] is a numeral of the double [m]. *)
Definition number_value_is (m v : Z) : bool :=
  match to_double v with
  | Finite x => x =? m
  | _ => false
  end.

(** [Number::toString], the choice of the digits: the integer with the
    fewest significant digits (from [k] on, [n] being the number of digits
    of [m]) whose Number value is [m]; of two, the one closer to [m], and
    the one with the even last digit when they are as close. *)
Fixpoint shortest (fuel : nat) (k n m : Z) : Z :=
  match fuel with
  | O => m
  | S fuel =>
      let e := n - k in
      if e <=? 0 then m
      else
        let unit := 10 ^ e in
        let s := m / unit in
        let lo := s * unit in
        let hi := lo + unit in
        match number_value_is m lo, number_value_is m hi with
        | true, true =>
            if m - lo <? hi - m then lo
            else if hi - m <? m - lo then hi
            else if Z.even s then lo else hi
        | true, false => lo
        | false, true => hi
        | false, false => shortest fuel (k + 1) n m
        end
  end.

Fixpoint strip_zeros (s : string) : string :=
  match s with
  | EmptyString => EmptyString
  | String c rest =>
      match strip_zeros rest with
      | EmptyString => if Ascii.eqb c "0" then EmptyString else String c EmptyString
      | rest' => String c rest'
      end
  end.

(** [Number::toString] of a positive double with an integer value: the
    digits and the zeros that follow them when there are at most 21, the
    exponent notation otherwise. *)
Definition positive_to_string (m : Z) : string :=
  let v := shortest 17 1 (Z.of_nat (String.length (decimal m))) m in
  let all := decimal v in
  let n := Z.of_nat (String.length all) in
  if n <=? 21 then all
  else
    let exponent := "e+" +:+ decimal (n - 1) in
    match strip_zeros all with
    | EmptyString => all
    | String d EmptyString => String d exponent
    | String d rest => String d ("." +:+ rest +:+ exponent)
    end.

(** [String(x)] of a number *)
Definition number_to_string (x : number) : string :=
  match x with
  | NaN => "NaN"
  | Infinity false => "Infinity"
  | Infinity true => "-Infinity"
  | Finite n =>
      if n =? 0 then "0"
      else if n <? 0 then "-" +:+ positive_to_string (- n)
      else positive_to_string n
  end.

(** [String(v)], and what [+] makes of an operand that is not a number:
    an array is its elements joined by commas, [null] among them as the
    empty string; an object is [[object Object]], unless it has a
    [toString] property of its own, which is not a function: then there is
    no primitive value for it, a [TypeError]. *)
Fixpoint to_string (v : json) : Result string :=
  match v with
  | JNull => Ok "null"
  | JBool b => Ok (if b then "true" else "false")
  | JNum n => Ok (number_to_string (to_double n))
  | JStr s => Ok s
  | JArr items =>
      (fix join (items : list json) : Result string :=
         match items with
         | [] => Ok EmptyString
         | x :: rest =>
             let* element :=
               (match x with JNull => Ok EmptyString | _ => to_string x end) in
             match rest with
             | [] => Ok element
             | _ => let* tail := join rest in Ok (element +:+ "," +:+ tail)
             end
         end) items
  | JObj fields =>
      match get_field "toString" fields with
      | Some _ => Throw TypeError
      | None => Ok "[object Object]"
      end
  end.

(** What the left operand of [total + s.amount] can be: a number or a
    string. *)
Inductive primitive : Type :=
| PNum (x : number)
| PStr (s : string).

(** [total + x], where [x] is a property value ([None]: [undefined]): a
    concatenation when one operand is a string, or an array or an object
    (which [+] turns into strings); an addition of numbers otherwise, with
    [undefined] as [NaN], [null] and [false] as 0 and [true] as 1. *)
Definition plus (total : primitive) (x : option json) : Result primitive :=
  match total, x with
  | PStr s, None => Ok (PStr (s +:+ "undefined"))
  | PStr s, Some v => let* t := to_string v in Ok (PStr (s +:+ t))
  | PNum t, Some (JStr _ as v) | PNum t, Some (JArr _ as v) | PNum t, Some (JObj _ as v) =>
      let* s := to_string v in Ok (PStr (number_to_string t +:+ s))
  | PNum t, None => Ok (PNum (number_add t NaN))
  | PNum t, Some JNull => Ok (PNum (number_add t (Finite 0)))
  | PNum t, Some (JBool b) => Ok (PNum (number_add t (Finite (if b then 1 else 0))))
  | PNum t, Some (JNum n) => Ok (PNum (number_add t (to_double n)))
  end.

(** What [JSON.stringify] writes of a number or a string: [NaN] and the
    infinities as [null]. *)
Definition stringified (p : primitive) : json :=
  match p with
  | PNum (Finite n) => JNum n
  | PNum _ => JNull
  | PStr s => JStr s
  end.

(** *** The binary64 numbers of the kernel

    The numbers above are compared on some runs with the hardware doubles;
    nothing else depends on these two definitions. *)

(** The double nearest to [m], for [0 <= m < 2^63], times [2^e]. *)
Definition double (m e : Z) : PrimFloat.float :=
  FloatOps.Z.ldexp (PrimFloat.of_uint63 (Uint63.of_Z m)) e.

(** The number that a double with an integer value is. *)
Definition number_of (f : PrimFloat.float) : option number :=
  match FloatOps.Prim2SF f with
  | SpecFloat.S754_zero _ => Some (Finite 0)
  | SpecFloat.S754_infinity s => Some (Infinity s)
  | SpecFloat.S754_nan => Some NaN
  | SpecFloat.S754_finite s m e =>
      let sign := if s then -1 else 1 in
      if 0 <=? e then Some (Finite (sign * Z.pos m * 2 ^ e))
      else if Z.pos m mod 2 ^ (- e) =? 0 then Some (Finite (sign * (Z.pos m / 2 ^ (- e))))
      else None
  end.

(** ** The browser *)

Record Pbkdf2Params : Type := {
  pbkdf2_salt : list byte;
  pbkdf2_iterations : N;
  pbkdf2_hash : string
}.

Record AesKeyGenParams : Type := {
  aes_name : string;
  aes_length : N
}.

Class Host : Type := {
  (** the [CryptoKey] objects of [crypto.subtle] *)
  CryptoKey : Type;
  JSON_stringify : json -> string;
  (** [None] is a [SyntaxError] *)
  JSON_parse : string -> option json;
  (** [btoa(String.fromCharCode.apply(null, bytes))] *)
  btoa : list byte -> string;
  (** [atob(s).split('').map(c => c.charCodeAt(0))]; [None] is an
      [InvalidCharacterError] *)
  atob : string -> option (list byte);
  (** [importKey('raw', material, 'PBKDF2', ...)] then
      [deriveKey(params, keyMaterial, derived, ...)] *)
  subtle_deriveKey : Pbkdf2Params -> list byte -> AesKeyGenParams -> CryptoKey;
  (** [crypto.subtle.encrypt({name: 'AES-GCM', iv}, key, data)] *)
  subtle_encrypt : CryptoKey -> list byte -> list byte -> list byte;
  (** [crypto.subtle.decrypt({name: 'AES-GCM', iv}, key, data)]; [None] is an
      [OperationError] *)
  subtle_decrypt : CryptoKey -> list byte -> list byte -> option (list byte);
  (** the bytes [crypto.getRandomValues(new Uint8Array(n))] yields at its
      [i]-th call *)
  getRandomValues : nat -> nat -> list byte;
  (** whether [setItem(key, value)] fits the quota of the storage *)
  storage_accepts : gmap string string -> string -> string -> bool
}.

(** What the code relies on from the browser. *)
Class HostLaws (H : Host) : Prop := {
  JSON_parse_stringify : forall v : json, JSON_parse (JSON_stringify v) = Some v;
  JSON_stringify_nonempty : forall v : json, JSON_stringify v <> "";
  atob_btoa : forall bs : list byte, atob (btoa bs) = Some bs;
  decrypt_encrypt : forall k iv p, subtle_decrypt k iv (subtle_encrypt k iv p) = Some p;
  getRandomValues_length : forall i n, length (getRandomValues i n) = n
}.

(** AES-GCM authenticates under the key: a ciphertext made under one key
    is refused under any other. *)
Definition AuthenticatedCipher (H : Host) : Prop :=
  forall (k1 k2 : CryptoKey) iv p,
    k1 <> k2 -> subtle_decrypt k2 iv (subtle_encrypt k1 iv p) = None.

(** [JSON.stringify(v)]; of a promise, its enumerable own properties. *)
Definition stringify_val `{Host} (v : jsval) : string :=
  match v with
  | VJson j => JSON_stringify j
  | VPromise _ own => JSON_stringify (JObj own)
  end.

(** ** The state of the page *)

(** The effects of a run, in the order they happen. *)
Inductive Event `{Host} : Type :=
| EvDeriveKey (password : string)
| EvSetItem (key value : string)
| EvRemoveItem (key : string)
| EvSetEncryptionKey (k : option CryptoKey)
| EvRemoveEncryption
| EvAlert (message type : string)
| EvLockApp.

Record World `{Host} : Type := mkWorld {
  localStorage : gmap string string;
  (** [dataManager.isEncrypted], [dataManager.encryptionKey] *)
  dm_isEncrypted : bool;
  dm_encryptionKey : option CryptoKey;
  (** [securityManager.isEncryptionEnabled], [securityManager.encryptionKey] *)
  sm_isEncryptionEnabled : bool;
  sm_encryptionKey : option CryptoKey;
  (** whether [lockApp] has replaced [document.body] *)
  appLocked : bool;
  (** how many times [crypto.getRandomValues] was called *)
  rng_calls : nat;
  trace : list Event
}.

Section WorldUpdates.
Context `{Host}.

Definition with_localStorage (ls : gmap string string) (w : World) : World :=
  mkWorld _ ls (dm_isEncrypted w) (dm_encryptionKey w) (sm_isEncryptionEnabled w)
    (sm_encryptionKey w) (appLocked w) (rng_calls w) (trace w).

Definition with_dm (enc : bool) (k : option CryptoKey) (w : World) : World :=
  mkWorld _ (localStorage w) enc k (sm_isEncryptionEnabled w)
    (sm_encryptionKey w) (appLocked w) (rng_calls w) (trace w).

Definition with_sm_isEncryptionEnabled (b : bool) (w : World) : World :=
  mkWorld _ (localStorage w) (dm_isEncrypted w) (dm_encryptionKey w) b
    (sm_encryptionKey w) (appLocked w) (rng_calls w) (trace w).

Definition with_sm_encryptionKey (k : option CryptoKey) (w : World) : World :=
  mkWorld _ (localStorage w) (dm_isEncrypted w) (dm_encryptionKey w)
    (sm_isEncryptionEnabled w) k (appLocked w) (rng_calls w) (trace w).

Definition with_appLocked (b : bool) (w : World) : World :=
  mkWorld _ (localStorage w) (dm_isEncrypted w) (dm_encryptionKey w)
    (sm_isEncryptionEnabled w) (sm_encryptionKey w) b (rng_calls w) (trace w).

Definition with_rng_calls (n : nat) (w : World) : World :=
  mkWorld _ (localStorage w) (dm_isEncrypted w) (dm_encryptionKey w)
    (sm_isEncryptionEnabled w) (sm_encryptionKey w) (appLocked w) n (trace w).

Definition emit (e : Event) (w : World) : World :=
  mkWorld _ (localStorage w) (dm_isEncrypted w) (dm_encryptionKey w)
    (sm_isEncryptionEnabled w) (sm_encryptionKey w) (appLocked w) (rng_calls w)
    (trace w ++ [e]).

(** [k] is truthy: a [CryptoKey] object, not [null]. *)
Definition has_key (k : option CryptoKey) : bool :=
  match k with Some _ => true | None => false end.
End WorldUpdates.

(** ** js/security.js: key derivation and the cipher

    The part of class [SecurityManager] that depends only on the key:
    [deriveKey], [encryptData] and [decryptData], with [this.encryptionKey]
    as their first argument. The flows of the class, which call into
    [DataManager], follow in [SecuritySession]. *)
Module SecurityManager.
Section WithHost.
Context `{Host}.

(** [new TextEncoder().encode(s)], [new TextDecoder().decode(b)] *)
Definition encode (s : string) : list byte := list_byte_of_string s.
Definition decode (b : list byte) : string := string_of_list_byte b.

Definition salt : list byte := encode "finance-tracker-salt-2023".

Definition pbkdf2 : Pbkdf2Params :=
  {| pbkdf2_salt := salt; pbkdf2_iterations := 100000; pbkdf2_hash := "SHA-256" |}.

Definition aes_gcm_256 : AesKeyGenParams :=
  {| aes_name := "AES-GCM"; aes_length := 256 |}.

(** The key [deriveKey(password)] resolves to. *)
Definition derivedKey (password : string) : CryptoKey :=
  let passwordBuffer := encode password in
  subtle_deriveKey pbkdf2 passwordBuffer aes_gcm_256.

(** [async deriveKey(password)] *)
Definition deriveKey (password : string) (w : World) : CryptoKey * World :=
  (derivedKey password, emit (EvDeriveKey password) w).

(** [async encryptData(data)] *)
Definition encryptData (encryptionKey : option CryptoKey) (data : jsval) (w : World)
  : Result string * World :=
  match encryptionKey with
  | None => (Throw (Error "Encryption key not available"), w)
  | Some key =>
      let dataBuffer := encode (stringify_val data) in
      let iv := getRandomValues (rng_calls w) 12 in
      let w := with_rng_calls (S (rng_calls w)) w in
      let encryptedData := subtle_encrypt key iv dataBuffer in
      let combined := iv ++ encryptedData in
      (Ok (btoa combined), w)
  end.

(** [async decryptData(encryptedDataString)]: whatever fails inside the
    [try] is rethrown as [Error('Failed to decrypt data')]. *)
Definition decryptData (encryptionKey : option CryptoKey) (encryptedDataString : string)
  : Result json :=
  match encryptionKey with
  | None => Throw (Error "Encryption key not available")
  | Some key =>
      let failed := Throw (Error "Failed to decrypt data") in
      match atob encryptedDataString with
      | None => failed
      | Some combined =>
          let iv := take 12 combined in
          let encryptedData := drop 12 combined in
          match subtle_decrypt key iv encryptedData with
          | None => failed
          | Some decryptedBuffer =>
              match JSON_parse (decode decryptedBuffer) with
              | None => failed
              | Some v => Ok v
              end
          end
      end
  end.
End WithHost.
End SecurityManager.

(** ** js/data-manager.js *)
Module DataManager.
Section WithHost.
Context `{Host}.

Definition storagePrefix : string := "financeTracker_".

(** [setEncryptionKey(key)] *)
Definition setEncryptionKey (key : option CryptoKey) (w : World) : World :=
  emit (EvSetEncryptionKey key) (with_dm true key w).

(** [removeEncryption()] *)
Definition removeEncryption (w : World) : World :=
  emit EvRemoveEncryption (with_dm false None w).

(** [dataManager.encryptData], as replaced on [DOMContentLoaded]: the
    promise of [securityManager.encryptData] is returned as it is; the
    other branch is the body of the placeholder it replaces. *)
Definition encryptData (data : jsval) (w : World) : Storable * World :=
  if sm_isEncryptionEnabled w && has_key (sm_encryptionKey w) then
    let '(r, w) := SecurityManager.encryptData (sm_encryptionKey w) data w in
    (Pending r, w)
  else (Text (stringify_val data), w).

(** [dataManager.decryptData], as replaced on [DOMContentLoaded]. *)
Definition decryptData (w : World) (encryptedData : string) : Result jsval :=
  if sm_isEncryptionEnabled w && has_key (sm_encryptionKey w) then
    Ok (VPromise (SecurityManager.decryptData (sm_encryptionKey w) encryptedData) [])
  else
    match JSON_parse encryptedData with
    | Some v => Ok (VJson v)
    | None => Throw SyntaxError
    end.

(** [getData(key)] *)
Definition getData (w : World) (key : string) : jsval :=
  let data := localStorage w !! (storagePrefix +:+ key) in
  match data with
  | None => VJson JNull
  | Some data =>
      if String.eqb data "" then VJson JNull
      else if dm_isEncrypted w && has_key (dm_encryptionKey w) then
        match decryptData w data with
        | Ok v => v
        | Throw _ => VJson JNull
        end
      else
        match JSON_parse data with
        | Some v => VJson v
        | None => VJson JNull
        end
  end.

(** [localStorage.setItem(k, v)] inside the [try] of [setData]. *)
Definition setItem (k : string) (v : Storable) (w : World) : bool * World :=
  let text := to_storage_string v in
  if storage_accepts (localStorage w) k text then
    (true, emit (EvSetItem k text) (with_localStorage (<[k := text]> (localStorage w)) w))
  else (false, w).

(** [setData(key, data)] *)
Definition setData (w : World) (key : string) (data : jsval) : bool * World :=
  let '(dataToStore, w) :=
    if dm_isEncrypted w && has_key (dm_encryptionKey w) then encryptData data w
    else (Text (stringify_val data), w) in
  setItem (storagePrefix +:+ key) dataToStore w.

(** [removeData(key)] *)
Definition removeData (w : World) (key : string) : bool * World :=
  let k := storagePrefix +:+ key in
  (true, emit (EvRemoveItem k) (with_localStorage (delete k (localStorage w)) w)).

(** [key.startsWith(prefix)] and, when it does, [key.replace(prefix, '')] *)
Fixpoint strip_prefix (prefix key : string) : option string :=
  match prefix, key with
  | EmptyString, _ => Some key
  | String a prefix', String b key' =>
      if Ascii.eqb a b then strip_prefix prefix' key' else None
  | String _ _, EmptyString => None
  end.

(** [getAllKeys()]; the storage enumerates its keys in an order of its
    own. *)
Definition getAllKeys (w : World) : list string :=
  omap (strip_prefix storagePrefix) (map fst (map_to_list (localStorage w))).

Definition default_categories : json :=
  JObj [("fixed", JArr [JStr "Car Loan EMI"; JStr "Home Loan EMI"; JStr "Utilities";
                        JStr "Insurance"; JStr "Rent"]);
        ("variable", JArr [JStr "Food & Dining"; JStr "Transport"; JStr "Healthcare";
                           JStr "Entertainment"; JStr "Shopping"; JStr "Miscellaneous"]);
        ("custom", JArr [])].

Definition default_settings : json :=
  JObj [("theme", JStr "light"); ("currency", JStr "INR");
        ("dateFormat", JStr "DD/MM/YYYY"); ("encryptionEnabled", JBool false);
        ("lastBackup", JNull)].

Definition defaults : list (string * json) :=
  [("assets", JObj [("assets", JArr []); ("history", JArr [])]);
   ("expenses", JObj [("expenses", JArr [])]);
   ("income", JObj [("income", JArr [])]);
   ("goals", JObj [("goals", JArr [])]);
   ("categories", default_categories);
   ("settings", default_settings)].

(** [initializeDefaults()] *)
Definition initializeDefaults (w : World) : World :=
  fold_left (fun w '(key, value) =>
               if negb (truthy (getData w key)) then snd (setData w key (VJson value))
               else w)
            defaults w.

(** *** Assets *)

Definition empty_assets : json := JObj [("assets", JArr []); ("history", JArr [])].

(** [a => a.name === name] *)
Definition name_is (name : option json) (a : json) : Result bool :=
  let* n := prop a "name" in Ok (strict_eq n name).

(** The three properties every history entry copies from an asset. *)
Definition history_of (name type value : option json) : list (string * json) :=
  field_opt "name" name ++ field_opt "type" type ++ field_opt "value" value.

(** What [addAsset] has made of [data] when it reaches [setData]; the
    first call of [generateId()] yields [id1], the second [id2]. *)
Definition addAsset_data (data : jsval) (asset : list (string * json))
    (now id1 id2 : string) : Result jsval :=
  let* assets := read_array data "assets" in
  let* existingIndex := findIndex (name_is (get_field "name" asset)) assets in
  let logged :=
    history_of (get_field "name" asset) (get_field "type" asset) (get_field "value" asset) in
  match existingIndex with
  | Some i =>
      let* oldValue :=
        (match assets !! i with Some a => prop a "value" | None => Ok None end) in
      let assets := <[i := JObj (set_field "lastUpdated" (JStr now) asset)]> assets in
      let* history := read_array data "history" in
      let entry :=
        JObj ([("id", JStr id1)] ++ logged ++ field_opt "previousValue" oldValue
              ++ [("timestamp", JStr now); ("action", JStr "update")]) in
      let* data := set_prop data "assets" (JArr assets) in
      set_prop data "history" (JArr (history ++ [entry]))
  | None =>
      let created :=
        JObj (set_field "lastUpdated" (JStr now)
                (set_field "created" (JStr now) (set_field "id" (JStr id1) asset))) in
      let assets := assets ++ [created] in
      let* history := read_array data "history" in
      let entry :=
        JObj ([("id", JStr id2)] ++ logged
              ++ [("timestamp", JStr now); ("action", JStr "create")]) in
      let* data := set_prop data "assets" (JArr assets) in
      set_prop data "history" (JArr (history ++ [entry]))
  end.

(** [addAsset(asset)] *)
Definition addAsset (asset : list (string * json)) (now id1 id2 : string) (w : World)
  : Result bool * World :=
  let data := or_default (getData w "assets") empty_assets in
  match addAsset_data data asset now id1 id2 with
  | Throw e => (Throw e, w)
  | Ok data => let '(ok, w) := setData w "assets" data in (Ok ok, w)
  end.

(** What [deleteAsset] has made of [data] when it reaches [setData];
    [None] when it returns [false] before. *)
Definition deleteAsset_data (data : jsval) (assetName now id : string)
  : Result (option jsval) :=
  let* assets := read_array data "assets" in
  let* assetIndex := findIndex (name_is (Some (JStr assetName))) assets in
  match assetIndex with
  | None => Ok None
  | Some i =>
      let deletedAsset := default JNull (assets !! i) in
      let assets := splice1 i assets in
      let* history := read_array data "history" in
      let* name := prop deletedAsset "name" in
      let* type := prop deletedAsset "type" in
      let* value := prop deletedAsset "value" in
      let entry :=
        JObj ([("id", JStr id)] ++ history_of name type value
              ++ [("timestamp", JStr now); ("action", JStr "delete")]) in
      let* data := set_prop data "assets" (JArr assets) in
      let* data := set_prop data "history" (JArr (history ++ [entry])) in
      Ok (Some data)
  end.

(** [deleteAsset(assetName)] *)
Definition deleteAsset (assetName now id : string) (w : World) : Result bool * World :=
  let data := or_default (getData w "assets") empty_assets in
  match deleteAsset_data data assetName now id with
  | Throw e => (Throw e, w)
  | Ok None => (Ok false, w)
  | Ok (Some data) => let '(ok, w) := setData w "assets" data in (Ok ok, w)
  end.

(** [getAssets()], [getAssetHistory()] *)
Definition getAssets (w : World) : Result (option json) :=
  prop_val (or_default (getData w "assets") empty_assets) "assets".

Definition getAssetHistory (w : World) : Result (option json) :=
  prop_val (or_default (getData w "assets") empty_assets) "history".

(** *** Goals *)

Definition empty_goals : json := JObj [("goals", JArr [])].

(** [g => g.id === goalId] *)
Definition id_is (goalId : string) (g : json) : Result bool :=
  let* i := prop g "id" in Ok (strict_eq i (Some (JStr goalId))).

Definition addGoal_data (data : jsval) (goal : list (string * json)) (id now : string)
  : Result jsval :=
  let* goals := read_array data "goals" in
  let created :=
    JObj (set_field "created" (JStr now)
            (set_field "savingsDetails" (JArr [])
               (set_field "saved" (JNum 0) (set_field "id" (JStr id) goal)))) in
  set_prop data "goals" (JArr (goals ++ [created])).

(** [addGoal(goal)] *)
Definition addGoal (goal : list (string * json)) (id now : string) (w : World)
  : Result bool * World :=
  let data := or_default (getData w "goals") empty_goals in
  match addGoal_data data goal id now with
  | Throw e => (Throw e, w)
  | Ok data => let '(ok, w) := setData w "goals" data in (Ok ok, w)
  end.

Definition deleteGoal_data (data : jsval) (goalId : string) : Result (option jsval) :=
  let* goals := read_array data "goals" in
  let* goalIndex := findIndex (id_is goalId) goals in
  match goalIndex with
  | None => Ok None
  | Some i =>
      let* data := set_prop data "goals" (JArr (splice1 i goals)) in
      Ok (Some data)
  end.

(** [deleteGoal(goalId)] *)
Definition deleteGoal (goalId : string) (w : World) : Result bool * World :=
  let data := or_default (getData w "goals") empty_goals in
  match deleteGoal_data data goalId with
  | Throw e => (Throw e, w)
  | Ok None => (Ok false, w)
  | Ok (Some data) => let '(ok, w) := setData w "goals" data in (Ok ok, w)
  end.

(** [items.reduce((total, s) => total + s.amount, total)] on the elements
    of an array; [s.amount] is a [TypeError] on [null], and so is [+] on
    an operand without a primitive value. *)
Fixpoint reduce_amounts (total : primitive) (items : list json) : Result primitive :=
  match items with
  | [] => Ok total
  | s :: rest =>
      let* amount := prop s "amount" in
      let* total := plus total amount in
      reduce_amounts total rest
  end.

(** [savingsDetails.reduce((total, s) => total + s.amount, 0)], whatever the
    argument is ([None]: [undefined]): only an array has a [reduce]. *)
Definition total_saved (savingsDetails : option json) : Result primitive :=
  match savingsDetails with
  | Some (JArr items) => reduce_amounts (PNum (Finite 0)) items
  | _ => Throw TypeError
  end.

(** What [updateGoalSavings] has made of [data] when it reaches [setData];
    [None] when it returns [false] before. [goal.saved] is kept as
    [JSON.stringify] will write it. With an [undefined] argument the call
    of [reduce] throws. *)
Definition updateGoalSavings_data (data : jsval) (goalId : string)
    (savingsDetails : option json) (now : string) : Result (option jsval) :=
  let* goals := read_array data "goals" in
  let* goalIndex := findIndex (id_is goalId) goals in
  match goalIndex with
  | None => Ok None
  | Some i =>
      let goal := default JNull (goals !! i) in
      match savingsDetails with
      | None => Throw TypeError
      | Some details =>
          let* goal := set_prop_json goal "savingsDetails" details in
          let* saved := total_saved savingsDetails in
          let* goal := set_prop_json goal "saved" (stringified saved) in
          let* goal := set_prop_json goal "lastUpdated" (JStr now) in
          let* data := set_prop data "goals" (JArr (<[i := goal]> goals)) in
          Ok (Some data)
      end
  end.

(** [updateGoalSavings(goalId, savingsDetails)] *)
Definition updateGoalSavings (goalId : string) (savingsDetails : option json)
    (now : string) (w : World) : Result bool * World :=
  let data := or_default (getData w "goals") empty_goals in
  match updateGoalSavings_data data goalId savingsDetails now with
  | Throw e => (Throw e, w)
  | Ok None => (Ok false, w)
  | Ok (Some data) => let '(ok, w) := setData w "goals" data in (Ok ok, w)
  end.

(** [getGoals()] *)
Definition getGoals (w : World) : Result (option json) :=
  prop_val (or_default (getData w "goals") empty_goals) "goals".

(** *** Expenses and income *)

Definition empty_expenses : json := JObj [("expenses", JArr [])].

(** What [addExpense] has made of [data] when it reaches [setData]. *)
Definition addExpense_data (data : jsval) (expense : list (string * json))
    (id timestamp : string) : Result jsval :=
  let* expenses := read_array data "expenses" in
  let created :=
    JObj (set_field "timestamp" (JStr timestamp) (set_field "id" (JStr id) expense)) in
  set_prop data "expenses" (JArr (expenses ++ [created])).

(** [addExpense(expense)] *)
Definition addExpense (expense : list (string * json)) (id timestamp : string) (w : World)
  : Result bool * World :=
  let data := or_default (getData w "expenses") empty_expenses in
  match addExpense_data data expense id timestamp with
  | Throw e => (Throw e, w)
  | Ok data => let '(ok, w) := setData w "expenses" data in (Ok ok, w)
  end.

Definition deleteExpense_data (data : jsval) (expenseId : string) : Result (option jsval) :=
  let* expenses := read_array data "expenses" in
  let* expenseIndex := findIndex (id_is expenseId) expenses in
  match expenseIndex with
  | None => Ok None
  | Some i =>
      let* data := set_prop data "expenses" (JArr (splice1 i expenses)) in
      Ok (Some data)
  end.

(** [deleteExpense(expenseId)] *)
Definition deleteExpense (expenseId : string) (w : World) : Result bool * World :=
  let data := or_default (getData w "expenses") empty_expenses in
  match deleteExpense_data data expenseId with
  | Throw e => (Throw e, w)
  | Ok None => (Ok false, w)
  | Ok (Some data) => let '(ok, w) := setData w "expenses" data in (Ok ok, w)
  end.

Definition empty_income : json := JObj [("income", JArr [])].

Definition addIncome_data (data : jsval) (income : list (string * json))
    (id timestamp : string) : Result jsval :=
  let* incomes := read_array data "income" in
  let created :=
    JObj (set_field "timestamp" (JStr timestamp) (set_field "id" (JStr id) income)) in
  set_prop data "income" (JArr (incomes ++ [created])).

(** [addIncome(income)] *)
Definition addIncome (income : list (string * json)) (id timestamp : string) (w : World)
  : Result bool * World :=
  let data := or_default (getData w "income") empty_income in
  match addIncome_data data income id timestamp with
  | Throw e => (Throw e, w)
  | Ok data => let '(ok, w) := setData w "income" data in (Ok ok, w)
  end.

Definition deleteIncome_data (data : jsval) (incomeId : string) : Result (option jsval) :=
  let* incomes := read_array data "income" in
  let* incomeIndex := findIndex (id_is incomeId) incomes in
  match incomeIndex with
  | None => Ok None
  | Some i =>
      let* data := set_prop data "income" (JArr (splice1 i incomes)) in
      Ok (Some data)
  end.

(** [deleteIncome(incomeId)] *)
Definition deleteIncome (incomeId : string) (w : World) : Result bool * World :=
  let data := or_default (getData w "income") empty_income in
  match deleteIncome_data data incomeId with
  | Throw e => (Throw e, w)
  | Ok None => (Ok false, w)
  | Ok (Some data) => let '(ok, w) := setData w "income" data in (Ok ok, w)
  end.

(** *** Export, import and reset *)

(** [o[k] = v] on an object whose properties can hold promises. *)
Fixpoint assign {A : Type} (k : string) (v : A) (props : list (string * A))
  : list (string * A) :=
  match props with
  | [] => [(k, v)]
  | (k', v') :: rest =>
      if String.eqb k k' then (k, v) :: rest else (k', v') :: assign k v rest
  end.

(** [exportAllData()]; [now] is [new Date().toISOString()]. *)
Definition exportAllData (now : string) (w : World) : list (string * jsval) :=
  let keys := getAllKeys w in
  let allData := fold_left (fun allData key => assign key (getData w key) allData) keys [] in
  let allData := assign "exportDate" (VJson (JStr now)) allData in
  assign "version" (VJson (JStr "1.0")) allData.

(** The decimal numeral of an array index, as [Object.keys] lists it. *)
Definition index_key (i : nat) : string := NilEmpty.string_of_uint (Nat.to_uint i).

(** [Object.keys(v).map(key => [key, v[key]])] for a value that passed
    [!v || typeof v !== 'object'], in the order of the fields; [None] for
    a value that did not pass. (A browser lists the property names that
    are array indices first; only the order of the writes of [importData]
    depends on it.) *)
Definition own_entries (v : json) : option (list (string * json)) :=
  match v with
  | JObj fields =>
      Some (map (fun key => (key, default JNull (get_field key fields))) (map fst fields))
  | JArr items => Some (imap (fun i x => (index_key i, x)) items)
  | _ => None
  end.

(** [{ success: true, backup }] and [{ success: false, error }] *)
Inductive ImportResult : Type :=
| Imported (backup : list (string * jsval))
| ImportFailed (error : string).

(** [importData(importedData)] *)
Definition importData (importedData : json) (now : string) (w : World)
  : ImportResult * World :=
  match own_entries importedData with
  | None => (ImportFailed "Invalid data format", w)
  | Some entries =>
      let backup := exportAllData now w in
      let w :=
        fold_left (fun w '(key, value) =>
                     if negb (String.eqb key "exportDate") && negb (String.eqb key "version")
                     then snd (setData w key (VJson value))
                     else w)
                  entries w in
      (Imported backup, w)
  end.

(** [clearAllData()] *)
Definition clearAllData (w : World) : World :=
  let keys := getAllKeys w in
  let w := fold_left (fun w key => snd (removeData w key)) keys w in
  initializeDefaults w.
End WithHost.
End DataManager.

(** ** js/security.js: the flows of class [SecurityManager]

    Each flow is run from its first prompt to its [return]; the answers to
    its prompts are arguments ([None]: the prompt was cancelled). *)
Module SecuritySession.
Section WithHost.
Context `{Host}.

Definition maxAttempts : nat := 3.

(** [showAlert(message, type)] *)
Definition showAlert (message type : string) (w : World) : World :=
  emit (EvAlert message type) w.

(** [lockApp()] *)
Definition lockApp (w : World) : World :=
  emit EvLockApp (with_appLocked true w).

(** [async verifyPassword(key)]: the saved key is put back only on the
    path where [decryptData] returns. *)
Definition verifyPassword (key : CryptoKey) (w : World) : bool * World :=
  let encryptedSettings := localStorage w !! "financeTracker_settings" in
  match encryptedSettings with
  | None => (true, w)
  | Some encryptedSettings =>
      if String.eqb encryptedSettings "" then (true, w)
      else
        let tempKey := sm_encryptionKey w in
        let w := with_sm_encryptionKey (Some key) w in
        match SecurityManager.decryptData (sm_encryptionKey w) encryptedSettings with
        | Ok _ => (true, with_sm_encryptionKey tempKey w)
        | Throw _ => (false, w)
        end
  end.

(** [async reencryptAllData()] *)
Definition reencryptAllData (w : World) : World :=
  let keys := DataManager.getAllKeys w in
  fold_left (fun w key =>
               let data := DataManager.getData w key in
               if truthy data then snd (DataManager.setData w key data) else w)
            keys w.

(** [async decryptAllData()] *)
Definition decryptAllData (w : World) : World :=
  let keys := DataManager.getAllKeys w in
  let tempKey := sm_encryptionKey w in
  let w := DataManager.removeEncryption w in
  fold_left (fun w key =>
               let rawData := localStorage w !! ("financeTracker_" +:+ key) in
               match rawData with
               | None => w
               | Some rawData =>
                   if String.eqb rawData "" then w
                   else
                     let w := with_sm_encryptionKey tempKey w in
                     match SecurityManager.decryptData (sm_encryptionKey w) rawData with
                     | Ok decryptedData =>
                         let w := with_sm_encryptionKey None w in
                         snd (DataManager.setData w key (VJson decryptedData))
                     | Throw _ => w
                     end
               end)
            keys w.

(** [async enableEncryption()]; [confirmPassword] answers the second
    prompt, which is shown when the first answer is not empty. *)
Definition enableEncryption (password confirmPassword : option string) (w : World)
  : World :=
  match password with
  | None => w
  | Some pw =>
      if String.eqb pw "" then w
      else if negb (bool_decide (confirmPassword = Some pw)) then
        showAlert "Passwords do not match!" "error" w
      else
        let '(key, w) := SecurityManager.deriveKey pw w in
        let w := with_sm_encryptionKey (Some key) w in
        let w := reencryptAllData w in
        let settings := or_default (DataManager.getData w "settings") (JObj []) in
        match set_prop settings "encryptionEnabled" (JBool true) with
        | Throw _ =>
            showAlert "Failed to enable encryption. Please try again." "error" w
        | Ok settings =>
            let w := snd (DataManager.setData w "settings" settings) in
            let w := DataManager.setEncryptionKey (sm_encryptionKey w) w in
            let w := with_sm_isEncryptionEnabled true w in
            showAlert "Encryption enabled successfully!" "success" w
        end
  end.

(** [async disableEncryption()] *)
Definition disableEncryption (password : option string) (w : World) : World :=
  match password with
  | None => w
  | Some pw =>
      if String.eqb pw "" then w
      else
        let '(key, w) := SecurityManager.deriveKey pw w in
        let '(verified, w) := verifyPassword key w in
        if negb verified then showAlert "Incorrect password!" "error" w
        else
          let w := decryptAllData w in
          let settings := or_default (DataManager.getData w "settings") (JObj []) in
          match set_prop settings "encryptionEnabled" (JBool false) with
          | Throw _ =>
              showAlert "Failed to disable encryption. Please check your password."
                "error" w
          | Ok settings =>
              let w := snd (DataManager.setData w "settings" settings) in
              let w := DataManager.removeEncryption w in
              let w := with_sm_isEncryptionEnabled false w in
              let w := with_sm_encryptionKey None w in
              showAlert "Encryption disabled successfully!" "success" w
          end
  end.

(** [async toggleEncryption()] *)
Definition toggleEncryption (answer1 answer2 : option string) (w : World) : World :=
  if negb (sm_isEncryptionEnabled w) then enableEncryption answer1 answer2 w
  else disableEncryption answer1 w.

(** The decimal numeral of [n], as a template literal prints it. *)
Definition show_nat (n : nat) : string := NilEmpty.string_of_uint (Nat.to_uint n).

(** The loop of [requestPassword], entered with [attempts] failures so
    far; one answer is read per turn, and the flow waits at its prompt
    when the answers run out. *)
Fixpoint requestPassword_loop (attempts : nat) (answers : list (option string))
    (w : World) : World :=
  if (attempts <? maxAttempts)%nat then
    match answers with
    | [] => w
    | None :: _ => lockApp w
    | Some password :: answers =>
        if String.eqb password "" then lockApp w
        else
          let '(key, w) := SecurityManager.deriveKey password w in
          let '(verified, w) := verifyPassword key w in
          if verified then
            let w := with_sm_encryptionKey (Some key) w in
            DataManager.setEncryptionKey (Some key) w
          else
            let attempts := S attempts in
            let w :=
              showAlert ("Incorrect password. " +:+ show_nat (maxAttempts - attempts)
                         +:+ " attempts remaining.") "error" w in
            requestPassword_loop attempts answers w
    end
  else lockApp w.

(** [async requestPassword()] *)
Definition requestPassword (answers : list (option string)) (w : World) : World :=
  requestPassword_loop 0 answers w.

(** [loadEncryptionState()] *)
Definition loadEncryptionState (answers : list (option string)) (w : World) : World :=
  let settings := DataManager.getData w "settings" in
  let enabled :=
    truthy settings &&
    match prop_val settings "encryptionEnabled" with
    | Ok (Some v) => truthy_json v
    | _ => false
    end in
  if enabled then
    let w := with_sm_isEncryptionEnabled true w in
    requestPassword answers w
  else w.

(** [async showChangePasswordModal()]; the three answers are those to the
    prompts for the current password, the new one and its confirmation. *)
Definition showChangePasswordModal (currentPassword newPassword confirmPassword : option string)
    (w : World) : World :=
  if negb (sm_isEncryptionEnabled w) then showAlert "Encryption is not enabled." "info" w
  else
    match currentPassword with
    | None => w
    | Some cpw =>
        if String.eqb cpw "" then w
        else
          let '(currentKey, w) := SecurityManager.deriveKey cpw w in
          let '(verified, w) := verifyPassword currentKey w in
          if negb verified then showAlert "Incorrect current password!" "error" w
          else
            match newPassword with
            | None => w
            | Some npw =>
                if String.eqb npw "" then w
                else if negb (bool_decide (confirmPassword = Some npw)) then
                  showAlert "New passwords do not match!" "error" w
                else
                  let '(newKey, w) := SecurityManager.deriveKey npw w in
                  let w := with_sm_encryptionKey (Some newKey) w in
                  let w := reencryptAllData w in
                  let w := DataManager.setEncryptionKey (Some newKey) w in
                  showAlert "Password changed successfully!" "success" w
            end
    end.

(** [s.charAt(i)] *)
Definition charAt (s : string) (i : nat) : string :=
  match String.get i s with
  | Some c => String c EmptyString
  | None => EmptyString
  end.

Definition backup_chars : string := "ABCDEFGHIJKLMNOPQRSTUVWXYZ0123456789".

(** [generateBackupCode()]; [random i] is the value of
    [Math.floor(Math.random() * chars.length)] in the turn [i] of the loop. *)
Definition generateBackupCode (random : nat -> nat) : string :=
  fold_left (fun code i =>
               let code :=
                 if (0 <? i)%nat && (i mod 4 =? 0)%nat then code +:+ "-" else code in
               code +:+ charAt backup_chars (random i))
            (seq 0 16) "".
End WithHost.
End SecuritySession.

(** ** A reference host

    A small executable browser on which the embedding runs on concrete
    inputs: compact JSON text as [JSON.stringify] writes it, base64 as
    [btoa] writes it, an unbounded storage, and a stand-in cipher that tags
    the plaintext with its one-byte key (it keeps the two properties of
    AES-GCM the flows use: decryption under the key returns the plaintext,
    under another key it fails). *)
Module RefHost.

Definition dquote : ascii := "034"%char.
Definition backslash : ascii := "092"%char.

(** *** JSON text *)

Definition hex_digit (n : N) : ascii :=
  if (n <? 10)%N then ascii_of_N (48 + n) else ascii_of_N (87 + n).

Definition hex_value (c : ascii) : option N :=
  let x := N_of_ascii c in
  if ((48 <=? x) && (x <=? 57))%N then Some (x - 48)%N
  else if ((97 <=? x) && (x <=? 102))%N then Some (x - 87)%N
  else if ((65 <=? x) && (x <=? 70))%N then Some (x - 55)%N
  else None.

Definition escape_char (c : ascii) : list ascii :=
  let x := N_of_ascii c in
  if Ascii.eqb c dquote then [backslash; dquote]
  else if Ascii.eqb c backslash then [backslash; backslash]
  else if (x =? 8)%N then [backslash; "b"%char]
  else if (x =? 9)%N then [backslash; "t"%char]
  else if (x =? 10)%N then [backslash; "n"%char]
  else if (x =? 12)%N then [backslash; "f"%char]
  else if (x =? 13)%N then [backslash; "r"%char]
  else if (x <? 32)%N then
    [backslash; "u"%char; "0"%char; "0"%char; hex_digit (x / 16); hex_digit (x mod 16)]
  else [c].

Definition print_string (s : string) : list ascii :=
  dquote :: flat_map escape_char (list_ascii_of_string s) ++ [dquote].

Definition print_int (d : Decimal.int) : list ascii :=
  list_ascii_of_string (NilEmpty.string_of_int d).

Fixpoint join (parts : list (list ascii)) : list ascii :=
  match parts with
  | [] => []
  | [p] => p
  | p :: rest => p ++ ","%char :: join rest
  end.

Fixpoint print (v : json) : list ascii :=
  match v with
  | JNull => list_ascii_of_string "null"
  | JBool true => list_ascii_of_string "true"
  | JBool false => list_ascii_of_string "false"
  | JNum n => print_int (Z.to_int n)
  | JStr s => print_string s
  | JArr items => "["%char :: join (map print items) ++ ["]"%char]
  | JObj fields =>
      "{"%char
        :: join (map (fun kv => print_string (fst kv) ++ ":"%char :: print (snd kv)) fields)
        ++ ["}"%char]
  end.

(** The character a one-letter escape stands for. *)
Definition unescape (e : ascii) : option ascii :=
  if Ascii.eqb e dquote then Some dquote
  else if Ascii.eqb e backslash then Some backslash
  else if Ascii.eqb e "/" then Some "/"%char
  else if Ascii.eqb e "b" then Some (ascii_of_N 8)
  else if Ascii.eqb e "t" then Some (ascii_of_N 9)
  else if Ascii.eqb e "n" then Some (ascii_of_N 10)
  else if Ascii.eqb e "f" then Some (ascii_of_N 12)
  else if Ascii.eqb e "r" then Some (ascii_of_N 13)
  else None.

(** [\uXXXX] for the code points below 128 (one byte of UTF-8). *)
Definition unescape_u (h1 h2 h3 h4 : ascii) : option ascii :=
  match hex_value h1, hex_value h2, hex_value h3, hex_value h4 with
  | Some 0%N, Some 0%N, Some a, Some b =>
      if (a <? 8)%N then Some (ascii_of_N (16 * a + b)) else None
  | _, _, _, _ => None
  end.

Definition cons_char (c : ascii) (r : option (list ascii * list ascii))
  : option (list ascii * list ascii) :=
  match r with
  | Some (cs, rest) => Some (c :: cs, rest)
  | None => None
  end.

(** The characters of a string literal after its opening quote, and what
    follows the closing quote. *)
Fixpoint parse_chars (s : list ascii) : option (list ascii * list ascii) :=
  match s with
  | [] => None
  | c :: r =>
      if Ascii.eqb c dquote then Some ([], r)
      else if Ascii.eqb c backslash then
        match r with
        | [] => None
        | e :: r1 =>
            if Ascii.eqb e "u" then
              match r1 with
              | h1 :: h2 :: h3 :: h4 :: r2 =>
                  match unescape_u h1 h2 h3 h4 with
                  | Some ch => cons_char ch (parse_chars r2)
                  | None => None
                  end
              | _ => None
              end
            else
              match unescape e with
              | Some ch => cons_char ch (parse_chars r1)
              | None => None
              end
        end
      else if (N_of_ascii c <? 32)%N then None
      else cons_char c (parse_chars r)
  end.

Definition digit (c : ascii) : option (uint -> uint) :=
  if Ascii.eqb c "0" then Some D0 else if Ascii.eqb c "1" then Some D1
  else if Ascii.eqb c "2" then Some D2 else if Ascii.eqb c "3" then Some D3
  else if Ascii.eqb c "4" then Some D4 else if Ascii.eqb c "5" then Some D5
  else if Ascii.eqb c "6" then Some D6 else if Ascii.eqb c "7" then Some D7
  else if Ascii.eqb c "8" then Some D8 else if Ascii.eqb c "9" then Some D9
  else None.

(** The longest run of digits at the head of [s], and what follows it. *)
Fixpoint scan_digits (s : list ascii) : uint * list ascii :=
  match s with
  | [] => (Nil, [])
  | c :: r =>
      match digit c with
      | Some d => let '(ds, rest) := scan_digits r in (d ds, rest)
      | None => (Nil, s)
      end
  end.

Definition parse_number (negative : bool) (s : list ascii) : option (json * list ascii) :=
  match scan_digits s with
  | (Nil, _) => None
  | (ds, rest) => Some (JNum (Z.of_int (if negative then Neg ds else Pos ds)), rest)
  end.

Fixpoint expect (word s : list ascii) : option (list ascii) :=
  match word, s with
  | [], _ => Some s
  | a :: word', b :: s' => if Ascii.eqb a b then expect word' s' else None
  | _ :: _, [] => None
  end.

Fixpoint parse_value (fuel : nat) (s : list ascii) : option (json * list ascii) :=
  match fuel with
  | O => None
  | S fuel =>
      match s with
      | [] => None
      | c :: r =>
          if Ascii.eqb c "n" then
            option_map (pair JNull) (expect (list_ascii_of_string "ull") r)
          else if Ascii.eqb c "t" then
            option_map (pair (JBool true)) (expect (list_ascii_of_string "rue") r)
          else if Ascii.eqb c "f" then
            option_map (pair (JBool false)) (expect (list_ascii_of_string "alse") r)
          else if Ascii.eqb c dquote then
            match parse_chars r with
            | Some (cs, rest) => Some (JStr (string_of_list_ascii cs), rest)
            | None => None
            end
          else if Ascii.eqb c "[" then
            match r with
            | c' :: r' =>
                if Ascii.eqb c' "]" then Some (JArr [], r')
                else
                  match parse_elements fuel r with
                  | Some (items, rest) => Some (JArr items, rest)
                  | None => None
                  end
            | [] => None
            end
          else if Ascii.eqb c "{" then
            match r with
            | c' :: r' =>
                if Ascii.eqb c' "}" then Some (JObj [], r')
                else
                  match parse_members fuel r with
                  | Some (fields, rest) => Some (JObj fields, rest)
                  | None => None
                  end
            | [] => None
            end
          else if Ascii.eqb c "-" then parse_number true r
          else parse_number false s
      end
  end
with parse_elements (fuel : nat) (s : list ascii) : option (list json * list ascii) :=
  match fuel with
  | O => None
  | S fuel =>
      match parse_value fuel s with
      | Some (v, c :: rest) =>
          if Ascii.eqb c "," then
            match parse_elements fuel rest with
            | Some (vs, rest) => Some (v :: vs, rest)
            | None => None
            end
          else if Ascii.eqb c "]" then Some ([v], rest)
          else None
      | _ => None
      end
  end
with parse_members (fuel : nat) (s : list ascii)
  : option (list (string * json) * list ascii) :=
  match fuel with
  | O => None
  | S fuel =>
      match s with
      | q :: s1 =>
          if Ascii.eqb q dquote then
            match parse_chars s1 with
            | Some (k, colon :: s2) =>
                if Ascii.eqb colon ":" then
                  match parse_value fuel s2 with
                  | Some (v, c :: rest) =>
                      let key := string_of_list_ascii k in
                      if Ascii.eqb c "," then
                        match parse_members fuel rest with
                        | Some (fs, rest) => Some ((key, v) :: fs, rest)
                        | None => None
                        end
                      else if Ascii.eqb c "}" then Some ([(key, v)], rest)
                      else None
                  | _ => None
                  end
                else None
            | _ => None
            end
          else None
      | [] => None
      end
  end.

(** What may follow a number: anything but a digit. *)
Definition safe (rest : list ascii) : Prop :=
  match rest with
  | [] => True
  | c :: _ => digit c = None
  end.

Definition digits (d : uint) : list ascii :=
  list_ascii_of_string (NilEmpty.string_of_uint d).

Definition member (kv : string * json) : list ascii :=
  print_string (fst kv) ++ ":"%char :: print (snd kv).

(** The fuel a value needs. *)
Fixpoint size (v : json) : nat :=
  match v with
  | JArr items => S (list_sum (map (fun x => S (size x)) items))
  | JObj fields => S (list_sum (map (fun kv => S (size (snd kv))) fields))
  | _ => 1
  end.

Definition reads_back (v : json) : Prop :=
  forall fuel rest,
    (size v <= fuel)%nat -> safe rest -> parse_value fuel (print v ++ rest) = Some (v, rest).

Definition stringify (v : json) : string := string_of_list_ascii (print v).

Definition parse (s : string) : option json :=
  let text := list_ascii_of_string s in
  match parse_value (S (length text)) text with
  | Some (v, []) => Some v
  | _ => None
  end.

(** *** base64 *)

Definition b64_char (n : N) : ascii :=
  if (n <? 26)%N then ascii_of_N (65 + n)
  else if (n <? 52)%N then ascii_of_N (71 + n)
  else if (n <? 62)%N then ascii_of_N (n - 4)
  else if (n =? 62)%N then "+"%char
  else "/"%char.

Definition b64_value (c : ascii) : option N :=
  let x := N_of_ascii c in
  if ((65 <=? x) && (x <=? 90))%N then Some (x - 65)%N
  else if ((97 <=? x) && (x <=? 122))%N then Some (x - 71)%N
  else if ((48 <=? x) && (x <=? 57))%N then Some (x + 4)%N
  else if (x =? 43)%N then Some 62%N
  else if (x =? 47)%N then Some 63%N
  else None.

Definition pad : ascii := "="%char.

Fixpoint b64_encode (bs : list byte) : list ascii :=
  match bs with
  | [] => []
  | [a] =>
      let x := Byte.to_N a in
      [b64_char (x / 4); b64_char (x mod 4 * 16); pad; pad]
  | [a; b] =>
      let x := Byte.to_N a in
      let y := Byte.to_N b in
      [b64_char (x / 4); b64_char (x mod 4 * 16 + y / 16); b64_char (y mod 16 * 4); pad]
  | a :: b :: c :: rest =>
      let x := Byte.to_N a in
      let y := Byte.to_N b in
      let z := Byte.to_N c in
      b64_char (x / 4) :: b64_char (x mod 4 * 16 + y / 16)
        :: b64_char (y mod 16 * 4 + z / 64) :: b64_char (z mod 64) :: b64_encode rest
  end%N.

(** The bytes of one group of sextets. *)
Definition bytes1 (v1 v2 : N) : option (list byte) :=
  match Byte.of_N (v1 * 4 + v2 / 16) with
  | Some a => Some [a]
  | None => None
  end.

Definition bytes2 (v1 v2 v3 : N) : option (list byte) :=
  match Byte.of_N (v1 * 4 + v2 / 16), Byte.of_N (v2 mod 16 * 16 + v3 / 4) with
  | Some a, Some b => Some [a; b]
  | _, _ => None
  end.

Definition bytes3 (v1 v2 v3 v4 : N) : option (list byte) :=
  match Byte.of_N (v1 * 4 + v2 / 16), Byte.of_N (v2 mod 16 * 16 + v3 / 4),
        Byte.of_N (v3 mod 4 * 64 + v4) with
  | Some a, Some b, Some c => Some [a; b; c]
  | _, _, _ => None
  end.

(** Groups of four characters; the last group may be padded or cut
    short. The whitespace [atob] skips is not skipped. *)
Fixpoint b64_decode (s : list ascii) : option (list byte) :=
  match s with
  | [] => Some []
  | [c1; c2] =>
      match b64_value c1, b64_value c2 with
      | Some v1, Some v2 => bytes1 v1 v2
      | _, _ => None
      end
  | [c1; c2; c3] =>
      match b64_value c1, b64_value c2, b64_value c3 with
      | Some v1, Some v2, Some v3 => bytes2 v1 v2 v3
      | _, _, _ => None
      end
  | c1 :: c2 :: c3 :: c4 :: rest =>
      match b64_value c1, b64_value c2 with
      | Some v1, Some v2 =>
          match b64_value c3, b64_value c4, rest with
          | Some v3, Some v4, _ =>
              match bytes3 v1 v2 v3 v4, b64_decode rest with
              | Some g, Some bs => Some (g ++ bs)
              | _, _ => None
              end
          | Some v3, None, [] => if Ascii.eqb c4 pad then bytes2 v1 v2 v3 else None
          | None, None, [] =>
              if Ascii.eqb c3 pad && Ascii.eqb c4 pad then bytes1 v1 v2 else None
          | _, _, _ => None
          end
      | _, _ => None
      end
  | _ => None
  end.

Definition ref_btoa (bs : list byte) : string := string_of_list_ascii (b64_encode bs).
Definition ref_atob (s : string) : option (list byte) := b64_decode (list_ascii_of_string s).

(** *** The stand-in cipher *)

(** The key of a password: its first byte. *)
Definition ref_deriveKey (params : Pbkdf2Params) (material : list byte)
    (derived : AesKeyGenParams) : byte :=
  match material with
  | b :: _ => b
  | [] => x00
  end.

Definition ref_encrypt (key : byte) (iv data : list byte) : list byte := key :: data.

Definition ref_decrypt (key : byte) (iv data : list byte) : option (list byte) :=
  match data with
  | tag :: plaintext => if Byte.eqb tag key then Some plaintext else None
  | [] => None
  end.

Definition ref_random (i n : nat) : list byte :=
  repeat (default x00 (Byte.of_N (N.of_nat i mod 256))) n.

Definition host : Host := {|
  CryptoKey := byte;
  JSON_stringify := stringify;
  JSON_parse := parse;
  btoa := ref_btoa;
  atob := ref_atob;
  subtle_deriveKey := ref_deriveKey;
  subtle_encrypt := ref_encrypt;
  subtle_decrypt := ref_decrypt;
  getRandomValues := ref_random;
  storage_accepts := fun _ _ _ => true
|}.

(** The page when the scripts have run on an empty storage. *)
Definition fresh : @World host :=
  @DataManager.initializeDefaults host
    (@mkWorld host ∅ false None false None false O []).

(** *** A storage with a quota *)

(** The characters a storage holds: the names and the values of its
    entries. *)
Definition storage_size (ls : gmap string string) : nat :=
  map_fold (fun k v n => (n + String.length k + String.length v)%nat) O ls.

(** The same browser with a storage of [quota] characters. *)
Definition limited (quota : nat) : Host := {|
  CryptoKey := byte;
  JSON_stringify := stringify;
  JSON_parse := parse;
  btoa := ref_btoa;
  atob := ref_atob;
  subtle_deriveKey := ref_deriveKey;
  subtle_encrypt := ref_encrypt;
  subtle_decrypt := ref_decrypt;
  getRandomValues := ref_random;
  storage_accepts := fun ls k v => (storage_size (<[k := v]> ls) <=? quota)%nat
|}.
End RefHost.

(** ** The vocabulary of the properties *)

(** [s.amount] when it is a number. *)
Definition amount_of (s : json) : option Z :=
  match s with
  | JObj fields =>
      match get_field "amount" fields with
      | Some (JNum a) => Some a
      | _ => None
      end
  | _ => None
  end.

(** The sum of the [amount]s of a [savingsDetails] list. *)
Fixpoint sum_amounts (details : list json) : option Z :=
  match details with
  | [] => Some 0
  | s :: rest =>
      match amount_of s, sum_amounts rest with
      | Some a, Some t => Some (a + t)
      | _, _ => None
      end
  end.

(** [goal.saved] is the sum of the amounts of [goal.savingsDetails]. *)
Definition saved_is_sum (goal : json) : bool :=
  match goal with
  | JObj fields =>
      match get_field "saved" fields, get_field "savingsDetails" fields with
      | Some (JNum saved), Some (JArr details) =>
          match sum_amounts details with
          | Some total => saved =? total
          | None => false
          end
      | _, _ => false
      end
  | _ => false
  end.

(** The array a value holds under [k], as the operations read it. *)
Definition array_in (data : jsval) (k : string) : list json :=
  match prop_val data k with
  | Ok (Some (JArr items)) => items
  | _ => []
  end.

Inductive GoalOp : Type :=
| AddGoal (goal : list (string * json)) (id now : string)
| DeleteGoal (goalId : string)
| UpdateGoalSavings (goalId : string) (savingsDetails : option json) (now : string).

(** The totals of [reduce] from [total] on are exact: every element is an
    object with an integer [amount], and every amount and every running
    total has a magnitude below [2^53], where a double holds every
    integer. *)
Fixpoint safe_totals (total : Z) (details : list json) : bool :=
  match details with
  | [] => true
  | s :: rest =>
      match amount_of s with
      | Some a =>
          (Z.abs a <? 2 ^ 53) && (Z.abs (total + a) <? 2 ^ 53)
          && safe_totals (total + a) rest
      | None => false
      end
  end.

(** The argument of an [updateGoalSavings] is an array whose totals are
    exact. *)
Definition exact_savings (savingsDetails : option json) : bool :=
  match savingsDetails with
  | Some (JArr details) => safe_totals 0 details
  | _ => false
  end.

Definition exact_update (op : GoalOp) : bool :=
  match op with
  | UpdateGoalSavings _ savingsDetails _ => exact_savings savingsDetails
  | _ => true
  end.

(** [a.name === b.name] for two [a.name], [b.name] that were read without
    a [TypeError]. *)
Definition same_name (x y : Result (option json)) : bool :=
  match x, y with
  | Ok x, Ok y => strict_eq x y
  | _, _ => false
  end.

Fixpoint distinct (names : list (Result (option json))) : bool :=
  match names with
  | [] => true
  | n :: rest => forallb (fun m => negb (same_name n m)) rest && distinct rest
  end.

(** The names of a list of assets are pairwise distinct. *)
Definition unique_names (assets : list json) : bool :=
  distinct ((fun a => prop a "name") <$> assets).

Inductive AssetOp : Type :=
| AddAsset (asset : list (string * json)) (now id1 id2 : string)
| DeleteAsset (assetName now id : string).

(** The entry [addAsset] logs when it replaces [old], and when it appends. *)
Definition update_entry (asset : list (string * json)) (oldValue : option json)
    (now id : string) : json :=
  JObj ([("id", JStr id)]
        ++ DataManager.history_of (get_field "name" asset) (get_field "type" asset)
             (get_field "value" asset)
        ++ field_opt "previousValue" oldValue
        ++ [("timestamp", JStr now); ("action", JStr "update")]).

Definition create_entry (asset : list (string * json)) (now id : string) : json :=
  JObj ([("id", JStr id)]
        ++ DataManager.history_of (get_field "name" asset) (get_field "type" asset)
             (get_field "value" asset)
        ++ [("timestamp", JStr now); ("action", JStr "create")]).

(** What [addAsset] makes of the assets and of the history it has read. *)
Definition upsert (assets history : list json) (asset : list (string * json))
    (now id1 id2 : string) (assets' history' : list json) : Prop :=
  (exists i old oldValue,
      assets !! i = Some old
      /\ prop old "name" = Ok (get_field "name" asset)
      /\ prop old "value" = Ok oldValue
      /\ assets' = <[i := JObj (set_field "lastUpdated" (JStr now) asset)]> assets
      /\ history' = history ++ [update_entry asset oldValue now id1])
  \/ (Forall (fun a => DataManager.name_is (get_field "name" asset) a = Ok false) assets
      /\ assets' = assets
                   ++ [JObj (set_field "lastUpdated" (JStr now)
                               (set_field "created" (JStr now)
                                  (set_field "id" (JStr id1) asset)))]
      /\ history' = history ++ [create_entry asset now id2]).


(** The record that [addExpense] and [addIncome] append. *)
Definition stamped (record : list (string * json)) (id timestamp : string) : json :=
  JObj (set_field "timestamp" (JStr timestamp) (set_field "id" (JStr id) record)).

(** The goal that [addGoal] appends. *)
Definition new_goal (goal : list (string * json)) (id now : string) : json :=
  JObj (set_field "created" (JStr now)
          (set_field "savingsDetails" (JArr [])
             (set_field "saved" (JNum 0) (set_field "id" (JStr id) goal)))).

(** The goal that [updateGoalSavings] leaves in the place of [goal]. *)
Definition with_savings (goal : list (string * json)) (savingsDetails saved : json)
    (now : string) : json :=
  JObj (set_field "lastUpdated" (JStr now)
          (set_field "saved" saved (set_field "savingsDetails" savingsDetails goal))).


(** No record of the list has the id. *)
Definition no_record (id : string) (records : list json) : Prop :=
  Forall (fun r => DataManager.id_is id r = Ok false) records.

(** The entry [deleteAsset] logs for the asset it removed. *)
Definition delete_entry (deleted : json) (now id : string) : Result json :=
  let* name := prop deleted "name" in
  let* type := prop deleted "type" in
  let* value := prop deleted "value" in
  Ok (JObj ([("id", JStr id)] ++ DataManager.history_of name type value
            ++ [("timestamp", JStr now); ("action", JStr "delete")])).

(** No asset of the list has the name. *)
Definition no_asset (name : string) (assets : list json) : Prop :=
  Forall (fun a => DataManager.name_is (Some (JStr name)) a = Ok false) assets.

(** [settings.encryptionEnabled] is truthy in the value the settings read
    as. *)
Definition flags_encryption (settings : jsval) : bool :=
  truthy settings &&
  match prop_val settings "encryptionEnabled" with
  | Ok (Some v) => truthy_json v
  | _ => false
  end.

Section Vocabulary.
Context `{H : Host}.

(** The state in which [getData] and [setData] go through the [async]
    methods of the security manager: both objects hold a key and have
    their flag set. *)
Definition promise_mode (w : World) : bool :=
  (dm_isEncrypted w && has_key (dm_encryptionKey w))
  && (sm_isEncryptionEnabled w && has_key (sm_encryptionKey w)).

(** The four fields [getData] and [setData] branch on. *)
Definition same_keys (w w' : World) : Prop :=
  dm_isEncrypted w' = dm_isEncrypted w /\ dm_encryptionKey w' = dm_encryptionKey w
  /\ sm_isEncryptionEnabled w' = sm_isEncryptionEnabled w
  /\ sm_encryptionKey w' = sm_encryptionKey w.

(** What a text in the storage reads as when no promise is involved. *)
Definition read_text (data : option string) : json :=
  match data with
  | None => JNull
  | Some data =>
      if String.eqb data "" then JNull
      else match JSON_parse data with Some v => v | None => JNull end
  end.

(** Whether the settings entry of a storage decrypts under [key]. *)
Definition verifies (storage : gmap string string) (key : CryptoKey) : bool :=
  match storage !! "financeTracker_settings" with
  | None => true
  | Some entry =>
      if String.eqb entry "" then true
      else match SecurityManager.decryptData (Some key) entry with
           | Ok _ => true
           | Throw _ => false
           end
  end.

(** The state after an attempt with [password] that [verifyPassword]
    refuses, before the alert. *)
Definition refused (password : string) (w : World) : World :=
  with_sm_encryptionKey (Some (SecurityManager.derivedKey password))
    (emit (EvDeriveKey password) w).

(** A write of the plain JSON text of a value. *)
Definition plain_write (e : Event) : Prop :=
  exists key v, e = EvSetItem key (JSON_stringify v).

(** The goals of the goals RecordSet, as [getGoals] returns them. *)
Definition goals_of (w : World) : list json :=
  array_in (or_default (DataManager.getData w "goals") DataManager.empty_goals) "goals".

Definition goals_invariant (w : World) : Prop :=
  forallb saved_is_sum (goals_of w) = true.

Definition run_goal_op (op : GoalOp) (w : World) : World :=
  match op with
  | AddGoal goal id now => snd (DataManager.addGoal goal id now w)
  | DeleteGoal goalId => snd (DataManager.deleteGoal goalId w)
  | UpdateGoalSavings goalId savingsDetails now =>
      snd (DataManager.updateGoalSavings goalId savingsDetails now w)
  end.

Definition run_goal_ops (ops : list GoalOp) (w : World) : World :=
  fold_left (fun w op => run_goal_op op w) ops w.

(** The assets and the history of the assets RecordSet, as [getAssets]
    and [getAssetHistory] return them. *)
Definition assets_of (w : World) : list json :=
  array_in (or_default (DataManager.getData w "assets") DataManager.empty_assets) "assets".

Definition asset_history (w : World) : list json :=
  array_in (or_default (DataManager.getData w "assets") DataManager.empty_assets) "history".

Definition run_asset_op (op : AssetOp) (w : World) : World :=
  match op with
  | AddAsset asset now id1 id2 => snd (DataManager.addAsset asset now id1 id2 w)
  | DeleteAsset assetName now id => snd (DataManager.deleteAsset assetName now id w)
  end.

Definition run_asset_ops (ops : list AssetOp) (w : World) : World :=
  fold_left (fun w op => run_asset_op op w) ops w.

(** The assets RecordSet reads as an object. *)
Definition reads_object (w : World) (name : string) : Prop :=
  exists fields, DataManager.getData w name = VJson (JObj fields).

(** The storage has room for every write. *)
Definition unlimited_storage : Prop :=
  forall ls k v, storage_accepts ls k v = true.

(** The data manager holds no key and its flag is down. *)
Definition dm_plain (w : World) : Prop :=
  dm_isEncrypted w = false /\ dm_encryptionKey w = None.


(** The RecordSet [name] reads as a value whose [field] is the array
    [items]: what an operation that starts with
    [this.getData(name) || dflt] finds in [data[field]]. *)
Definition holds (w : World) (name : string) (dflt : json) (field : string)
    (items : list json) : Prop :=
  read_array (or_default (DataManager.getData w name) dflt) field = Ok items.

Definition expenses_are (w : World) (items : list json) : Prop :=
  holds w "expenses" DataManager.empty_expenses "expenses" items.

Definition income_is (w : World) (items : list json) : Prop :=
  holds w "income" DataManager.empty_income "income" items.

Definition goals_are (w : World) (items : list json) : Prop :=
  holds w "goals" DataManager.empty_goals "goals" items.

(** The assets RecordSet reads as a value with the arrays [assets] and
    [history]. *)
Definition assets_hold (w : World) (assets history : list json) : Prop :=
  let data := or_default (DataManager.getData w "assets") DataManager.empty_assets in
  read_array data "assets" = Ok assets /\ read_array data "history" = Ok history.

(** Without promises, the assets RecordSet reads as two arrays, no asset
    is [null] and the names are pairwise distinct. *)
Definition assets_kept (w : World) : Prop :=
  promise_mode w = false
  /\ exists assets history,
       assets_hold w assets history
       /\ Forall (fun a => a <> JNull) assets
       /\ unique_names assets = true.

(** How many keys a run has derived: one per password it has tried. *)
Definition derivations (events : list Event) : nat :=
  length (List.filter (fun e => match e with EvDeriveKey _ => true | _ => false end) events).

(** [text] is an envelope that [encryptData] made of [v] under [key]. *)
Definition sealed_under (key : CryptoKey) (v : json) (text : string) : Prop :=
  exists w w', SecurityManager.encryptData (Some key) (VJson v) w = (Ok text, w').
End Vocabulary.

(** ** Runs on the reference host *)
Module Scenario.
Import RefHost.
#[local] Existing Instance host.

(** Encryption enabled with the password [pw] on the fresh page. *)
Definition enabled : World :=
  SecuritySession.enableEncryption (Some "pw") (Some "pw") fresh.

Definition cash : json :=
  JObj [("assets", JArr [JObj [("name", JStr "Cash"); ("value", JNum 1000)]]);
        ("history", JArr [])].

(** ... and the assets written once more. *)
Definition written : World := snd (DataManager.setData enabled "assets" (VJson cash)).

(** The settings as [encryptData] seals them under the key of [pw]. *)
Definition envelope : string :=
  match fst (SecurityManager.encryptData (Some (SecurityManager.derivedKey "pw"))
               (VJson DataManager.default_settings) fresh) with
  | Ok e => e
  | Throw _ => ""
  end.

(** A page over a storage whose settings are that envelope, its security
    manager enabled and without a key. The state is written by hand: no
    run of the program stores an envelope, and [loadEncryptionState] does
    not enable the security manager over one. *)
Definition sealed : World :=
  mkWorld _ {[ "financeTracker_settings" := envelope ]} false None true None false O [].



(** The page loaded again over the storage that [enabled] has left. *)
Definition reloaded (answers : list (option string)) : World :=
  SecuritySession.loadEncryptionState answers
    (DataManager.initializeDefaults
       (mkWorld _ (localStorage enabled) false None false None false O [])).

Definition january : json := JObj [("amount", JNum 100); ("note", JStr "jan")].
Definition february : json := JObj [("amount", JNum 250)].

Definition goal_ops : list GoalOp :=
  [AddGoal [("name", JStr "Car"); ("amount", JNum 500000)] "g1" "2024-01-01";
   UpdateGoalSavings "g1" (Some (JArr [january; february])) "2024-02-01";
   AddGoal [("name", JStr "Trip"); ("saved", JNum 7)] "g2" "2024-02-02";
   DeleteGoal "g0"].

(** Three amounts whose running totals pass [2^53]. *)
Definition large_details : list json :=
  [JObj [("amount", JNum (2 ^ 53))]; JObj [("amount", JNum 1)]; JObj [("amount", JNum 1)]].

Definition large_savings : json := JArr large_details.

(** An entry without an amount. *)
Definition noted_savings : json := JArr [JObj [("note", JStr "jan")]].

Definition asset_ops : list AssetOp :=
  [AddAsset [("name", JStr "Cash"); ("type", JStr "Liquid"); ("value", JNum 1000)]
     "2024-01-01" "a1" "h1";
   AddAsset [("name", JStr "Gold"); ("value", JNum 5)] "2024-01-02" "a2" "h2";
   AddAsset [("name", JStr "Cash"); ("type", JStr "Liquid"); ("value", JNum 1200)]
     "2024-01-03" "h3" "unused";
   DeleteAsset "Gold" "2024-01-04" "h4"].

(** The fresh page with one asset written. *)
Definition stocked : World := snd (DataManager.setData fresh "assets" (VJson cash)).

(** The fresh page over a storage that another application uses too. *)
Definition shared : World :=
  with_localStorage (<["theme" := "dark"]> (localStorage fresh)) fresh.

Definition rent : list (string * json) :=
  [("description", JStr "Rent"); ("amount", JNum 12000); ("type", JStr "Fixed");
   ("date", JStr "2024-01-05")].

Definition salary : list (string * json) :=
  [("source", JStr "Salary"); ("amount", JNum 90000); ("date", JStr "2024-01-31")].

Definition car : list (string * json) := [("name", JStr "Car"); ("amount", JNum 500000)].

(** The fresh page with one expense, one income and one goal. *)
Definition busy : World :=
  snd (DataManager.addGoal car "g1" "2024-01-03"
         (snd (DataManager.addIncome salary "i1" "2024-01-02"
                 (snd (DataManager.addExpense rent "e1" "2024-01-01" fresh))))).

(** The sealed page unlocked with the password [pw]. *)
Definition unlocked : World := SecuritySession.requestPassword [Some "pw"] sealed.
End Scenario.

(** ** Runs over a storage with a quota *)
Module Quota.
Import RefHost.

Definition small_host : Host := limited 800.
#[local] Existing Instance small_host.

(** The page when the scripts have run on an empty storage of 800
    characters. *)
Definition small_page : World :=
  DataManager.initializeDefaults (mkWorld _ ∅ false None false None false O []).

Definition wallet : list (string * json) :=
  [("name", JStr "Cash"); ("type", JStr "Liquid"); ("value", JNum 1000)].

Definition gold : list (string * json) :=
  [("name", JStr "Gold"); ("type", JStr "Metal"); ("value", JNum 5)].

(** ... with one asset added. *)
Definition crowded : World :=
  snd (DataManager.addAsset wallet "2024-01-01T00:00:00.000Z" "a1" "h1" small_page).

(** One more [addAsset], for which the storage has no room. *)
Definition one_more : Result bool * World :=
  DataManager.addAsset gold "2024-01-02T00:00:00.000Z" "a2" "h2" crowded.
End Quota.

(** * Properties *)

(** ** Objects, arrays and strict equality *)

Lemma get_field_set_field_eq k v fields : get_field k (set_field k v fields) = Some v.
Proof.
  induction fields as [|[k' v'] rest IH]; simpl.
  - now rewrite String.eqb_refl.
  - destruct (String.eqb k k') eqn:E; simpl; rewrite ?String.eqb_refl, ?E; auto.
Qed.

Lemma get_field_set_field_ne k k' v fields :
  k <> k' -> get_field k (set_field k' v fields) = get_field k fields.
Proof.
  intros Hne. induction fields as [|[k0 v0] rest IH]; simpl.
  - apply String.eqb_neq in Hne. now rewrite Hne.
  - destruct (String.eqb k' k0) eqn:E; simpl.
    + apply String.eqb_eq in E. subst k0.
      apply String.eqb_neq in Hne. now rewrite Hne.
    + now rewrite IH.
Qed.

Lemma strict_eq_true x y : strict_eq x y = true -> x = y.
Proof.
  destruct x as [[| a | a | a | |]|], y as [[| b | b | b | |]|]; simpl; try discriminate; auto.
  - intros E. apply Bool.eqb_prop in E. now subst.
  - intros E. apply Z.eqb_eq in E. now subst.
  - intros E. apply String.eqb_eq in E. now subst.
Qed.

Lemma findIndex_Some pred l i :
  findIndex pred l = Ok (Some i) ->
  exists x, l !! i = Some x /\ pred x = Ok true.
Proof.
  revert i. induction l as [|y l IH]; simpl; intros i; [discriminate|].
  destruct (pred y) as [[|]|] eqn:E; try discriminate.
  - intros [= <-]. eauto.
  - destruct (findIndex pred l) as [[j|]|] eqn:F; try discriminate.
    intros [= <-]. destruct (IH j eq_refl) as (x & ? & ?). eauto.
Qed.

Lemma findIndex_None pred l :
  findIndex pred l = Ok None -> Forall (fun x => pred x = Ok false) l.
Proof.
  induction l as [|y l IH]; simpl; intros E; [constructor|].
  destruct (pred y) as [[|]|] eqn:P; try discriminate.
  destruct (findIndex pred l) as [[j|]|] eqn:F; try discriminate.
  constructor; auto.
Qed.

Lemma Forall_splice1 (P : json -> Prop) i l : Forall P l -> Forall P (splice1 i l).
Proof.
  intros Hl. unfold splice1. apply Forall_app. split.
  - now apply Forall_take.
  - now apply Forall_drop.
Qed.

(** ** The record store without promises *)
Section Store.
Context `{H : Host}.


Lemma same_keys_refl w : same_keys w w.
Proof. repeat split. Qed.

Lemma same_keys_trans w1 w2 w3 : same_keys w1 w2 -> same_keys w2 w3 -> same_keys w1 w3.
Proof. unfold same_keys. intuition congruence. Qed.

Lemma same_keys_promise_mode w w' : same_keys w w' -> promise_mode w' = promise_mode w.
Proof. unfold same_keys, promise_mode. intros (-> & -> & -> & ->). reflexivity. Qed.


Lemma getData_plain w key :
  promise_mode w = false ->
  DataManager.getData w key
  = VJson (read_text (localStorage w !! (DataManager.storagePrefix +:+ key))).
Proof.
  unfold promise_mode, DataManager.getData, DataManager.decryptData, read_text.
  intros Hm. destruct (localStorage w !! _) as [data|]; [|reflexivity].
  destruct (String.eqb data ""); [reflexivity|].
  destruct (dm_isEncrypted w && has_key (dm_encryptionKey w)); simpl in Hm.
  - rewrite Hm. now destruct (JSON_parse data).
  - now destruct (JSON_parse data).
Qed.

Lemma setData_plain w key data :
  promise_mode w = false ->
  DataManager.setData w key data
  = DataManager.setItem (DataManager.storagePrefix +:+ key) (Text (stringify_val data)) w.
Proof.
  unfold promise_mode, DataManager.setData, DataManager.encryptData.
  intros Hm.
  destruct (dm_isEncrypted w && has_key (dm_encryptionKey w)); simpl in Hm; [|reflexivity].
  now rewrite Hm.
Qed.

Lemma setItem_inv k v w ok w' :
  DataManager.setItem k v w = (ok, w') ->
  same_keys w w' /\ appLocked w' = appLocked w /\ rng_calls w' = rng_calls w
  /\ (ok = false /\ w' = w
      \/ ok = true
         /\ localStorage w' = <[k := to_storage_string v]> (localStorage w)
         /\ trace w' = trace w ++ [EvSetItem k (to_storage_string v)]).
Proof.
  unfold DataManager.setItem.
  destruct (storage_accepts _ _ _); intros [= <- <-]; simpl.
  - split; [repeat split|]. split; [reflexivity|]. split; [reflexivity|].
    right. repeat split.
  - split; [repeat split|]. split; [reflexivity|]. split; [reflexivity|].
    now left.
Qed.

Lemma encryptData_inv key data w r w' :
  SecurityManager.encryptData key data w = (r, w') ->
  same_keys w w' /\ localStorage w' = localStorage w /\ trace w' = trace w
  /\ appLocked w' = appLocked w.
Proof.
  unfold SecurityManager.encryptData.
  destruct key; intros [= <- <-]; simpl; repeat split.
Qed.

(** [setData] never touches the keys, the flags or the lock; it writes at
    most its own entry. *)
Lemma setData_inv w key data ok w' :
  DataManager.setData w key data = (ok, w') ->
  same_keys w w' /\ appLocked w' = appLocked w
  /\ (ok = false /\ localStorage w' = localStorage w /\ trace w' = trace w
      \/ ok = true /\ exists text,
           localStorage w' = <[DataManager.storagePrefix +:+ key := text]> (localStorage w)
           /\ trace w' = trace w ++ [EvSetItem (DataManager.storagePrefix +:+ key) text]
           /\ (promise_mode w = false -> text = stringify_val data)
           /\ (promise_mode w = true -> text = "[object Promise]")).
Proof.
  unfold DataManager.setData, DataManager.encryptData, promise_mode.
  destruct (dm_isEncrypted w && has_key (dm_encryptionKey w)); simpl.
  - destruct (sm_isEncryptionEnabled w && has_key (sm_encryptionKey w)); simpl.
    + destruct (SecurityManager.encryptData _ _ _) as [r w1] eqn:E.
      apply encryptData_inv in E. destruct E as (K1 & L1 & T1 & A1).
      intros S. apply setItem_inv in S. destruct S as (K2 & A2 & _ & S).
      split; [eapply same_keys_trans; eauto|]. split; [congruence|].
      destruct S as [[-> ->]|(-> & L2 & T2)]; [left; auto|right].
      split; [reflexivity|]. exists "[object Promise]". simpl in *.
      rewrite L2, T2, L1, T1. repeat split; auto; discriminate.
    + intros S. apply setItem_inv in S. destruct S as (K2 & A2 & _ & S).
      split; [assumption|]. split; [assumption|].
      destruct S as [[-> ->]|(-> & L2 & T2)]; [left; auto|right].
      split; [reflexivity|]. eexists. repeat split; eauto; discriminate.
  - intros S. apply setItem_inv in S. destruct S as (K2 & A2 & _ & S).
    split; [assumption|]. split; [assumption|].
    destruct S as [[-> ->]|(-> & L2 & T2)]; [left; auto|right].
    split; [reflexivity|]. eexists. repeat split; eauto; discriminate.
Qed.

Context {L : HostLaws H}.

Lemma read_text_stringify v : read_text (Some (JSON_stringify v)) = v.
Proof.
  unfold read_text.
  destruct (String.eqb (JSON_stringify v) "") eqn:E.
  - apply String.eqb_eq in E. now apply JSON_stringify_nonempty in E.
  - now rewrite JSON_parse_stringify.
Qed.

(** Round trip of the store while no promise is involved: what [setData]
    has stored, [getData] returns. *)
Lemma setData_getData_plain w key v w' :
  promise_mode w = false ->
  DataManager.setData w key (VJson v) = (true, w') ->
  DataManager.getData w' key = VJson v /\ promise_mode w' = false.
Proof.
  intros Hm S. apply setData_inv in S.
  destruct S as (K & _ & [(? & _)|(_ & text & Ls & _ & Ht & _)]); [discriminate|].
  assert (Hm' : promise_mode w' = false) by (now rewrite (same_keys_promise_mode w w')).
  split; [|assumption].
  rewrite getData_plain by assumption.
  rewrite Ls, lookup_insert_eq, (Ht Hm). unfold stringify_val.
  now rewrite read_text_stringify.
Qed.
End Store.

(** ** The reference host obeys the laws *)
Module RefHostFacts.
Import RefHost.

Lemma json_nested_ind (P : json -> Prop) :
  P JNull -> (forall b, P (JBool b)) -> (forall n, P (JNum n)) -> (forall s, P (JStr s)) ->
  (forall items, Forall P items -> P (JArr items)) ->
  (forall fields, Forall (fun kv => P (snd kv)) fields -> P (JObj fields)) ->
  forall v, P v.
Proof.
  intros HN HB HZ HS HA HO.
  fix IH 1. intros [| b | n | s | items | fields].
  - exact HN.
  - apply HB.
  - apply HZ.
  - apply HS.
  - apply HA. induction items as [|x items IHitems]; constructor;
      [apply IH | exact IHitems].
  - apply HO. induction fields as [|[k x] fields IHfields]; constructor;
      [apply IH | exact IHfields].
Qed.

(** The text of a string literal reads back as the string. *)
Lemma parse_chars_escape_char c tail :
  parse_chars (escape_char c ++ tail) = cons_char c (parse_chars tail).
Proof. destruct c as [[] [] [] [] [] [] [] []]; reflexivity. Qed.

Lemma parse_chars_escape cs rest :
  parse_chars (flat_map escape_char cs ++ dquote :: rest) = Some (cs, rest).
Proof.
  induction cs as [|c cs IH]; [reflexivity|].
  change (flat_map escape_char (c :: cs)) with (escape_char c ++ flat_map escape_char cs).
  rewrite <- app_assoc, parse_chars_escape_char, IH. reflexivity.
Qed.


Lemma scan_digits_print d rest :
  safe rest -> scan_digits (digits d ++ rest) = (d, rest).
Proof.
  intros Hs. unfold digits.
  induction d; simpl; rewrite ?IHd; try reflexivity.
  destruct rest as [|c rest]; simpl in *; [reflexivity|now rewrite Hs].
Qed.

Lemma parse_value_digit fuel c tl :
  digit c <> None -> parse_value (S fuel) (c :: tl) = parse_number false (c :: tl).
Proof.
  destruct c as [[] [] [] [] [] [] [] []]; intros Hd;
    try (exfalso; apply Hd; reflexivity); reflexivity.
Qed.

Lemma digits_head d :
  d <> Nil -> exists c tl, digits d = c :: tl /\ digit c <> None
                          /\ Ascii.eqb c "]" = false.
Proof.
  unfold digits. destruct d; intros Hd; [contradiction| ..]; simpl;
    eexists _, _; (split; [reflexivity|]); split; (discriminate || reflexivity).
Qed.

Lemma parse_value_uint fuel d rest :
  d <> Nil -> safe rest ->
  parse_value (S fuel) (digits d ++ rest) = Some (JNum (Z.of_int (Pos d)), rest).
Proof.
  intros Hd Hs. destruct (digits_head d Hd) as (c & tl & E & Hc & _).
  rewrite E. change ((c :: tl) ++ rest) with (c :: tl ++ rest).
  rewrite parse_value_digit by assumption.
  change (c :: tl ++ rest) with ((c :: tl) ++ rest). rewrite <- E.
  unfold parse_number. rewrite scan_digits_print by assumption.
  destruct d; [contradiction| ..]; reflexivity.
Qed.

Lemma parse_value_nat_neg fuel d rest :
  d <> Nil -> safe rest ->
  parse_value (S fuel) ("-"%char :: digits d ++ rest) = Some (JNum (Z.of_int (Neg d)), rest).
Proof.
  intros Hd Hs.
  change (parse_value (S fuel) ("-"%char :: digits d ++ rest))
    with (parse_number true (digits d ++ rest)).
  unfold parse_number. rewrite scan_digits_print by assumption.
  destruct d; [contradiction| ..]; reflexivity.
Qed.

Lemma to_int_cases n :
  exists d, d <> Nil /\ (Z.to_int n = Pos d \/ Z.to_int n = Neg d).
Proof.
  destruct n as [|p|p]; simpl.
  - exists (D0 Nil). split; [discriminate|now left].
  - exists (Pos.to_uint p). split; [apply Unsigned.to_uint_nonnil|now left].
  - exists (Pos.to_uint p). split; [apply Unsigned.to_uint_nonnil|now right].
Qed.

Lemma parse_value_number fuel n rest :
  safe rest -> parse_value (S fuel) (print_int (Z.to_int n) ++ rest) = Some (JNum n, rest).
Proof.
  intros Hs. rewrite <- (DecimalZ.of_to n) at 2.
  destruct (to_int_cases n) as (d & Hd & [-> | ->]).
  - now apply parse_value_uint.
  - now apply parse_value_nat_neg.
Qed.

(** No value starts with the bracket that closes an array. *)
Lemma print_head v :
  exists c tl, print v = c :: tl /\ Ascii.eqb c "]" = false.
Proof.
  destruct v as [| [|] | n | s | items | fields]; simpl;
    try (eexists _, _; split; reflexivity).
  unfold print_int. destruct (to_int_cases n) as (d & Hd & [-> | ->]); simpl.
  - destruct (digits_head d Hd) as (c & tl & E & _ & Hc). eauto.
  - eexists _, _; split; reflexivity.
Qed.

Lemma join_cons p q parts : join (p :: q :: parts) = p ++ ","%char :: join (q :: parts).
Proof. reflexivity. Qed.

Lemma join_head c tl parts : exists tl', join ((c :: tl) :: parts) = c :: tl'.
Proof. destruct parts; simpl; eauto. Qed.


Lemma parse_elements_print items :
  Forall reads_back items -> items <> [] ->
  forall fuel rest,
    (list_sum (map (fun x => S (size x)) items) <= fuel)%nat ->
    parse_elements fuel (join (map print items) ++ "]"%char :: rest) = Some (items, rest).
Proof.
  induction 1 as [|v items Hv Hitems IH]; intros Hne fuel rest Hfuel; [contradiction|].
  simpl in Hfuel. destruct fuel as [|fuel]; [lia|].
  destruct items as [|v' items].
  - simpl. rewrite (Hv fuel ("]"%char :: rest)) by (simpl in *; (lia || reflexivity)).
    reflexivity.
  - change (map print (v :: v' :: items)) with (print v :: print v' :: map print items).
    rewrite join_cons, <- app_assoc. simpl app at 2.
    cbn [parse_elements].
    rewrite (Hv fuel) by (simpl in *; (lia || reflexivity)).
    change (Ascii.eqb "," ",") with true. cbn iota.
    change (print v' :: map print items) with (map print (v' :: items)).
    rewrite IH by (simpl in *; (lia || discriminate)). reflexivity.
Qed.


Lemma member_app k v tail :
  member (k, v) ++ tail
  = dquote :: flat_map escape_char (list_ascii_of_string k)
      ++ dquote :: ":"%char :: print v ++ tail.
Proof. unfold member, print_string. simpl. now rewrite <- !app_assoc. Qed.

Lemma parse_members_step fuel k tail :
  parse_members (S fuel)
    (dquote :: flat_map escape_char (list_ascii_of_string k) ++ dquote :: ":"%char :: tail)
  = match parse_value fuel tail with
    | Some (v, c :: rest) =>
        if Ascii.eqb c "," then
          match parse_members fuel rest with
          | Some (fs, rest) => Some ((k, v) :: fs, rest)
          | None => None
          end
        else if Ascii.eqb c "}" then Some ([(k, v)], rest)
        else None
    | _ => None
    end.
Proof.
  cbn [parse_members]. change (Ascii.eqb dquote dquote) with true. cbn iota.
  rewrite parse_chars_escape. change (Ascii.eqb ":" ":") with true. cbn iota.
  now rewrite string_of_list_ascii_of_string.
Qed.

Lemma parse_members_print fields :
  Forall (fun kv => reads_back (snd kv)) fields -> fields <> [] ->
  forall fuel rest,
    (list_sum (map (fun kv => S (size (snd kv))) fields) <= fuel)%nat ->
    parse_members fuel (join (map member fields) ++ "}"%char :: rest) = Some (fields, rest).
Proof.
  induction 1 as [|[k v] fields Hv Hfields IH]; intros Hne fuel rest Hfuel; [contradiction|].
  simpl in Hfuel, Hv. destruct fuel as [|fuel]; [lia|].
  destruct fields as [|kv' fields].
  - change (join (map member [(k, v)])) with (member (k, v)).
    rewrite member_app, parse_members_step.
    rewrite (Hv fuel ("}"%char :: rest)) by (simpl in *; (lia || reflexivity)).
    reflexivity.
  - change (map member ((k, v) :: kv' :: fields))
      with (member (k, v) :: member kv' :: map member fields).
    rewrite join_cons, <- app_assoc, member_app, parse_members_step.
    simpl app at 2.
    rewrite (Hv fuel) by (simpl in *; (lia || reflexivity)).
    change (Ascii.eqb "," ",") with true. cbn iota.
    change (member kv' :: map member fields) with (map member (kv' :: fields)).
    rewrite IH by (simpl in *; (lia || discriminate)). reflexivity.
Qed.

Lemma parse_value_array fuel c r :
  Ascii.eqb c "]" = false ->
  parse_value (S fuel) ("["%char :: c :: r)
  = match parse_elements fuel (c :: r) with
    | Some (items, rest) => Some (JArr items, rest)
    | None => None
    end.
Proof. intros E. cbn [parse_value]. cbn -[parse_elements]. now rewrite E. Qed.

Lemma parse_value_object fuel r :
  parse_value (S fuel) ("{"%char :: dquote :: r)
  = match parse_members fuel (dquote :: r) with
    | Some (fields, rest) => Some (JObj fields, rest)
    | None => None
    end.
Proof. reflexivity. Qed.

Lemma print_reads_back v : reads_back v.
Proof.
  induction v as [| b | n | s | items IH | fields IH] using json_nested_ind;
    intros fuel rest Hfuel Hs; (destruct fuel as [|fuel]; [simpl in Hfuel; lia|]).
  - reflexivity.
  - destruct b; reflexivity.
  - now apply parse_value_number.
  - change (print (JStr s) ++ rest)
      with (dquote :: (flat_map escape_char (list_ascii_of_string s) ++ [dquote]) ++ rest).
    rewrite <- app_assoc. cbn [parse_value]. cbn -[parse_chars app flat_map].
    simpl app at 2. rewrite parse_chars_escape.
    now rewrite string_of_list_ascii_of_string.
  - destruct items as [|v items]; [reflexivity|].
    change (print (JArr (v :: items)) ++ rest)
      with ("["%char :: (join (map print (v :: items)) ++ ["]"%char]) ++ rest).
    rewrite <- app_assoc. simpl app at 2.
    assert (Hel := parse_elements_print (v :: items) IH ltac:(discriminate) fuel rest
                     ltac:(simpl in *; lia)).
    destruct (print_head v) as (c & tl & E & Hc).
    destruct (join_head c tl (map print items)) as (tl' & J).
    change (map print (v :: items)) with (print v :: map print items) in *.
    rewrite E, J in *. simpl app in *.
    rewrite parse_value_array by assumption. now rewrite Hel.
  - destruct fields as [|[k v] fields]; [reflexivity|].
    change (print (JObj ((k, v) :: fields)) ++ rest)
      with ("{"%char :: (join (map member ((k, v) :: fields)) ++ ["}"%char]) ++ rest).
    rewrite <- app_assoc. simpl app at 2.
    assert (Hel := parse_members_print ((k, v) :: fields) IH ltac:(discriminate) fuel rest
                     ltac:(simpl in *; lia)).
    destruct (join_head dquote
                (flat_map escape_char (list_ascii_of_string k) ++ [dquote]
                 ++ ":"%char :: print v) (map member fields)) as (tl' & J).
    change (map member ((k, v) :: fields)) with (member (k, v) :: map member fields) in *.
    assert (M : member (k, v)
                = dquote :: flat_map escape_char (list_ascii_of_string k) ++ [dquote]
                    ++ ":"%char :: print v).
    { unfold member, print_string. simpl. now rewrite <- app_assoc. }
    rewrite M, J in *. simpl app in *.
    rewrite parse_value_object. now rewrite Hel.
Qed.

Lemma join_length (parts : list (list ascii)) (sizes : list nat) :
  Forall2 (fun n p => (n <= length p)%nat) sizes parts ->
  (list_sum (map S sizes) <= S (length (join parts)))%nat.
Proof.
  induction 1 as [|n p sizes parts Hn Hrest IH]; [simpl; lia|].
  destruct Hrest as [|n' p' sizes parts Hn' Hrest].
  - simpl. lia.
  - rewrite join_cons, length_app. simpl length. simpl in IH |- *. lia.
Qed.

Lemma size_le_length v : (size v <= length (print v))%nat.
Proof.
  induction v as [| b | n | s | items IH | fields IH] using json_nested_ind;
    try (match goal with
         | |- context [print ?v] =>
             destruct (print_head v) as (c & tl & -> & _); simpl; lia
         end).
  - change (print (JArr items)) with ("["%char :: join (map print items) ++ ["]"%char]).
    simpl size. simpl length. rewrite length_app. simpl length.
    assert (list_sum (map S (map size items)) <= S (length (join (map print items))))%nat.
    { apply join_length. induction IH; constructor; auto. }
    rewrite map_map in H. lia.
  - change (print (JObj fields))
      with ("{"%char :: join (map member fields) ++ ["}"%char]).
    simpl size. simpl length. rewrite length_app. simpl length.
    assert (list_sum (map S (map (fun kv => size (snd kv)) fields))
            <= S (length (join (map member fields))))%nat.
    { apply join_length. induction IH as [|[k v] fields Hv Hrest IHf]; constructor; auto.
      unfold member. rewrite length_app. simpl in *. lia. }
    rewrite map_map in H. lia.
Qed.

Lemma parse_stringify v : parse (stringify v) = Some v.
Proof.
  unfold parse, stringify. rewrite list_ascii_of_string_of_list_ascii.
  rewrite <- (app_nil_r (print v)) at 2.
  rewrite (print_reads_back v); [reflexivity| |exact I].
  pose proof (size_le_length v). lia.
Qed.

Lemma stringify_nonempty v : stringify v <> "".
Proof.
  unfold stringify. destruct (print_head v) as (c & tl & -> & _). discriminate.
Qed.

(** *** base64 *)

Lemma b64_value_char n : (n < 64)%N -> b64_value (b64_char n) = Some n.
Proof.
  intros Hn.
  assert (Hall : forallb (fun m => match b64_value (b64_char m) with
                                   | Some m' => N.eqb m' m
                                   | None => false
                                   end)
                   (map N.of_nat (seq 0 64)) = true) by (vm_compute; reflexivity).
  rewrite forallb_forall in Hall.
  specialize (Hall n). destruct (b64_value (b64_char n)) as [m|].
  - f_equal. apply N.eqb_eq, Hall, in_map_iff. exists (N.to_nat n).
    split; [lia|]. apply in_seq. lia.
  - discriminate Hall. apply in_map_iff. exists (N.to_nat n).
    split; [lia|]. apply in_seq. lia.
Qed.


Local Ltac Zify.zify_post_hook ::= Z.to_euclidean_division_equations.

Lemma sextets x y z :
  (x <= 255 -> y <= 255 -> z <= 255 ->
   let v1 := x / 4 in
   let v2 := x mod 4 * 16 + y / 16 in
   let v3 := y mod 16 * 4 + z / 64 in
   let v4 := z mod 64 in
   (v1 < 64 /\ v2 < 64 /\ v3 < 64 /\ v4 < 64)
   /\ v1 * 4 + v2 / 16 = x
   /\ v2 mod 16 * 16 + v3 / 4 = y
   /\ v3 mod 4 * 64 + v4 = z)%N.
Proof. intros Hx Hy Hz. cbv zeta. repeat split; lia. Qed.

Lemma sextets2 x y :
  (x <= 255 -> y <= 255 ->
   let v1 := x / 4 in
   let v2 := x mod 4 * 16 + y / 16 in
   let v3 := y mod 16 * 4 in
   (v1 < 64 /\ v2 < 64 /\ v3 < 64)
   /\ v1 * 4 + v2 / 16 = x
   /\ v2 mod 16 * 16 + v3 / 4 = y)%N.
Proof. intros Hx Hy. cbv zeta. repeat split; lia. Qed.

Lemma sextets1 x :
  (x <= 255 ->
   let v1 := x / 4 in
   let v2 := x mod 4 * 16 in
   (v1 < 64 /\ v2 < 64) /\ v1 * 4 + v2 / 16 = x)%N.
Proof. intros Hx. cbv zeta. repeat split; lia. Qed.

Lemma b64_decode_encode bs : b64_decode (b64_encode bs) = Some bs.
Proof.
  assert (H3 : forall n bs, (length bs <= n)%nat -> b64_decode (b64_encode bs) = Some bs).
  { clear bs. induction n as [n IH] using lt_wf_ind. intros bs Hlen.
    destruct bs as [|a [|b [|c rest]]].
    - reflexivity.
    - destruct (sextets1 (Byte.to_N a) (Byte.to_N_bounded a)) as ((B1 & B2) & E).
      cbn [b64_encode b64_decode].
      rewrite !b64_value_char by assumption.
      change (b64_value pad) with (@None N). cbn.
      unfold bytes1. rewrite E, Byte.of_to_N. reflexivity.
    - destruct (sextets2 (Byte.to_N a) (Byte.to_N b)
                  (Byte.to_N_bounded a) (Byte.to_N_bounded b)) as ((B1 & B2 & B3) & E1 & E2).
      cbn [b64_encode b64_decode].
      rewrite !b64_value_char by assumption.
      change (b64_value pad) with (@None N). cbn.
      unfold bytes2. rewrite E1, E2, !Byte.of_to_N. reflexivity.
    - destruct (sextets (Byte.to_N a) (Byte.to_N b) (Byte.to_N c)
                  (Byte.to_N_bounded a) (Byte.to_N_bounded b) (Byte.to_N_bounded c))
        as ((B1 & B2 & B3 & B4) & E1 & E2 & E3).
      cbn [b64_encode b64_decode].
      rewrite !b64_value_char by assumption.
      unfold bytes3. rewrite E1, E2, E3, !Byte.of_to_N.
      rewrite (IH (length rest)) by (simpl in Hlen; lia). reflexivity. }
  now apply (H3 (length bs)).
Qed.

Lemma ref_atob_btoa bs : ref_atob (ref_btoa bs) = Some bs.
Proof.
  unfold ref_atob, ref_btoa. rewrite list_ascii_of_string_of_list_ascii.
  apply b64_decode_encode.
Qed.

(** *** The stand-in cipher *)

Lemma ref_decrypt_encrypt k iv p : ref_decrypt k iv (ref_encrypt k iv p) = Some p.
Proof.
  unfold ref_decrypt, ref_encrypt.
  replace (Byte.eqb k k) with true; [reflexivity|].
  symmetry. now apply Byte.byte_dec_lb.
Qed.

Lemma ref_decrypt_wrong_key k1 k2 iv p :
  k1 <> k2 -> ref_decrypt k2 iv (ref_encrypt k1 iv p) = None.
Proof.
  intros Hk. unfold ref_decrypt, ref_encrypt.
  destruct (Byte.eqb k1 k2) eqn:E; [|reflexivity].
  apply Byte.byte_dec_bl in E. contradiction.
Qed.

Lemma laws : HostLaws host.
Proof.
  constructor; simpl.
  - apply parse_stringify.
  - apply stringify_nonempty.
  - apply ref_atob_btoa.
  - apply ref_decrypt_encrypt.
  - intros i n. unfold ref_random. apply repeat_length.
Qed.

Lemma authenticated : AuthenticatedCipher host.
Proof. intros k1 k2 iv p Hk. now apply ref_decrypt_wrong_key. Qed.
End RefHostFacts.

(** ** Password verification and the flows that abort *)
Section Flows.
Context `{H : Host}.


(** [verifyPassword] looks at the storage only; when it fails it leaves
    the key it tried in [securityManager.encryptionKey]. *)
Lemma verifyPassword_spec key w :
  SecuritySession.verifyPassword key w
  = (verifies (localStorage w) key,
     if verifies (localStorage w) key then w else with_sm_encryptionKey (Some key) w).
Proof.
  unfold SecuritySession.verifyPassword, verifies.
  destruct (localStorage w !! "financeTracker_settings") as [entry|]; [|reflexivity].
  destruct (String.eqb entry ""); [reflexivity|].
  cbn [sm_encryptionKey with_sm_encryptionKey].
  destruct (SecurityManager.decryptData (Some key) entry); [|reflexivity].
  destruct w; reflexivity.
Qed.

Lemma verifies_fst key w :
  fst (SecuritySession.verifyPassword key w) = verifies (localStorage w) key.
Proof. now rewrite verifyPassword_spec. Qed.

Lemma getData_absent w name :
  localStorage w !! (DataManager.storagePrefix +:+ name) = None ->
  DataManager.getData w name = VJson JNull.
Proof. unfold DataManager.getData. now intros ->. Qed.

Lemma getData_unparsable w name data :
  localStorage w !! (DataManager.storagePrefix +:+ name) = Some data ->
  promise_mode w = false -> JSON_parse data = None ->
  DataManager.getData w name = VJson JNull.
Proof.
  intros Hd Hm Hp. rewrite getData_plain by assumption. rewrite Hd. simpl.
  rewrite Hp. now destruct (String.eqb data "").
Qed.

Lemma promise_mode_true w :
  promise_mode w = true ->
  dm_isEncrypted w && has_key (dm_encryptionKey w) = true
  /\ sm_isEncryptionEnabled w && has_key (sm_encryptionKey w) = true.
Proof. unfold promise_mode. intros Hm. now apply andb_true_iff in Hm. Qed.

(** C1 (the half of the round trip with a key installed). With a key
    installed in the data manager and in the security manager,
    [setData(name, V)] stores the text [[object Promise]], and the
    [getData(name)] that follows returns a promise, not [V]: neither call
    awaits the [async] method it goes through. *)
Theorem setData_getData_with_key_returns_promise (w w' : World) (name : string) (V : json) :
  promise_mode w = true ->
  DataManager.setData w name (VJson V) = (true, w') ->
  localStorage w' !! (DataManager.storagePrefix +:+ name) = Some "[object Promise]"
  /\ DataManager.getData w' name
     = VPromise (SecurityManager.decryptData (sm_encryptionKey w') "[object Promise]") []
  /\ DataManager.getData w' name <> VJson V.
Proof.
  intros Hm S. apply setData_inv in S.
  destruct S as (K & _ & [(? & _)|(_ & text & Ls & _ & _ & Ht)]); [discriminate|].
  rewrite (Ht Hm) in Ls.
  assert (Hm' : promise_mode w' = true) by (now rewrite (same_keys_promise_mode w w')).
  apply promise_mode_true in Hm'. destruct Hm' as [Hd Hs].
  assert (G : DataManager.getData w' name
              = VPromise (SecurityManager.decryptData (sm_encryptionKey w')
                            "[object Promise]") []).
  { unfold DataManager.getData, DataManager.decryptData.
    rewrite Ls, lookup_insert_eq, Hd, Hs. reflexivity. }
  split; [now rewrite Ls, lookup_insert_eq|]. split; [exact G|].
  rewrite G. discriminate.
Qed.

(** C3. When [verifyPassword] refuses the key of the password given to
    [disableEncryption], the storage (with the persisted flag), the key and
    flag of the data manager and the flag of the security manager are as
    before, but [securityManager.encryptionKey] now holds the refused key:
    [verifyPassword] put it there and restores the former key only on its
    success path. *)
Theorem disableEncryption_wrong_password_leaves_refused_key (w : World) (password : string) :
  password <> "" ->
  fst (SecuritySession.verifyPassword (SecurityManager.derivedKey password) w) = false ->
  let w' := SecuritySession.disableEncryption (Some password) w in
  localStorage w' = localStorage w
  /\ dm_isEncrypted w' = dm_isEncrypted w
  /\ dm_encryptionKey w' = dm_encryptionKey w
  /\ sm_isEncryptionEnabled w' = sm_isEncryptionEnabled w
  /\ sm_encryptionKey w' = Some (SecurityManager.derivedKey password)
  /\ trace w' = trace w ++ [EvDeriveKey password; EvAlert "Incorrect password!" "error"].
Proof.
  intros Hp Hv. rewrite verifies_fst in Hv.
  unfold SecuritySession.disableEncryption, SecurityManager.deriveKey.
  apply String.eqb_neq in Hp. rewrite Hp.
  rewrite verifyPassword_spec. cbn [localStorage emit]. rewrite Hv. cbn.
  repeat split. now rewrite <- app_assoc.
Qed.

(** C6 (the case of a key installed). With a key installed in the data
    manager and in the security manager, [getData(name)] on an entry that
    does not decrypt returns a promise that rejects, not [null]: the
    [catch] of [getData] only sees what [decryptData] throws before it
    returns its promise. *)
Theorem getData_undecryptable_returns_rejected_promise
    (w : World) (name data : string) (e : Exn) :
  localStorage w !! (DataManager.storagePrefix +:+ name) = Some data ->
  data <> "" ->
  promise_mode w = true ->
  SecurityManager.decryptData (sm_encryptionKey w) data = Throw e ->
  DataManager.getData w name = VPromise (Throw e) []
  /\ DataManager.getData w name <> VJson JNull.
Proof.
  intros Hd Hne Hm He. apply promise_mode_true in Hm. destruct Hm as [Hdm Hsm].
  assert (G : DataManager.getData w name = VPromise (Throw e) []).
  { unfold DataManager.getData, DataManager.decryptData.
    apply String.eqb_neq in Hne. now rewrite Hd, Hne, Hdm, Hsm, He. }
  split; [exact G|]. rewrite G. discriminate.
Qed.

(** C7. The key [deriveKey(password)] resolves to is the same in every
    state of the page: it is PBKDF2 over the bytes of the password with the
    fixed salt, 100000 iterations and SHA-256, as a 256-bit AES-GCM key. *)
Theorem deriveKey_deterministic (password : string) (w1 w2 : World) :
  fst (SecurityManager.deriveKey password w1) = fst (SecurityManager.deriveKey password w2)
  /\ fst (SecurityManager.deriveKey password w1)
     = subtle_deriveKey
         {| pbkdf2_salt := list_byte_of_string "finance-tracker-salt-2023";
            pbkdf2_iterations := 100000;
            pbkdf2_hash := "SHA-256" |}
         (list_byte_of_string password)
         {| aes_name := "AES-GCM"; aes_length := 256 |}.
Proof. split; reflexivity. Qed.

(** C8. When the confirmation differs from the password, [enableEncryption]
    returns with the storage (hence the persisted [encryptionEnabled]), the
    keys and the flags of both managers as they were; no key is derived:
    the only effect is the alert, or nothing when the password is empty. *)
Theorem enableEncryption_mismatch_aborts (w : World) (password confirmation : string) :
  password <> confirmation ->
  let w' := SecuritySession.enableEncryption (Some password) (Some confirmation) w in
  localStorage w' = localStorage w
  /\ DataManager.getData w' "settings" = DataManager.getData w "settings"
  /\ dm_isEncrypted w' = dm_isEncrypted w
  /\ dm_encryptionKey w' = dm_encryptionKey w
  /\ sm_isEncryptionEnabled w' = sm_isEncryptionEnabled w
  /\ sm_encryptionKey w' = sm_encryptionKey w
  /\ (trace w' = trace w
      \/ trace w' = trace w ++ [EvAlert "Passwords do not match!" "error"]).
Proof.
  intros Hne. unfold SecuritySession.enableEncryption.
  destruct (String.eqb password ""); [repeat split; now left|].
  rewrite bool_decide_eq_false_2 by congruence. cbn.
  repeat split. now right.
Qed.
End Flows.

(** ** Startup unlock *)
Section Unlock.
Context `{H : Host}.


Lemma requestPassword_loop_refused attempts password answers w :
  password <> "" -> (attempts < SecuritySession.maxAttempts)%nat ->
  verifies (localStorage w) (SecurityManager.derivedKey password) = false ->
  SecuritySession.requestPassword_loop attempts (Some password :: answers) w
  = SecuritySession.requestPassword_loop (S attempts) answers
      (SecuritySession.showAlert
         ("Incorrect password. "
          +:+ SecuritySession.show_nat (SecuritySession.maxAttempts - S attempts)
          +:+ " attempts remaining.") "error" (refused password w)).
Proof.
  intros Hp Ha Hv. cbn [SecuritySession.requestPassword_loop].
  apply Nat.ltb_lt in Ha. rewrite Ha.
  apply String.eqb_neq in Hp. rewrite Hp.
  unfold SecurityManager.deriveKey. rewrite verifyPassword_spec.
  cbn [localStorage emit]. rewrite Hv. reflexivity.
Qed.

Lemma requestPassword_loop_accepted attempts password answers w :
  password <> "" -> (attempts < SecuritySession.maxAttempts)%nat ->
  verifies (localStorage w) (SecurityManager.derivedKey password) = true ->
  SecuritySession.requestPassword_loop attempts (Some password :: answers) w
  = DataManager.setEncryptionKey (Some (SecurityManager.derivedKey password))
      (refused password w).
Proof.
  intros Hp Ha Hv. cbn [SecuritySession.requestPassword_loop].
  apply Nat.ltb_lt in Ha. rewrite Ha.
  apply String.eqb_neq in Hp. rewrite Hp.
  unfold SecurityManager.deriveKey. rewrite verifyPassword_spec.
  cbn [localStorage emit]. rewrite Hv. reflexivity.
Qed.


End Unlock.

(** ** The cipher *)
Section Cipher.
Context `{H : Host} {L : HostLaws H}.

Lemma encryptData_envelope key data w E w' :
  SecurityManager.encryptData (Some key) data w = (Ok E, w') ->
  exists iv,
    length iv = 12%nat
    /\ E = btoa (iv ++ subtle_encrypt key iv (SecurityManager.encode (stringify_val data))).
Proof.
  unfold SecurityManager.encryptData. intros [= <- _].
  exists (getRandomValues (rng_calls w) 12). split; [apply getRandomValues_length|reflexivity].
Qed.

(** Under the key it was made with, an envelope decrypts to the value. *)
Lemma decryptData_encryptData key v w E w' :
  SecurityManager.encryptData (Some key) (VJson v) w = (Ok E, w') ->
  SecurityManager.decryptData (Some key) E = Ok v.
Proof.
  intros HE. apply encryptData_envelope in HE. destruct HE as (iv & Hiv & ->).
  unfold SecurityManager.decryptData. rewrite atob_btoa.
  rewrite take_app_length' by (now symmetry). rewrite drop_app_length' by (now symmetry).
  rewrite decrypt_encrypt. unfold SecurityManager.decode, SecurityManager.encode.
  rewrite string_of_list_byte_of_string. simpl. now rewrite JSON_parse_stringify.
Qed.

(** C5. Given that the cipher of the host authenticates under the key, an
    envelope that [encryptData] made under the key [K1] is refused by
    [decryptData] under every other key [K2]: it throws
    [Error('Failed to decrypt data')]. *)
Theorem decryptData_wrong_key_rejected
    (K1 K2 : CryptoKey) (P : jsval) (w w' : World) (E : string) :
  AuthenticatedCipher H ->
  SecurityManager.encryptData (Some K1) P w = (Ok E, w') ->
  K2 <> K1 ->
  SecurityManager.decryptData (Some K2) E = Throw (Error "Failed to decrypt data").
Proof.
  intros Auth HE Hk. apply encryptData_envelope in HE. destruct HE as (iv & Hiv & ->).
  unfold SecurityManager.decryptData. rewrite atob_btoa.
  rewrite take_app_length' by (now symmetry). rewrite drop_app_length' by (now symmetry).
  rewrite Auth by congruence. reflexivity.
Qed.
End Cipher.

(** ** Enabling encryption *)
Section Enable.
Context `{H : Host}.


Lemma promise_mode_sm_disabled w :
  sm_isEncryptionEnabled w = false -> promise_mode w = false.
Proof. unfold promise_mode. intros ->. simpl. apply andb_false_r. Qed.

(** One write through [setData] while the security manager is disabled. *)
Lemma setData_sm_disabled w key v ok w' :
  sm_isEncryptionEnabled w = false ->
  DataManager.setData w key (VJson v) = (ok, w') ->
  same_keys w w' /\ appLocked w' = appLocked w
  /\ exists writes, trace w' = trace w ++ writes /\ Forall plain_write writes.
Proof.
  intros Hsm S. apply setData_inv in S.
  destruct S as (K & A & [(_ & _ & T)|(_ & text & _ & T & Ht & _)]).
  - split; [assumption|]. split; [assumption|].
    exists []. rewrite app_nil_r. split; [assumption|constructor].
  - split; [assumption|]. split; [assumption|].
    eexists. split; [exact T|]. constructor; [|constructor].
    rewrite (Ht (promise_mode_sm_disabled w Hsm)). now exists (DataManager.storagePrefix +:+ key), v.
Qed.

(** The sweep of [reencryptAllData] while the security manager is
    disabled: it rewrites entries as plain JSON text. *)
Lemma reencrypt_sm_disabled keys w :
  sm_isEncryptionEnabled w = false ->
  let w' :=
    fold_left (fun w key =>
                 let data := DataManager.getData w key in
                 if truthy data then snd (DataManager.setData w key data) else w)
              keys w in
  same_keys w w' /\ appLocked w' = appLocked w
  /\ exists writes, trace w' = trace w ++ writes /\ Forall plain_write writes.
Proof.
  revert w. induction keys as [|key keys IH]; intros w Hsm; cbv zeta in *; cbn [fold_left].
  - split; [apply same_keys_refl|]. split; [reflexivity|].
    exists []. now rewrite app_nil_r.
  - rewrite getData_plain by now apply promise_mode_sm_disabled.
    set (v := read_text _).
    assert (Hstep : exists w1,
               (if truthy (VJson v) then snd (DataManager.setData w key (VJson v)) else w) = w1
               /\ same_keys w w1 /\ appLocked w1 = appLocked w
               /\ exists writes, trace w1 = trace w ++ writes /\ Forall plain_write writes).
    { destruct (truthy (VJson v)).
      - destruct (DataManager.setData w key (VJson v)) as [ok w1] eqn:S.
        exists w1. split; [reflexivity|]. eapply setData_sm_disabled; eauto.
      - exists w. split; [reflexivity|]. split; [apply same_keys_refl|].
        split; [reflexivity|]. exists []. now rewrite app_nil_r. }
    destruct Hstep as (w1 & -> & K1 & A1 & ws1 & T1 & P1).
    assert (Hsm1 : sm_isEncryptionEnabled w1 = false).
    { destruct K1 as (_ & _ & -> & _). assumption. }
    destruct (IH w1 Hsm1) as (K2 & A2 & ws2 & T2 & P2).
    split; [eapply same_keys_trans; eauto|]. split; [congruence|].
    exists (ws1 ++ ws2). split; [now rewrite T2, T1, app_assoc|].
    now apply Forall_app.
Qed.

(** C2. In [enableEncryption] (entered, as [toggleEncryption] does, with
    the security manager disabled) the key is derived first; every write of
    the sweep and the write of the settings that follows store plain JSON
    text, not ciphertext; and the key is installed in the data manager
    ([setEncryptionKey]) only after all of these writes, as the last change
    of state before the closing alert. *)
Theorem enableEncryption_rewrites_plaintext_before_key (w : World) (password : string) :
  password <> "" ->
  sm_isEncryptionEnabled w = false ->
  let w' := SecuritySession.enableEncryption (Some password) (Some password) w in
  exists writes tail,
    trace w' = trace w ++ EvDeriveKey password :: writes ++ tail
    /\ Forall plain_write writes
    /\ (tail = [EvSetEncryptionKey (Some (SecurityManager.derivedKey password));
                EvAlert "Encryption enabled successfully!" "success"]
        \/ tail = [EvAlert "Failed to enable encryption. Please try again." "error"]).
Proof.
  intros Hp Hsm. unfold SecuritySession.enableEncryption.
  apply String.eqb_neq in Hp. rewrite Hp.
  rewrite bool_decide_eq_true_2 by reflexivity. cbn [negb].
  unfold SecurityManager.deriveKey.
  set (w0 := with_sm_encryptionKey _ (emit _ w)).
  assert (Hsm0 : sm_isEncryptionEnabled w0 = false) by exact Hsm.
  unfold SecuritySession.reencryptAllData.
  destruct (reencrypt_sm_disabled (DataManager.getAllKeys w0) w0 Hsm0)
    as (K1 & A1 & ws1 & T1 & P1).
  set (w1 := fold_left _ _ w0) in *.
  assert (Hsm1 : sm_isEncryptionEnabled w1 = false).
  { destruct K1 as (_ & _ & -> & _). assumption. }
  rewrite (getData_plain w1) by now apply promise_mode_sm_disabled.
  set (v := read_text _). unfold or_default.
  assert (T0 : trace w0 = trace w ++ [EvDeriveKey password]) by reflexivity.
  destruct (set_prop (if truthy (VJson v) then VJson v else VJson (JObj []))
              "encryptionEnabled" (JBool true)) as [settings|e] eqn:SP.
  - assert (exists j, settings = VJson j) as (j & ->).
    { destruct (truthy (VJson v)); simpl in SP;
        [destruct (set_prop_json v _ _)|]; inversion SP; eauto. }
    destruct (DataManager.setData w1 "settings" (VJson j)) as [ok w2] eqn:S.
    destruct (setData_sm_disabled _ _ _ _ _ Hsm1 S) as (K2 & A2 & ws2 & T2 & P2).
    exists (ws1 ++ ws2), [EvSetEncryptionKey (Some (SecurityManager.derivedKey password));
                          EvAlert "Encryption enabled successfully!" "success"].
    split; [|split; [now apply Forall_app|now left]].
    assert (Hk : sm_encryptionKey w2 = Some (SecurityManager.derivedKey password)).
    { destruct K2 as (_ & _ & _ & ->). destruct K1 as (_ & _ & _ & ->). reflexivity. }
    cbn. rewrite Hk, T2, T1, T0. now rewrite <- !app_assoc.
  - exists ws1, [EvAlert "Failed to enable encryption. Please try again." "error"].
    split; [|split; [assumption|now right]].
    cbn. rewrite T1, T0. now rewrite <- !app_assoc.
Qed.
End Enable.

(** ** Reading and updating an array of a RecordSet *)

Lemma read_array_inv (data : jsval) (k : string) (items : list json) :
  read_array data k = Ok items -> prop_val data k = Ok (Some (JArr items)).
Proof.
  unfold read_array. destruct (prop_val data k) as [[[]|]|]; simpl; try discriminate.
  now intros [= ->].
Qed.

Lemma set_prop_array (data : jsval) (k : string) (items items' : list json) :
  prop_val data k = Ok (Some (JArr items)) ->
  exists data',
    set_prop data k (JArr items') = Ok data'
    /\ prop_val data' k = Ok (Some (JArr items'))
    /\ (forall k', k' <> k -> prop_val data' k' = prop_val data k')
    /\ (forall v, data = VJson v -> exists fields, data' = VJson (JObj fields)).
Proof.
  destruct data as [[| | | | |fields]|r own]; simpl; try discriminate.
  - intros _. eexists. split; [reflexivity|]. simpl.
    rewrite get_field_set_field_eq. split; [reflexivity|]. split.
    + intros k' Hk. now rewrite get_field_set_field_ne.
    + intros v _. eauto.
  - intros _. eexists. split; [reflexivity|]. simpl.
    rewrite get_field_set_field_eq. split; [reflexivity|]. split.
    + intros k' Hk. now rewrite get_field_set_field_ne.
    + intros v [=].
Qed.

Lemma array_in_prop data k items :
  prop_val data k = Ok (Some (JArr items)) -> array_in data k = items.
Proof. unfold array_in. now intros ->. Qed.

(** ** Goals *)

(** A double holds every integer of a magnitude below [2^53]. *)
Lemma to_double_exact z : Z.abs z < 2 ^ 53 -> to_double z = Finite z.
Proof.
  intros Hz. unfold to_double.
  assert (R : round_to_53_bits (Z.abs z) = Z.abs z).
  { unfold round_to_53_bits.
    destruct (Z.eq_dec (Z.abs z) 0) as [E|E]; [now rewrite E|].
    assert (Hlog : Z.log2 (Z.abs z) < 53) by (apply Z.log2_lt_pow2; lia).
    destruct (Z.leb_spec (Z.log2 (Z.abs z) + 1 - 53) 0); [reflexivity|lia]. }
  rewrite R.
  assert (B : 2 ^ 53 < 2 ^ 1024) by (apply Z.pow_lt_mono_r; lia).
  destruct (Z.leb_spec (2 ^ 1024) (Z.abs z)); [lia|].
  f_equal. destruct z; simpl; lia.
Qed.

Lemma amount_of_prop s a : amount_of s = Some a -> prop s "amount" = Ok (Some (JNum a)).
Proof.
  destruct s as [| | | | |fields]; simpl; try discriminate.
  destruct (get_field "amount" fields) as [[]|]; try discriminate. now intros [= ->].
Qed.

(** While the totals are exact, [reduce] computes the sum of the amounts. *)
Lemma reduce_amounts_exact details total :
  safe_totals total details = true ->
  exists t,
    sum_amounts details = Some t
    /\ DataManager.reduce_amounts (PNum (Finite total)) details = Ok (PNum (Finite (total + t))).
Proof.
  revert total. induction details as [|s details IH]; intros total; simpl.
  - intros _. exists 0. now rewrite Z.add_0_r.
  - destruct (amount_of s) as [a|] eqn:A; [|discriminate].
    rewrite !andb_true_iff, !Z.ltb_lt. intros [[Ha Ht] Hrest].
    destruct (IH _ Hrest) as (t & -> & R).
    exists (a + t). split; [reflexivity|].
    rewrite (amount_of_prop _ _ A). cbn [plus number_add].
    rewrite (to_double_exact a Ha). cbn [number_add].
    rewrite (to_double_exact (total + a) Ht), R. now rewrite Z.add_assoc.
Qed.

(** What the reduction throws is a [TypeError]. *)
Lemma to_string_throws v e : to_string v = Throw e -> e = TypeError.
Proof.
  revert e. induction v as [| b | n | s | items IH | fields _] using RefHostFacts.json_nested_ind;
    intros e; simpl; try discriminate.
  - induction IH as [|x items Hx _ IHitems]; [discriminate|].
    destruct (match x with JNull => Ok EmptyString | _ => to_string x end)
      as [element|e'] eqn:E.
    + cbv beta iota. destruct items as [|y items]; [discriminate|].
      match goal with
      | |- context [match ?j with Ok _ => _ | Throw _ => _ end] =>
          destruct j as [tail|e''] eqn:J
      end; [discriminate|].
      intros [= <-]. now apply IHitems.
    + cbv beta iota. intros [= <-]. destruct x; try discriminate; now apply Hx.
  - destruct (get_field "toString" fields); [now intros [= <-]|discriminate].
Qed.

Lemma plus_throws total x e : plus total x = Throw e -> e = TypeError.
Proof.
  assert (G : forall (f : string -> primitive) v,
             (let* s := to_string v in Ok (f s)) = Throw e -> e = TypeError).
  { intros f v. destruct (to_string v) eqn:T; [discriminate|].
    intros [= <-]. exact (to_string_throws _ _ T). }
  destruct total as [t|s], x as [v|]; try discriminate.
  - destruct v; try discriminate; unfold plus; apply G.
  - unfold plus. apply G.
Qed.

Lemma reduce_amounts_throws items total e :
  DataManager.reduce_amounts total items = Throw e -> e = TypeError.
Proof.
  revert total. induction items as [|s items IH]; intros total; simpl; [discriminate|].
  destruct (prop s "amount") as [amount|e'] eqn:P.
  - cbv beta iota. destruct (plus total amount) as [total'|e''] eqn:Q.
    + apply IH.
    + intros [= <-]. exact (plus_throws _ _ _ Q).
  - intros [= <-]. destruct s; simpl in P; try discriminate. now injection P.
Qed.

Lemma total_saved_throws savingsDetails e :
  DataManager.total_saved savingsDetails = Throw e -> e = TypeError.
Proof.
  destruct savingsDetails as [[| | | |items|]|]; simpl; try (now intros [= <-]).
  apply reduce_amounts_throws.
Qed.

Lemma total_saved_exact details :
  safe_totals 0 details = true ->
  exists t,
    sum_amounts details = Some t
    /\ DataManager.total_saved (Some (JArr details)) = Ok (PNum (Finite t)).
Proof.
  intros Hs. destruct (reduce_amounts_exact _ _ Hs) as (t & E & R).
  exists t. split; [exact E|]. exact R.
Qed.

Lemma addGoal_data_spec data goal id now data' :
  DataManager.addGoal_data data goal id now = Ok data' ->
  exists g,
    array_in data' "goals" = array_in data "goals" ++ [g]
    /\ saved_is_sum g = true
    /\ prop g "saved" = Ok (Some (JNum 0))
    /\ prop g "savingsDetails" = Ok (Some (JArr []))
    /\ (forall v, data = VJson v -> exists fields, data' = VJson (JObj fields)).
Proof.
  unfold DataManager.addGoal_data.
  destruct (read_array data "goals") as [goals|] eqn:R; [|discriminate].
  apply read_array_inv in R.
  destruct (set_prop_array data "goals" goals
              (goals ++ [JObj (set_field "created" (JStr now)
                                 (set_field "savingsDetails" (JArr [])
                                    (set_field "saved" (JNum 0)
                                       (set_field "id" (JStr id) goal))))]) R)
    as (d & -> & P & _ & Hobj).
  intros [= <-]. eexists. rewrite (array_in_prop _ _ _ P), (array_in_prop _ _ _ R).
  split; [reflexivity|].
  assert (S : get_field "saved"
                (set_field "created" (JStr now)
                   (set_field "savingsDetails" (JArr [])
                      (set_field "saved" (JNum 0) (set_field "id" (JStr id) goal))))
              = Some (JNum 0)).
  { rewrite !get_field_set_field_ne by discriminate. apply get_field_set_field_eq. }
  assert (D : get_field "savingsDetails"
                (set_field "created" (JStr now)
                   (set_field "savingsDetails" (JArr [])
                      (set_field "saved" (JNum 0) (set_field "id" (JStr id) goal))))
              = Some (JArr [])).
  { rewrite get_field_set_field_ne by discriminate. apply get_field_set_field_eq. }
  repeat split; simpl; rewrite ?S, ?D; auto.
Qed.

Lemma deleteGoal_data_spec data goalId data' :
  DataManager.deleteGoal_data data goalId = Ok (Some data') ->
  (exists i, array_in data' "goals" = splice1 i (array_in data "goals"))
  /\ (forall v, data = VJson v -> exists fields, data' = VJson (JObj fields)).
Proof.
  unfold DataManager.deleteGoal_data.
  destruct (read_array data "goals") as [goals|] eqn:R; [|discriminate].
  apply read_array_inv in R.
  destruct (findIndex _ goals) as [[i|]|]; try discriminate.
  destruct (set_prop_array data "goals" goals (splice1 i goals) R) as (d & -> & P & _ & Hobj).
  intros [= <-]. rewrite (array_in_prop _ _ _ P), (array_in_prop _ _ _ R). eauto.
Qed.

Lemma id_is_true goalId g :
  DataManager.id_is goalId g = Ok true -> exists fields, g = JObj fields.
Proof.
  unfold DataManager.id_is.
  destruct g; simpl; try discriminate; eauto.
Qed.

Lemma updateGoalSavings_data_spec data goalId savingsDetails now data' :
  exact_savings savingsDetails = true ->
  DataManager.updateGoalSavings_data data goalId savingsDetails now = Ok (Some data') ->
  (exists i g, array_in data' "goals" = <[i := g]> (array_in data "goals")
               /\ saved_is_sum g = true)
  /\ (forall v, data = VJson v -> exists fields, data' = VJson (JObj fields)).
Proof.
  intros Hx. destruct savingsDetails as [[| | | |details|]|]; try discriminate.
  destruct (total_saved_exact details Hx) as (t & Ht & Hsum).
  unfold DataManager.updateGoalSavings_data.
  destruct (read_array data "goals") as [goals|] eqn:R; [|discriminate].
  apply read_array_inv in R.
  destruct (findIndex _ goals) as [[i|]|] eqn:F; try discriminate.
  apply findIndex_Some in F. destruct F as (g & Hg & Hid).
  apply id_is_true in Hid. destruct Hid as (fields & ->).
  rewrite Hg, Hsum. cbn [default from_option id set_prop_json stringified].
  match goal with
  | |- context [set_prop data "goals" (JArr (<[i := ?g']> goals))] =>
      destruct (set_prop_array data "goals" goals (<[i := g']> goals) R)
        as (d & -> & P & _ & Hobj)
  end.
  intros [= <-]. rewrite (array_in_prop _ _ _ P), (array_in_prop _ _ _ R).
  split; [|assumption]. eexists _, _. split; [reflexivity|].
  simpl. rewrite get_field_set_field_ne by discriminate.
  rewrite get_field_set_field_eq.
  rewrite !get_field_set_field_ne by discriminate.
  rewrite get_field_set_field_eq.
  rewrite Ht. apply Z.eqb_refl.
Qed.

Lemma forallb_Forall {A} (f : A -> bool) (l : list A) :
  forallb f l = true <-> Forall (fun x => f x = true) l.
Proof.
  induction l as [|x l IH]; simpl.
  - split; [constructor|reflexivity].
  - rewrite andb_true_iff, IH. split.
    + intros [? ?]. now constructor.
    + intros Hx. inversion Hx; subst. now split.
Qed.

Section StoreViews.
Context `{H : Host}.

Lemma getData_ext w w' key :
  localStorage w' = localStorage w -> same_keys w w' ->
  DataManager.getData w' key = DataManager.getData w key.
Proof.
  intros Hl (K1 & K2 & K3 & K4).
  unfold DataManager.getData, DataManager.decryptData. now rewrite Hl, K1, K2, K3, K4.
Qed.

(** In promise mode [getData] returns [null] or a promise with no
    property of its own. *)
Lemma getData_promise_mode w key :
  promise_mode w = true ->
  DataManager.getData w key = VJson JNull
  \/ exists r, DataManager.getData w key = VPromise r [].
Proof.
  intros Hm. apply promise_mode_true in Hm. destruct Hm as [Hd Hs].
  unfold DataManager.getData, DataManager.decryptData.
  destruct (localStorage w !! _) as [data|]; [|now left].
  destruct (String.eqb data ""); [now left|].
  rewrite Hd, Hs. right. eauto.
Qed.

Context {L : HostLaws H}.

(** Writing an object back while no promise is involved: the entry then
    reads as that object, or as before when the storage refused it. *)
Lemma setData_object_plain w key fields ok w' :
  promise_mode w = false ->
  DataManager.setData w key (VJson (JObj fields)) = (ok, w') ->
  promise_mode w' = false
  /\ (ok = false /\ DataManager.getData w' key = DataManager.getData w key
      \/ ok = true /\ DataManager.getData w' key = VJson (JObj fields)).
Proof.
  intros Hm S. destruct ok.
  - destruct (setData_getData_plain _ _ _ _ Hm S) as [G M]. auto.
  - apply setData_inv in S. destruct S as (K & _ & [(_ & Ls & _)|(? & _)]); [|discriminate].
    split; [now rewrite (same_keys_promise_mode w w')|].
    left. split; [reflexivity|]. now apply getData_ext.
Qed.
End StoreViews.

Section Goals.
Context `{H : Host} {L : HostLaws H}.

Lemma run_goal_op_same_keys op w : same_keys w (run_goal_op op w).
Proof.
  destruct op as [goal id now|goalId|goalId details now]; simpl.
  - unfold DataManager.addGoal.
    destruct (DataManager.addGoal_data _ _ _ _); [|apply same_keys_refl].
    destruct (DataManager.setData _ _ _) as [ok w'] eqn:S.
    now apply setData_inv in S.
  - unfold DataManager.deleteGoal.
    destruct (DataManager.deleteGoal_data _ _) as [[d|]|]; try apply same_keys_refl.
    destruct (DataManager.setData _ _ _) as [ok w'] eqn:S.
    now apply setData_inv in S.
  - unfold DataManager.updateGoalSavings.
    destruct (DataManager.updateGoalSavings_data _ _ _ _) as [[d|]|];
      try apply same_keys_refl.
    destruct (DataManager.setData _ _ _) as [ok w'] eqn:S.
    now apply setData_inv in S.
Qed.

Lemma goals_of_promise_mode w : promise_mode w = true -> goals_of w = [].
Proof.
  intros Hm. unfold goals_of.
  destruct (getData_promise_mode w "goals" Hm) as [-> | [r ->]]; reflexivity.
Qed.

(** The value [or_default] leaves of a JSON value. *)
Lemma or_default_json v d : exists v', or_default (VJson v) d = VJson v'.
Proof. unfold or_default. destruct (truthy (VJson v)); eauto. Qed.

(** What the goals read as after an operation has written [data'] back. *)
Lemma goals_after_write w data' ok w' :
  promise_mode w = false ->
  (exists fields, data' = VJson (JObj fields)) ->
  DataManager.setData w "goals" data' = (ok, w') ->
  goals_of w' = goals_of w \/ goals_of w' = array_in data' "goals".
Proof.
  intros Hm (fields & ->) S.
  destruct (setData_object_plain _ _ _ _ _ Hm S) as (_ & [(_ & G)|(_ & G)]);
    unfold goals_of; rewrite G; [now left|now right].
Qed.

Lemma run_goal_op_invariant op w :
  exact_update op = true ->
  goals_invariant w -> goals_invariant (run_goal_op op w).
Proof.
  intros Hx Inv. destruct (promise_mode w) eqn:Hm.
  { unfold goals_invariant. rewrite goals_of_promise_mode; [reflexivity|].
    now rewrite (same_keys_promise_mode w _ (run_goal_op_same_keys op w)). }
  unfold goals_invariant in *. rewrite forallb_Forall in *.
  assert (Hdata : exists v, or_default (DataManager.getData w "goals") DataManager.empty_goals
                            = VJson v).
  { rewrite getData_plain by assumption. apply or_default_json. }
  destruct Hdata as (v & Hdata). unfold goals_of in Inv. rewrite Hdata in Inv.
  destruct op as [goal id now|goalId|goalId details now]; simpl.
  - unfold DataManager.addGoal. rewrite Hdata.
    destruct (DataManager.addGoal_data _ _ _ _) as [data'|] eqn:A;
      [|cbn [snd]; unfold goals_of; now rewrite Hdata].
    apply addGoal_data_spec in A. destruct A as (g & Hg & Hs & _ & _ & Hobj).
    destruct (DataManager.setData _ _ _) as [ok w'] eqn:S. simpl.
    destruct (goals_after_write _ _ _ _ Hm (Hobj v eq_refl) S) as [-> | ->].
    + unfold goals_of; now rewrite Hdata.
    + rewrite Hg. apply Forall_app. split; [assumption|]. now constructor.
  - unfold DataManager.deleteGoal. rewrite Hdata.
    destruct (DataManager.deleteGoal_data _ _) as [[data'|]|] eqn:A;
      try (cbn [snd]; unfold goals_of; now rewrite Hdata).
    apply deleteGoal_data_spec in A. destruct A as ((i & Hg) & Hobj).
    destruct (DataManager.setData _ _ _) as [ok w'] eqn:S. simpl.
    destruct (goals_after_write _ _ _ _ Hm (Hobj v eq_refl) S) as [-> | ->].
    + unfold goals_of; now rewrite Hdata.
    + rewrite Hg. now apply Forall_splice1.
  - unfold DataManager.updateGoalSavings. rewrite Hdata.
    destruct (DataManager.updateGoalSavings_data _ _ _ _) as [[data'|]|] eqn:A;
      try (cbn [snd]; unfold goals_of; now rewrite Hdata).
    apply updateGoalSavings_data_spec in A; [|exact Hx].
    destruct A as ((i & g & Hg & Hs) & Hobj).
    destruct (DataManager.setData _ _ _) as [ok w'] eqn:S. simpl.
    destruct (goals_after_write _ _ _ _ Hm (Hobj v eq_refl) S) as [-> | ->].
    + unfold goals_of; now rewrite Hdata.
    + rewrite Hg. now apply Forall_insert.
Qed.

End Goals.

(** ** Assets *)


Lemma name_is_true name a :
  DataManager.name_is name a = Ok true -> prop a "name" = Ok name.
Proof.
  unfold DataManager.name_is. destruct (prop a "name") as [n|]; [|discriminate].
  intros [= E]. apply strict_eq_true in E. now subst.
Qed.

(** Two successive updates of array properties of [data]. *)
Lemma set_two_arrays data k1 k2 items1 items2 new1 new2 :
  k1 <> k2 ->
  prop_val data k1 = Ok (Some (JArr items1)) ->
  prop_val data k2 = Ok (Some (JArr items2)) ->
  exists data',
    (let* d := set_prop data k1 (JArr new1) in set_prop d k2 (JArr new2)) = Ok data'
    /\ array_in data' k1 = new1 /\ array_in data' k2 = new2
    /\ (forall v, data = VJson v -> exists fields, data' = VJson (JObj fields)).
Proof.
  intros Hk R1 R2.
  destruct (set_prop_array data k1 items1 new1 R1) as (d1 & -> & P1 & O1 & J1).
  assert (R2' : prop_val d1 k2 = Ok (Some (JArr items2))).
  { rewrite O1 by congruence. assumption. }
  destruct (set_prop_array d1 k2 items2 new2 R2') as (d2 & S2 & P2 & O2 & J2).
  exists d2. split; [exact S2|].
  split; [apply array_in_prop; rewrite O2 by assumption; exact P1|].
  split; [now apply array_in_prop|].
  intros v Hv. destruct (J1 v Hv) as (f1 & E1). exact (J2 _ E1).
Qed.

Lemma addAsset_data_spec data asset now id1 id2 data' :
  DataManager.addAsset_data data asset now id1 id2 = Ok data' ->
  upsert (array_in data "assets") (array_in data "history") asset now id1 id2
    (array_in data' "assets") (array_in data' "history")
  /\ (forall v, data = VJson v -> exists fields, data' = VJson (JObj fields)).
Proof.
  unfold DataManager.addAsset_data.
  destruct (read_array data "assets") as [assets|] eqn:R; [|discriminate].
  apply read_array_inv in R.
  destruct (findIndex _ assets) as [[i|]|] eqn:F; try discriminate.
  - apply findIndex_Some in F. destruct F as (old & Hold & Hname).
    apply name_is_true in Hname. rewrite Hold.
    destruct (prop old "value") as [oldValue|] eqn:V; [|discriminate].
    destruct (read_array data "history") as [history|] eqn:RH; [|discriminate].
    apply read_array_inv in RH.
    match goal with
    | |- context [set_prop data "assets" (JArr ?a)] =>
        match goal with
        | |- context [set_prop _ "history" (JArr ?h)] =>
            destruct (set_two_arrays data "assets" "history" assets history a h
                        ltac:(discriminate) R RH) as (d & -> & A1 & A2 & J)
        end
    end.
    intros [= <-]. split; [|assumption].
    rewrite A1, A2, (array_in_prop _ _ _ R), (array_in_prop _ _ _ RH).
    left. exists i, old, oldValue. repeat split; assumption.
  - apply findIndex_None in F.
    destruct (read_array data "history") as [history|] eqn:RH; [|discriminate].
    apply read_array_inv in RH.
    match goal with
    | |- context [set_prop data "assets" (JArr ?a)] =>
        match goal with
        | |- context [set_prop _ "history" (JArr ?h)] =>
            destruct (set_two_arrays data "assets" "history" assets history a h
                        ltac:(discriminate) R RH) as (d & -> & A1 & A2 & J)
        end
    end.
    intros [= <-]. split; [|assumption].
    rewrite A1, A2, (array_in_prop _ _ _ R), (array_in_prop _ _ _ RH).
    right. repeat split; assumption.
Qed.

Lemma deleteAsset_data_spec data assetName now id data' :
  DataManager.deleteAsset_data data assetName now id = Ok (Some data') ->
  (exists i entry,
      array_in data' "assets" = splice1 i (array_in data "assets")
      /\ array_in data' "history" = array_in data "history" ++ [entry])
  /\ (forall v, data = VJson v -> exists fields, data' = VJson (JObj fields)).
Proof.
  unfold DataManager.deleteAsset_data.
  destruct (read_array data "assets") as [assets|] eqn:R; [|discriminate].
  apply read_array_inv in R.
  destruct (findIndex _ assets) as [[i|]|] eqn:F; try discriminate.
  destruct (read_array data "history") as [history|] eqn:RH; [|discriminate].
  apply read_array_inv in RH.
  destruct (prop _ "name") as [name|]; [|discriminate].
  destruct (prop _ "type") as [type|]; [|discriminate].
  destruct (prop _ "value") as [value|]; [|discriminate].
  match goal with
  | |- context [set_prop data "assets" (JArr ?a)] =>
      match goal with
      | |- context [set_prop _ "history" (JArr ?h)] =>
          destruct (set_two_arrays data "assets" "history" assets history a h
                      ltac:(discriminate) R RH) as (d & E & A1 & A2 & J)
      end
  end.
  destruct (set_prop data "assets" _) as [d1|]; [|discriminate].
  cbv beta iota in E. rewrite E.
  intros [= <-]. split; [|assumption].
  rewrite A1, A2, (array_in_prop _ _ _ R), (array_in_prop _ _ _ RH). eauto.
Qed.

(** ** Pairwise distinct names *)

Lemma distinct_app_one names x :
  distinct names = true ->
  Forall (fun n => same_name n x = false) names ->
  distinct (names ++ [x]) = true.
Proof.
  induction names as [|n names IH]; intros Hd Hx; [reflexivity|].
  simpl in *. apply andb_true_iff in Hd. destruct Hd as [Hn Hd].
  inversion Hx as [|? ? Hnx Hrest]; subst.
  rewrite forallb_app, Hn, IH by assumption. simpl. now rewrite Hnx.
Qed.

Lemma forallb_take_drop {A} (f : A -> bool) i (l : list A) :
  forallb f l = true -> forallb f (take i l ++ drop (S i) l) = true.
Proof.
  rewrite !forallb_Forall. intros Hl. apply Forall_app. split.
  - now apply Forall_take.
  - now apply Forall_drop.
Qed.

Lemma distinct_take_drop i names :
  distinct names = true -> distinct (take i names ++ drop (S i) names) = true.
Proof.
  revert i. induction names as [|n names IH]; intros i Hd; [now destruct i|].
  simpl in Hd. apply andb_true_iff in Hd. destruct Hd as [Hn Hd].
  destruct i as [|i]; simpl.
  - now rewrite drop_0.
  - now rewrite forallb_take_drop, IH.
Qed.

Lemma unique_names_splice1 i assets :
  unique_names assets = true -> unique_names (splice1 i assets) = true.
Proof.
  unfold unique_names, splice1. rewrite fmap_app, fmap_take, fmap_drop.
  apply distinct_take_drop.
Qed.

Lemma unique_names_upsert assets history asset now id1 id2 assets' history' :
  upsert assets history asset now id1 id2 assets' history' ->
  unique_names assets = true -> unique_names assets' = true.
Proof.
  unfold unique_names.
  intros [(i & old & oldValue & Hold & Hname & _ & -> & _) | (Hnone & -> & _)] Hu.
  - rewrite list_fmap_insert. rewrite list_insert_id; [assumption|].
    rewrite list_lookup_fmap, Hold. simpl. rewrite Hname.
    now rewrite get_field_set_field_ne by discriminate.
  - rewrite fmap_app. apply distinct_app_one; [assumption|].
    apply Forall_fmap. eapply Forall_impl; [exact Hnone|].
    intros a Ha. simpl. unfold DataManager.name_is in Ha.
    rewrite !get_field_set_field_ne by discriminate.
    destruct (prop a "name") as [n|]; [|reflexivity]. unfold same_name. congruence.
Qed.

Section Assets.
Context `{H : Host} {L : HostLaws H}.

Lemma run_asset_op_same_keys op w : same_keys w (run_asset_op op w).
Proof.
  destruct op as [asset now id1 id2|assetName now id]; simpl.
  - unfold DataManager.addAsset.
    destruct (DataManager.addAsset_data _ _ _ _ _); [|apply same_keys_refl].
    destruct (DataManager.setData _ _ _) as [ok w'] eqn:S.
    now apply setData_inv in S.
  - unfold DataManager.deleteAsset.
    destruct (DataManager.deleteAsset_data _ _ _ _) as [[d|]|]; try apply same_keys_refl.
    destruct (DataManager.setData _ _ _) as [ok w'] eqn:S.
    now apply setData_inv in S.
Qed.

Lemma reads_object_plain w name : reads_object w name -> promise_mode w = false.
Proof.
  intros (fields & G). destruct (promise_mode w) eqn:Hm; [|reflexivity].
  destruct (getData_promise_mode w name Hm) as [E | [r E]]; congruence.
Qed.

(** An operation of the assets leaves the RecordSet readable, and either
    as it was or as the object it wrote. *)
Lemma assets_after_write w data' ok w' :
  promise_mode w = false ->
  (exists fields, data' = VJson (JObj fields)) ->
  DataManager.setData w "assets" data' = (ok, w') ->
  ok = false /\ DataManager.getData w' "assets" = DataManager.getData w "assets"
  \/ ok = true /\ DataManager.getData w' "assets" = data'.
Proof.
  intros Hm (fields & ->) S.
  destruct (setData_object_plain _ _ _ _ _ Hm S) as (_ & [(-> & G)|(-> & G)]); auto.
Qed.
End Assets.

(** * Further properties of the store and of the flows *)

(** ** Names and entries of the storage *)

Lemma append_inj_r (p a b : string) : p +:+ a = p +:+ b -> a = b.
Proof. induction p as [|c p IH]; simpl; [auto|]. intros [= E]. auto. Qed.

Lemma strip_prefix_Some p s k : DataManager.strip_prefix p s = Some k <-> s = p +:+ k.
Proof.
  revert s. induction p as [|a p IH]; intros s; simpl.
  - split; [now intros [= ->]|now intros ->].
  - destruct s as [|b s].
    + split; discriminate.
    + destruct (Ascii.eqb a b) eqn:E.
      * apply Ascii.eqb_eq in E. subst b. rewrite IH. split; [now intros ->|now intros [= ->]].
      * apply Ascii.eqb_neq in E. split; [discriminate|]. intros [= ? _]. congruence.
Qed.

Section Names.
Context `{H : Host}.

Lemma getAllKeys_elem w name :
  name ∈ DataManager.getAllKeys w
  <-> is_Some (localStorage w !! (DataManager.storagePrefix +:+ name)).
Proof.
  unfold DataManager.getAllKeys. rewrite list_elem_of_omap. split.
  - intros (full & Hin & Hs). apply strip_prefix_Some in Hs. subst full.
    change (map fst ?l) with (fst <$> l) in Hin.
    apply list_elem_of_fmap in Hin. destruct Hin as ([k v] & -> & Hin).
    apply elem_of_map_to_list in Hin. simpl. eauto.
  - intros [v Hv]. exists (DataManager.storagePrefix +:+ name). split.
    + change (map fst ?l) with (fst <$> l). apply list_elem_of_fmap.
      exists (DataManager.storagePrefix +:+ name, v). split; [reflexivity|].
      now apply elem_of_map_to_list.
    + now apply strip_prefix_Some.
Qed.

Lemma NoDup_omap_strip p (l : list string) :
  NoDup l -> NoDup (omap (DataManager.strip_prefix p) l).
Proof.
  induction 1 as [|x l Hx Hl IH]; simpl; [constructor|].
  destruct (DataManager.strip_prefix p x) as [k|] eqn:E; [|assumption].
  constructor; [|assumption].
  rewrite list_elem_of_omap. intros (y & Hy & Ey).
  apply strip_prefix_Some in E. apply strip_prefix_Some in Ey. congruence.
Qed.

Lemma NoDup_getAllKeys w : NoDup (DataManager.getAllKeys w).
Proof.
  unfold DataManager.getAllKeys. apply NoDup_omap_strip.
  change (map fst ?l) with (fst <$> l). apply NoDup_fst_map_to_list.
Qed.

(** [getData] looks at one entry and at the keys. *)
Lemma getData_entry w w' key :
  localStorage w' !! (DataManager.storagePrefix +:+ key)
  = localStorage w !! (DataManager.storagePrefix +:+ key) ->
  same_keys w w' ->
  DataManager.getData w' key = DataManager.getData w key.
Proof.
  intros Hl (K1 & K2 & K3 & K4).
  unfold DataManager.getData, DataManager.decryptData. now rewrite Hl, K1, K2, K3, K4.
Qed.

(** [setData] leaves every other entry as it is. *)
Lemma setData_other_entries w key data ok w' full :
  DataManager.setData w key data = (ok, w') ->
  full <> DataManager.storagePrefix +:+ key ->
  localStorage w' !! full = localStorage w !! full.
Proof.
  intros S Hne. apply setData_inv in S.
  destruct S as (_ & _ & [(_ & -> & _)|(_ & text & -> & _)]); [reflexivity|].
  now rewrite lookup_insert_ne.
Qed.

Lemma setData_other w key data ok w' key' :
  DataManager.setData w key data = (ok, w') -> key' <> key ->
  DataManager.getData w' key' = DataManager.getData w key'.
Proof.
  intros S Hne. apply getData_entry.
  - eapply setData_other_entries; [exact S|]. intros E. now apply append_inj_r in E.
  - now apply setData_inv in S.
Qed.

Lemma removeData_spec w key :
  DataManager.removeData w key
  = (true, emit (EvRemoveItem (DataManager.storagePrefix +:+ key))
             (with_localStorage (delete (DataManager.storagePrefix +:+ key) (localStorage w)) w)).
Proof. reflexivity. Qed.

(** X1. [getAllKeys()] lists each name once, and it lists exactly the
    names that have an entry under the prefix [financeTracker_]. *)
Theorem getAllKeys_lists_prefixed_entries_once (w : World) :
  NoDup (DataManager.getAllKeys w)
  /\ forall name : string,
       In name (DataManager.getAllKeys w)
       <-> exists text, localStorage w !! ("financeTracker_" +:+ name) = Some text.
Proof.
  split; [apply NoDup_getAllKeys|].
  intros name. rewrite <- list_elem_of_In, getAllKeys_elem. reflexivity.
Qed.

(** X2. [removeData(name)] returns [true]; afterwards [getData(name)]
    is [null] and [getAllKeys()] no longer lists the name, while every
    other RecordSet reads as before and every other entry of the storage
    is as it was. *)
Theorem removeData_then_getData_is_null (w : World) (name : string) :
  let w' := snd (DataManager.removeData w name) in
  fst (DataManager.removeData w name) = true
  /\ DataManager.getData w' name = VJson JNull
  /\ ~ In name (DataManager.getAllKeys w')
  /\ (forall other, other <> name ->
        DataManager.getData w' other = DataManager.getData w other)
  /\ (forall full, full <> "financeTracker_" +:+ name ->
        localStorage w' !! full = localStorage w !! full).
Proof.
  cbv zeta. rewrite removeData_spec. cbn [fst snd].
  split; [reflexivity|]. split; [|split; [|split]].
  - apply getData_absent. cbn. apply lookup_delete_eq.
  - rewrite <- list_elem_of_In, getAllKeys_elem. cbn. rewrite lookup_delete_eq.
    intros [? [=]].
  - intros other Hne. apply getData_entry; [|repeat split].
    cbn. apply lookup_delete_ne. intros E. apply append_inj_r in E. congruence.
  - intros full Hne. cbn [localStorage emit with_localStorage].
    apply lookup_delete_ne. intros E. apply Hne. now rewrite <- E.
Qed.

Context {L : HostLaws H}.

(** X3. While no promise is involved (one of the two managers holds no
    key), what [setData(name, V)] has stored is what [getData(name)]
    returns; the name is then listed by [getAllKeys()], and every
    other RecordSet reads as before. *)
Theorem setData_getData_round_trip_without_key
    (w w' : World) (name : string) (V : json) :
  promise_mode w = false ->
  DataManager.setData w name (VJson V) = (true, w') ->
  DataManager.getData w' name = VJson V
  /\ In name (DataManager.getAllKeys w')
  /\ forall other, other <> name ->
       DataManager.getData w' other = DataManager.getData w other.
Proof.
  intros Hm S. split; [|split].
  - now destruct (setData_getData_plain _ _ _ _ Hm S).
  - rewrite <- list_elem_of_In, getAllKeys_elem.
    apply setData_inv in S.
    destruct S as (_ & _ & [(? & _)|(_ & text & -> & _)]); [discriminate|].
    rewrite lookup_insert_eq. eauto.
  - intros other Hne. eapply setData_other; eauto.
Qed.
End Names.

(** ** Defaults, reset, export and import *)

Lemma In_defaults_truthy name value :
  In (name, value) DataManager.defaults -> truthy_json value = true.
Proof.
  unfold DataManager.defaults. simpl.
  intros [E|[E|[E|[E|[E|[E|[]]]]]]]; inversion E; reflexivity.
Qed.

Lemma get_field_In (k : string) (v : json) fields :
  NoDup (map fst fields) -> In (k, v) fields -> get_field k fields = Some v.
Proof.
  induction fields as [|[k' v'] rest IH]; simpl; [intros _ []|].
  intros Hnd. apply NoDup_cons in Hnd. destruct Hnd as [Hk Hnd].
  intros [[= -> ->]|Hin].
  - now rewrite String.eqb_refl.
  - destruct (String.eqb k k') eqn:E; [|auto].
    apply String.eqb_eq in E. subst k'. exfalso. apply Hk.
    apply list_elem_of_In. apply in_map_iff. now exists (k, v).
Qed.

Lemma get_field_Some_In (k : string) (v : json) fields :
  get_field k fields = Some v -> In (k, v) fields.
Proof.
  induction fields as [|[k' v'] rest IH]; simpl; [discriminate|].
  destruct (String.eqb k k') eqn:E.
  - apply String.eqb_eq in E. subst k'. intros [= ->]. now left.
  - auto.
Qed.

Lemma get_field_not_In (k : string) (fields : list (string * json)) :
  ~ In k (map fst fields) -> get_field k fields = None.
Proof.
  induction fields as [|[k' v'] rest IH]; simpl; [reflexivity|].
  intros Hn. destruct (String.eqb k k') eqn:E.
  - apply String.eqb_eq in E. subst. exfalso. auto.
  - auto.
Qed.

Section Sweeps.
Context `{H : Host}.

(** A conditional write of [initializeDefaults] or [importData]. *)
Lemma write_if_inv (b : bool) w key data :
  let w' := if b then snd (DataManager.setData w key data) else w in
  same_keys w w'
  /\ forall full, full <> DataManager.storagePrefix +:+ key ->
       localStorage w' !! full = localStorage w !! full.
Proof.
  cbv zeta. destruct b.
  - destruct (DataManager.setData w key data) as [ok w'] eqn:S. cbn [snd]. split.
    + now apply setData_inv in S.
    + intros full Hne. eapply setData_other_entries; eauto.
  - split; [apply same_keys_refl|reflexivity].
Qed.

(** The loop of [initializeDefaults] over any list of defaults: the keys
    stay, an entry that reads truthy stays, and so does every entry the
    list does not name. *)
Lemma initialize_keeps ds w :
  let w' :=
    fold_left (fun w '(key, value) =>
                 if negb (truthy (DataManager.getData w key))
                 then snd (DataManager.setData w key (VJson value)) else w) ds w in
  same_keys w w'
  /\ forall name,
       truthy (DataManager.getData w name) = true \/ ~ In name (map fst ds) ->
       localStorage w' !! (DataManager.storagePrefix +:+ name)
       = localStorage w !! (DataManager.storagePrefix +:+ name).
Proof.
  revert w. induction ds as [|[key value] ds IH]; intros w; cbv zeta; cbn [fold_left].
  - split; [apply same_keys_refl|reflexivity].
  - destruct (write_if_inv (negb (truthy (DataManager.getData w key))) w key (VJson value))
      as [K1 F1]. cbv zeta in K1, F1.
    set (w1 := if negb (truthy (DataManager.getData w key)) then _ else w) in *.
    destruct (IH w1) as [K2 F2]. cbv zeta in K2, F2.
    split; [eapply same_keys_trans; eauto|].
    intros name Hn.
    assert (E1 : localStorage w1 !! (DataManager.storagePrefix +:+ name)
                 = localStorage w !! (DataManager.storagePrefix +:+ name)).
    { destruct (String.eqb name key) eqn:E.
      - apply String.eqb_eq in E. subst key. destruct Hn as [Ht|Hn].
        + subst w1. now rewrite Ht.
        + exfalso. apply Hn. now left.
      - apply String.eqb_neq in E. apply F1. intros E'. now apply append_inj_r in E'. }
    rewrite F2; [exact E1|].
    destruct Hn as [Ht|Hn].
    + left. now rewrite (getData_entry w w1 name E1 K1).
    + right. intros Hin. apply Hn. now right.
Qed.

Lemma initializeDefaults_keeps w name :
  truthy (DataManager.getData w name) = true \/ ~ In name (map fst DataManager.defaults) ->
  localStorage (DataManager.initializeDefaults w) !! (DataManager.storagePrefix +:+ name)
  = localStorage w !! (DataManager.storagePrefix +:+ name)
  /\ DataManager.getData (DataManager.initializeDefaults w) name = DataManager.getData w name.
Proof.
  intros Hn. destruct (initialize_keeps DataManager.defaults w) as [K F]. cbv zeta in K, F.
  split; [now apply F|]. apply getData_entry; [now apply F|exact K].
Qed.

(** The sweep of [clearAllData]. *)
Lemma remove_sweep keys w :
  let w' := fold_left (fun w key => snd (DataManager.removeData w key)) keys w in
  same_keys w w'
  /\ forall full,
       localStorage w' !! full
       = if bool_decide (full ∈ (fun key => DataManager.storagePrefix +:+ key) <$> keys)
         then None else localStorage w !! full.
Proof.
  revert w. induction keys as [|key keys IH]; intros w; cbv zeta; cbn [fold_left].
  - split; [apply same_keys_refl|]. intros full. rewrite bool_decide_eq_false_2; [reflexivity|].
    cbn. apply not_elem_of_nil.
  - destruct (IH (snd (DataManager.removeData w key))) as [K F]. cbv zeta in K, F.
    split.
    + eapply same_keys_trans; [|exact K]. repeat split.
    + intros full. rewrite F. rewrite fmap_cons. cbn [DataManager.removeData snd localStorage emit with_localStorage].
      destruct (decide (full = DataManager.storagePrefix +:+ key)) as [->|Hne].
      * rewrite (bool_decide_eq_true_2 (_ ∈ _ :: _)) by apply list_elem_of_here.
        rewrite lookup_delete_eq. now destruct (bool_decide _).
      * rewrite lookup_delete_ne by congruence.
        destruct (bool_decide (full ∈ _ <$> keys)) eqn:E.
        -- apply bool_decide_eq_true in E.
           rewrite bool_decide_eq_true_2; [reflexivity|]. now apply list_elem_of_further.
        -- apply bool_decide_eq_false in E.
           rewrite bool_decide_eq_false_2; [reflexivity|].
           intros Hin. apply elem_of_cons in Hin. destruct Hin; auto.
Qed.

Lemma clear_sweep_entries w :
  let w' :=
    fold_left (fun w key => snd (DataManager.removeData w key)) (DataManager.getAllKeys w) w in
  same_keys w w'
  /\ (forall name, localStorage w' !! (DataManager.storagePrefix +:+ name) = None)
  /\ (forall full, DataManager.strip_prefix DataManager.storagePrefix full = None ->
        localStorage w' !! full = localStorage w !! full).
Proof.
  destruct (remove_sweep (DataManager.getAllKeys w) w) as [K F]. cbv zeta in *.
  split; [exact K|]. split.
  - intros name. rewrite F. destruct (bool_decide _) eqn:E; [reflexivity|].
    apply bool_decide_eq_false in E.
    destruct (localStorage w !! (DataManager.storagePrefix +:+ name)) as [text|] eqn:Ht;
      [|reflexivity].
    exfalso. apply E. apply list_elem_of_fmap. exists name. split; [reflexivity|].
    apply getAllKeys_elem. rewrite Ht. eauto.
  - intros full Hs. rewrite F. rewrite bool_decide_eq_false_2; [reflexivity|].
    intros Hin. apply list_elem_of_fmap in Hin. destruct Hin as (key & -> & _).
    assert (E : DataManager.strip_prefix DataManager.storagePrefix
                  (DataManager.storagePrefix +:+ key) = Some key)
      by now apply strip_prefix_Some.
    congruence.
Qed.

Lemma prefixed_not_foreign key full :
  DataManager.strip_prefix DataManager.storagePrefix full = None ->
  full <> DataManager.storagePrefix +:+ key.
Proof.
  intros Hs ->.
  assert (E : DataManager.strip_prefix DataManager.storagePrefix
                (DataManager.storagePrefix +:+ key) = Some key)
    by now apply strip_prefix_Some.
  congruence.
Qed.

Lemma initialize_foreign ds w full :
  DataManager.strip_prefix DataManager.storagePrefix full = None ->
  localStorage
    (fold_left (fun w '(key, value) =>
                  if negb (truthy (DataManager.getData w key))
                  then snd (DataManager.setData w key (VJson value)) else w) ds w) !! full
  = localStorage w !! full.
Proof.
  intros Hs. revert w. induction ds as [|[key value] ds IH]; intros w; cbn [fold_left];
    [reflexivity|].
  rewrite IH.
  apply (write_if_inv (negb (truthy (DataManager.getData w key))) w key (VJson value)).
  now apply prefixed_not_foreign.
Qed.

(** X6. [clearAllData()] leaves every key of the storage that does not
    start with the prefix [financeTracker_] as it is. *)
Theorem clearAllData_leaves_foreign_keys (w : World) (full : string) :
  DataManager.strip_prefix "financeTracker_" full = None ->
  localStorage (DataManager.clearAllData w) !! full = localStorage w !! full.
Proof.
  intros Hs. unfold DataManager.clearAllData, DataManager.initializeDefaults.
  rewrite initialize_foreign by exact Hs.
  now apply (clear_sweep_entries w).
Qed.

(** X4. [initializeDefaults()] never overwrites: a RecordSet that reads
    truthy, and any name that is not one of the six defaults, keeps its
    entry and reads as before. *)
Theorem initializeDefaults_never_overwrites (w : World) (name : string) :
  truthy (DataManager.getData w name) = true \/ ~ In name (map fst DataManager.defaults) ->
  localStorage (DataManager.initializeDefaults w) !! ("financeTracker_" +:+ name)
  = localStorage w !! ("financeTracker_" +:+ name)
  /\ DataManager.getData (DataManager.initializeDefaults w) name = DataManager.getData w name.
Proof. apply initializeDefaults_keeps. Qed.

Context {L : HostLaws H}.

(** The loop of [initializeDefaults], without promises and with room in
    the storage: a name that reads falsy reads as its default afterwards. *)
Lemma initialize_fills ds w :
  promise_mode w = false -> unlimited_storage -> NoDup (map fst ds) ->
  let w' :=
    fold_left (fun w '(key, value) =>
                 if negb (truthy (DataManager.getData w key))
                 then snd (DataManager.setData w key (VJson value)) else w) ds w in
  forall name value, In (name, value) ds ->
    truthy (DataManager.getData w name) = false ->
    DataManager.getData w' name = VJson value.
Proof.
  intros Hm Hroom. revert w Hm.
  induction ds as [|[key value] ds IH]; intros w Hm Hnd; cbv zeta; cbn [fold_left];
    [intros ? ? []|].
  cbn [map fst] in Hnd. apply NoDup_cons in Hnd. destruct Hnd as [Hk Hnd].
  destruct (write_if_inv (negb (truthy (DataManager.getData w key))) w key (VJson value))
    as [K1 F1]. cbv zeta in K1, F1.
  set (w1 := if negb (truthy (DataManager.getData w key)) then _ else w) in *.
  assert (Hm1 : promise_mode w1 = false) by now rewrite (same_keys_promise_mode w w1).
  intros name v [[= -> ->]|Hin] Hf.
  - (* written now, then kept *)
    assert (G1 : DataManager.getData w1 name = VJson v).
    { subst w1. rewrite Hf. cbn [negb].
      destruct (DataManager.setData w name (VJson v)) as [ok w1] eqn:S. cbn [snd].
      assert (ok = true) as ->.
      { rewrite setData_plain in S by assumption. unfold DataManager.setItem in S.
        rewrite Hroom in S. now inversion S. }
      now destruct (setData_getData_plain _ _ _ _ Hm S). }
    destruct (initialize_keeps ds w1) as [K2 F2]. cbv zeta in K2, F2.
    rewrite <- G1. apply getData_entry; [|exact K2].
    apply F2. right. intros Hin. apply Hk. now apply list_elem_of_In.
  - assert (Hne : name <> key).
    { intros ->. apply Hk. apply list_elem_of_In, in_map_iff. now exists (key, v). }
    apply (IH w1 Hm1 Hnd name v Hin).
    rewrite (getData_entry w w1 name); [exact Hf| |exact K1].
    apply F1. intros E. now apply append_inj_r in E.
Qed.

Lemma NoDup_defaults : NoDup (map fst DataManager.defaults).
Proof.
  apply NoDup_ListNoDup. unfold DataManager.defaults. cbn [map fst].
  repeat (constructor; [simpl; intuition discriminate|]). constructor.
Qed.

(** X5. Without promises and with room in the storage, after
    [initializeDefaults()] each of the six default RecordSets reads as it
    did before when that was truthy, and as its default value otherwise;
    in either case it reads truthy. *)
Theorem initializeDefaults_fills_only_what_is_missing
    (w : World) (name : string) (value : json) :
  promise_mode w = false -> unlimited_storage ->
  In (name, value) DataManager.defaults ->
  DataManager.getData (DataManager.initializeDefaults w) name
  = (if truthy (DataManager.getData w name) then DataManager.getData w name
     else VJson value)
  /\ truthy (DataManager.getData (DataManager.initializeDefaults w) name) = true.
Proof.
  intros Hm Hroom Hin.
  assert (E : DataManager.getData (DataManager.initializeDefaults w) name
              = if truthy (DataManager.getData w name) then DataManager.getData w name
                else VJson value).
  { destruct (truthy (DataManager.getData w name)) eqn:Ht.
    - apply initializeDefaults_keeps. now left.
    - now apply (initialize_fills DataManager.defaults w Hm Hroom NoDup_defaults). }
  split; [exact E|]. rewrite E.
  destruct (truthy (DataManager.getData w name)) eqn:Ht; [exact Ht|].
  simpl. eapply In_defaults_truthy; eauto.
Qed.

(** X7. Without promises and with room in the storage, after
    [clearAllData()] each of the six default names reads as its default
    value and every other name reads [null]. *)
Theorem clearAllData_resets_to_defaults (w : World) (name : string) :
  promise_mode w = false -> unlimited_storage ->
  DataManager.getData (DataManager.clearAllData w) name
  = VJson (default JNull (get_field name DataManager.defaults)).
Proof.
  intros Hm Hroom. unfold DataManager.clearAllData.
  destruct (clear_sweep_entries w) as (K & Hgone & _). cbv zeta in *.
  set (w1 := fold_left _ _ w) in *.
  assert (Hm1 : promise_mode w1 = false) by now rewrite (same_keys_promise_mode w w1).
  assert (Hnull : DataManager.getData w1 name = VJson JNull) by apply getData_absent, Hgone.
  destruct (get_field name DataManager.defaults) as [value|] eqn:G.
  - cbn [default from_option id].
    apply (initialize_fills DataManager.defaults w1 Hm1 Hroom NoDup_defaults).
    + now apply get_field_Some_In.
    + now rewrite Hnull.
  - cbn [default from_option id]. rewrite <- Hnull.
    apply initializeDefaults_keeps. right. intros Hin.
    apply in_map_iff in Hin. destruct Hin as ([k v] & Hk & Hin). simpl in Hk. subst k.
    rewrite (get_field_In name v) in G; [discriminate| |exact Hin].
    apply NoDup_defaults.
Qed.
End Sweeps.

(** ** Export and import *)




Lemma In_assign_same {A} (k : string) (v : A) props : In (k, v) (DataManager.assign k v props).
Proof.
  induction props as [|[k0 v0] rest IH]; simpl; [now left|].
  destruct (String.eqb k k0); simpl; auto.
Qed.



Lemma entries_of_fields (fields all : list (string * json)) :
  (forall k v, In (k, v) all -> get_field k fields = Some v) ->
  map (fun key => (key, default JNull (get_field key fields))) (map fst all) = all.
Proof.
  induction all as [|[k v] rest IH]; intros G; simpl; [reflexivity|].
  rewrite (G k v) by now left. simpl. f_equal. apply IH. intros; apply G; now right.
Qed.

Lemma own_entries_object fields :
  NoDup (map fst fields) -> DataManager.own_entries (JObj fields) = Some fields.
Proof.
  intros Hnd. simpl. f_equal. apply entries_of_fields.
  intros k v. now apply get_field_In.
Qed.

Section ExportImport.
Context `{H : Host}.




(** The loop of [importData]: the keys stay, and so does every entry the
    imported object does not name, and the two metadata names. *)
Lemma import_keeps (entries : list (string * json)) w :
  let w' :=
    fold_left (fun w '(key, value) =>
                 if negb (String.eqb key "exportDate") && negb (String.eqb key "version")
                 then snd (DataManager.setData w key (VJson value)) else w) entries w in
  same_keys w w'
  /\ forall name,
       ~ In name (map fst entries) \/ name = "exportDate" \/ name = "version" ->
       localStorage w' !! (DataManager.storagePrefix +:+ name)
       = localStorage w !! (DataManager.storagePrefix +:+ name).
Proof.
  revert w. induction entries as [|[key value] entries IH]; intros w; cbv zeta; cbn [fold_left].
  - split; [apply same_keys_refl|reflexivity].
  - set (b := negb (String.eqb key "exportDate") && negb (String.eqb key "version")).
    destruct (write_if_inv b w key (VJson value)) as [K1 F1]. cbv zeta in K1, F1.
    set (w1 := if b then _ else w) in *.
    destruct (IH w1) as [K2 F2]. cbv zeta in K2, F2.
    split; [eapply same_keys_trans; eauto|].
    intros name Hn. rewrite F2.
    + destruct (String.eqb name key) eqn:E.
      * apply String.eqb_eq in E. subst key.
        destruct Hn as [Hn|Hn]; [exfalso; apply Hn; now left|].
        assert (b = false) as Hb.
        { subst b. destruct Hn as [->| ->]; reflexivity. }
        subst w1. now rewrite Hb.
      * apply String.eqb_neq in E. apply F1. intros E'. now apply append_inj_r in E'.
    + destruct Hn as [Hn|Hn]; [left|now right]. intros Hin. apply Hn. now right.
Qed.

Context {L : HostLaws H}.

Lemma import_writes (entries : list (string * json)) w :
  promise_mode w = false -> unlimited_storage -> NoDup (map fst entries) ->
  let w' :=
    fold_left (fun w '(key, value) =>
                 if negb (String.eqb key "exportDate") && negb (String.eqb key "version")
                 then snd (DataManager.setData w key (VJson value)) else w) entries w in
  forall name value, In (name, value) entries ->
    name <> "exportDate" -> name <> "version" ->
    DataManager.getData w' name = VJson value.
Proof.
  intros Hm Hroom. revert w Hm.
  induction entries as [|[key value] entries IH]; intros w Hm Hnd; cbv zeta; cbn [fold_left];
    [intros ? ? []|].
  cbn [map fst] in Hnd. apply NoDup_cons in Hnd. destruct Hnd as [Hk Hnd'].
  set (b := negb (String.eqb key "exportDate") && negb (String.eqb key "version")).
  destruct (write_if_inv b w key (VJson value)) as [K1 F1]. cbv zeta in K1, F1.
  set (w1 := if b then _ else w) in *.
  assert (Hm1 : promise_mode w1 = false) by now rewrite (same_keys_promise_mode w w1).
  intros name v [[= -> ->]|Hin] H1 H2.
  - assert (b = true) as Hb.
    { subst b. apply String.eqb_neq in H1, H2. now rewrite H1, H2. }
    assert (G1 : DataManager.getData w1 name = VJson v).
    { subst w1. rewrite Hb.
      destruct (DataManager.setData w name (VJson v)) as [ok w1] eqn:S. cbn [snd].
      assert (ok = true) as ->.
      { rewrite setData_plain in S by assumption. unfold DataManager.setItem in S.
        rewrite Hroom in S. now inversion S. }
      now destruct (setData_getData_plain _ _ _ _ Hm S). }
    destruct (import_keeps entries w1) as [K2 F2]. cbv zeta in K2, F2.
    rewrite <- G1. apply getData_entry; [|exact K2].
    apply F2. left. intros Hin'. apply Hk. now apply list_elem_of_In.
  - now apply (IH w1 Hm1 Hnd' name v Hin).
Qed.

(** X8. Without promises and with room in the storage, [importData] of
    an object returns [success: true] with the export of the state it
    found as [backup]; every property of the object other than
    [exportDate] and [version] is then what [getData] returns under its
    name; the names the object does not have, and those two names, read as
    before. *)
Theorem importData_stores_each_property
    (w : World) (fields : list (string * json)) (now : string) :
  promise_mode w = false -> unlimited_storage -> NoDup (map fst fields) ->
  let r := DataManager.importData (JObj fields) now w in
  fst r = DataManager.Imported (DataManager.exportAllData now w)
  /\ (forall name value, In (name, value) fields ->
        name <> "exportDate" -> name <> "version" ->
        DataManager.getData (snd r) name = VJson value)
  /\ (forall name, ~ In name (map fst fields) \/ name = "exportDate" \/ name = "version" ->
        DataManager.getData (snd r) name = DataManager.getData w name).
Proof.
  intros Hm Hroom Hnd. cbv zeta. unfold DataManager.importData.
  rewrite (own_entries_object fields Hnd). cbn [fst snd].
  split; [reflexivity|]. split.
  - now apply import_writes.
  - intros name Hn. destruct (import_keeps fields w) as [K F]. cbv zeta in K, F.
    apply getData_entry; [now apply F|exact K].
Qed.


End ExportImport.

(** ** Lists of records: expenses, income and goals *)

Lemma findIndex_first pred (before : list json) x after :
  Forall (fun y => pred y = Ok false) before -> pred x = Ok true ->
  findIndex pred (before ++ x :: after) = Ok (Some (length before)).
Proof.
  intros Hb Hx. induction Hb as [|y before Hy Hb IH]; simpl.
  - now rewrite Hx.
  - now rewrite Hy, IH.
Qed.

Lemma findIndex_all_false pred (l : list json) :
  Forall (fun y => pred y = Ok false) l -> findIndex pred l = Ok None.
Proof.
  induction 1 as [|y l Hy Hl IH]; simpl; [reflexivity|]. now rewrite Hy, IH.
Qed.

Lemma splice1_middle (before : list json) x after :
  splice1 (length before) (before ++ x :: after) = before ++ after.
Proof.
  unfold splice1. rewrite take_app_length. f_equal.
  rewrite cons_middle, app_assoc. apply drop_app_length'.
  rewrite length_app. simpl. lia.
Qed.

Lemma insert_middle (before : list json) x y after :
  <[length before := y]> (before ++ x :: after) = before ++ y :: after.
Proof.
  rewrite insert_app_r_alt by lia. now rewrite Nat.sub_diag.
Qed.

Lemma lookup_middle (before : list json) x after :
  (before ++ x :: after) !! length before = Some x.
Proof. rewrite lookup_app_r by lia. now rewrite Nat.sub_diag. Qed.

Lemma id_is_stamped record id timestamp :
  DataManager.id_is id (stamped record id timestamp) = Ok true.
Proof.
  unfold DataManager.id_is, stamped. simpl.
  rewrite get_field_set_field_ne by discriminate. rewrite get_field_set_field_eq.
  simpl. now rewrite String.eqb_refl.
Qed.

Lemma id_is_new_goal goal id now : DataManager.id_is id (new_goal goal id now) = Ok true.
Proof.
  unfold DataManager.id_is, new_goal. simpl.
  do 3 (rewrite get_field_set_field_ne by discriminate). rewrite get_field_set_field_eq.
  simpl. now rewrite String.eqb_refl.
Qed.

Section Records.
Context `{H : Host} {L : HostLaws H}.

(** Writing the array back, without promises and with room in the
    storage: the RecordSet then holds the new array. *)
Lemma write_array w name dflt field items items' :
  promise_mode w = false -> unlimited_storage ->
  holds w name dflt field items ->
  exists data',
    set_prop (or_default (DataManager.getData w name) dflt) field (JArr items') = Ok data'
    /\ fst (DataManager.setData w name data') = true
    /\ holds (snd (DataManager.setData w name data')) name dflt field items'
    /\ promise_mode (snd (DataManager.setData w name data')) = false.
Proof.
  intros Hm Hroom Hh. unfold holds in *. apply read_array_inv in Hh.
  rewrite getData_plain in * by assumption.
  destruct (or_default_json (read_text (localStorage w !! (DataManager.storagePrefix +:+ name)))
              dflt) as (v & Hv).
  rewrite Hv in *.
  destruct (set_prop_array _ _ _ items' Hh) as (data' & Hs & Hp & _ & Hobj).
  destruct (Hobj v eq_refl) as (fields' & ->).
  exists (VJson (JObj fields')). split; [exact Hs|].
  destruct (DataManager.setData w name (VJson (JObj fields'))) as [ok w'] eqn:S. cbn [fst snd].
  assert (ok = true) as ->.
  { rewrite setData_plain in S by assumption. unfold DataManager.setItem in S.
    rewrite Hroom in S. now inversion S. }
  destruct (setData_getData_plain _ _ _ _ Hm S) as [G Hm'].
  split; [reflexivity|]. split; [|exact Hm'].
  rewrite G. change (or_default (VJson (JObj fields')) dflt) with (VJson (JObj fields')).
  unfold read_array. now rewrite Hp.
Qed.

Ltac write_back Hm Hroom Hh items' :=
  let data' := fresh "data'" in
  let Hs := fresh "Hs" in
  let Hok := fresh "Hok" in
  let Hh' := fresh "Hh'" in
  let Hm' := fresh "Hm'" in
  destruct (write_array _ _ _ _ _ items' Hm Hroom Hh) as (data' & Hs & Hok & Hh' & Hm');
  rewrite ?Hs; cbv beta iota;
  rewrite (surjective_pairing (DataManager.setData _ _ data')); cbn [fst snd];
  rewrite ?Hok.

(** *** Expenses *)

Lemma addExpense_appends w expenses expense id timestamp :
  promise_mode w = false -> unlimited_storage -> expenses_are w expenses ->
  fst (DataManager.addExpense expense id timestamp w) = Ok true
  /\ expenses_are (snd (DataManager.addExpense expense id timestamp w))
       (expenses ++ [stamped expense id timestamp])
  /\ promise_mode (snd (DataManager.addExpense expense id timestamp w)) = false.
Proof.
  intros Hm Hroom Hh. unfold DataManager.addExpense, DataManager.addExpense_data.
  pose proof Hh as Hr. unfold expenses_are, holds in Hr. rewrite Hr. cbv beta iota.
  change (JObj (set_field "timestamp" _ _)) with (stamped expense id timestamp).
  write_back Hm Hroom Hh (expenses ++ [stamped expense id timestamp]).
  auto.
Qed.

Lemma deleteExpense_removes w before x after expenseId :
  promise_mode w = false -> unlimited_storage ->
  expenses_are w (before ++ x :: after) ->
  no_record expenseId before -> DataManager.id_is expenseId x = Ok true ->
  fst (DataManager.deleteExpense expenseId w) = Ok true
  /\ expenses_are (snd (DataManager.deleteExpense expenseId w)) (before ++ after).
Proof.
  intros Hm Hroom Hh Hb Hx. unfold DataManager.deleteExpense, DataManager.deleteExpense_data.
  pose proof Hh as Hr. unfold expenses_are, holds in Hr. rewrite Hr. cbv beta iota.
  rewrite (findIndex_first _ _ _ _ Hb Hx). cbv beta iota. rewrite splice1_middle.
  write_back Hm Hroom Hh (before ++ after).
  auto.
Qed.

Lemma deleteExpense_unknown w expenses expenseId :
  expenses_are w expenses -> no_record expenseId expenses ->
  DataManager.deleteExpense expenseId w = (Ok false, w).
Proof.
  intros Hh Hn. unfold DataManager.deleteExpense, DataManager.deleteExpense_data.
  unfold expenses_are, holds in Hh. rewrite Hh. cbv beta iota.
  now rewrite (findIndex_all_false _ _ Hn).
Qed.

(** X10. Without promises and with room in the storage,
    [addExpense(expense)] returns [true] and appends one record, the
    expense with [id] and [timestamp] set; when no earlier expense has that
    id, [deleteExpense(id)] then returns [true] and the expenses are again
    what they were. *)
Theorem deleteExpense_undoes_addExpense
    (w : World) (expenses : list json) (expense : list (string * json))
    (id timestamp : string) :
  promise_mode w = false -> unlimited_storage ->
  expenses_are w expenses -> no_record id expenses ->
  let w1 := snd (DataManager.addExpense expense id timestamp w) in
  fst (DataManager.addExpense expense id timestamp w) = Ok true
  /\ expenses_are w1 (expenses ++ [stamped expense id timestamp])
  /\ fst (DataManager.deleteExpense id w1) = Ok true
  /\ expenses_are (snd (DataManager.deleteExpense id w1)) expenses.
Proof.
  intros Hm Hroom Hh Hfresh. cbv zeta.
  destruct (addExpense_appends w expenses expense id timestamp Hm Hroom Hh) as (A & B & C).
  split; [exact A|]. split; [exact B|].
  destruct (deleteExpense_removes _ expenses (stamped expense id timestamp) [] id
              C Hroom B Hfresh (id_is_stamped _ _ _)) as (D & E).
  split; [exact D|]. now rewrite app_nil_r in E.
Qed.

(** X11. [deleteExpense(id)] returns [false] and changes nothing when no
    expense has the id; otherwise (without promises, with room in the
    storage) it returns [true] and removes the first expense with that id
    and no other. *)
Theorem deleteExpense_removes_first_match
    (w : World) (expenses : list json) (expenseId : string) :
  promise_mode w = false -> unlimited_storage -> expenses_are w expenses ->
  (no_record expenseId expenses ->
   DataManager.deleteExpense expenseId w = (Ok false, w))
  /\ (forall before x after,
        expenses = before ++ x :: after ->
        no_record expenseId before -> DataManager.id_is expenseId x = Ok true ->
        fst (DataManager.deleteExpense expenseId w) = Ok true
        /\ expenses_are (snd (DataManager.deleteExpense expenseId w)) (before ++ after)).
Proof.
  intros Hm Hroom Hh. split.
  - now apply deleteExpense_unknown.
  - intros before x after -> Hb Hx. now apply (deleteExpense_removes w before x after).
Qed.

(** *** Income *)

Lemma addIncome_appends w incomes income id timestamp :
  promise_mode w = false -> unlimited_storage -> income_is w incomes ->
  fst (DataManager.addIncome income id timestamp w) = Ok true
  /\ income_is (snd (DataManager.addIncome income id timestamp w))
       (incomes ++ [stamped income id timestamp])
  /\ promise_mode (snd (DataManager.addIncome income id timestamp w)) = false.
Proof.
  intros Hm Hroom Hh. unfold DataManager.addIncome, DataManager.addIncome_data.
  pose proof Hh as Hr. unfold income_is, holds in Hr. rewrite Hr. cbv beta iota.
  change (JObj (set_field "timestamp" _ _)) with (stamped income id timestamp).
  write_back Hm Hroom Hh (incomes ++ [stamped income id timestamp]).
  auto.
Qed.

Lemma deleteIncome_removes w before x after incomeId :
  promise_mode w = false -> unlimited_storage ->
  income_is w (before ++ x :: after) ->
  no_record incomeId before -> DataManager.id_is incomeId x = Ok true ->
  fst (DataManager.deleteIncome incomeId w) = Ok true
  /\ income_is (snd (DataManager.deleteIncome incomeId w)) (before ++ after).
Proof.
  intros Hm Hroom Hh Hb Hx. unfold DataManager.deleteIncome, DataManager.deleteIncome_data.
  pose proof Hh as Hr. unfold income_is, holds in Hr. rewrite Hr. cbv beta iota.
  rewrite (findIndex_first _ _ _ _ Hb Hx). cbv beta iota. rewrite splice1_middle.
  write_back Hm Hroom Hh (before ++ after).
  auto.
Qed.

Lemma deleteIncome_unknown w incomes incomeId :
  income_is w incomes -> no_record incomeId incomes ->
  DataManager.deleteIncome incomeId w = (Ok false, w).
Proof.
  intros Hh Hn. unfold DataManager.deleteIncome, DataManager.deleteIncome_data.
  unfold income_is, holds in Hh. rewrite Hh. cbv beta iota.
  now rewrite (findIndex_all_false _ _ Hn).
Qed.

(** X12. Without promises and with room in the storage,
    [addIncome(income)] returns [true] and appends one record, the income
    with [id] and [timestamp] set; when no earlier income has that id,
    [deleteIncome(id)] then returns [true] and the income records are
    again what they were. *)
Theorem deleteIncome_undoes_addIncome
    (w : World) (incomes : list json) (income : list (string * json))
    (id timestamp : string) :
  promise_mode w = false -> unlimited_storage ->
  income_is w incomes -> no_record id incomes ->
  let w1 := snd (DataManager.addIncome income id timestamp w) in
  fst (DataManager.addIncome income id timestamp w) = Ok true
  /\ income_is w1 (incomes ++ [stamped income id timestamp])
  /\ fst (DataManager.deleteIncome id w1) = Ok true
  /\ income_is (snd (DataManager.deleteIncome id w1)) incomes.
Proof.
  intros Hm Hroom Hh Hfresh. cbv zeta.
  destruct (addIncome_appends w incomes income id timestamp Hm Hroom Hh) as (A & B & C).
  split; [exact A|]. split; [exact B|].
  destruct (deleteIncome_removes _ incomes (stamped income id timestamp) [] id
              C Hroom B Hfresh (id_is_stamped _ _ _)) as (D & E).
  split; [exact D|]. now rewrite app_nil_r in E.
Qed.

(** X13. [deleteIncome(id)] returns [false] and changes nothing when no
    income record has the id; otherwise (without promises, with room in
    the storage) it returns [true] and removes the first record with that
    id and no other. *)
Theorem deleteIncome_removes_first_match
    (w : World) (incomes : list json) (incomeId : string) :
  promise_mode w = false -> unlimited_storage -> income_is w incomes ->
  (no_record incomeId incomes ->
   DataManager.deleteIncome incomeId w = (Ok false, w))
  /\ (forall before x after,
        incomes = before ++ x :: after ->
        no_record incomeId before -> DataManager.id_is incomeId x = Ok true ->
        fst (DataManager.deleteIncome incomeId w) = Ok true
        /\ income_is (snd (DataManager.deleteIncome incomeId w)) (before ++ after)).
Proof.
  intros Hm Hroom Hh. split.
  - now apply deleteIncome_unknown.
  - intros before x after -> Hb Hx. now apply (deleteIncome_removes w before x after).
Qed.

(** *** Goals *)

Lemma addGoal_appends w goals goal id now :
  promise_mode w = false -> unlimited_storage -> goals_are w goals ->
  fst (DataManager.addGoal goal id now w) = Ok true
  /\ goals_are (snd (DataManager.addGoal goal id now w)) (goals ++ [new_goal goal id now])
  /\ promise_mode (snd (DataManager.addGoal goal id now w)) = false.
Proof.
  intros Hm Hroom Hh. unfold DataManager.addGoal, DataManager.addGoal_data.
  pose proof Hh as Hr. unfold goals_are, holds in Hr. rewrite Hr. cbv beta iota.
  change (JObj (set_field "created" _ _)) with (new_goal goal id now).
  write_back Hm Hroom Hh (goals ++ [new_goal goal id now]).
  auto.
Qed.

Lemma deleteGoal_removes w before x after goalId :
  promise_mode w = false -> unlimited_storage ->
  goals_are w (before ++ x :: after) ->
  no_record goalId before -> DataManager.id_is goalId x = Ok true ->
  fst (DataManager.deleteGoal goalId w) = Ok true
  /\ goals_are (snd (DataManager.deleteGoal goalId w)) (before ++ after).
Proof.
  intros Hm Hroom Hh Hb Hx. unfold DataManager.deleteGoal, DataManager.deleteGoal_data.
  pose proof Hh as Hr. unfold goals_are, holds in Hr. rewrite Hr. cbv beta iota.
  rewrite (findIndex_first _ _ _ _ Hb Hx). cbv beta iota. rewrite splice1_middle.
  write_back Hm Hroom Hh (before ++ after).
  auto.
Qed.

(** Without promises and with room in the storage, an operation leaves the
    goals readable. *)
Lemma run_goal_op_readable op w goals :
  promise_mode w = false -> unlimited_storage -> goals_are w goals ->
  promise_mode (run_goal_op op w) = false /\ exists goals', goals_are (run_goal_op op w) goals'.
Proof.
  intros Hm Hroom Hh.
  split; [now rewrite (same_keys_promise_mode w _ (run_goal_op_same_keys op w))|].
  assert (Same : exists goals', goals_are w goals') by eauto.
  pose proof Hh as Hr. unfold goals_are, holds in Hr.
  destruct op as [goal id now|goalId|goalId savingsDetails now]; cbn [run_goal_op].
  - destruct (addGoal_appends w goals goal id now Hm Hroom Hh) as (_ & A & _). eauto.
  - unfold DataManager.deleteGoal, DataManager.deleteGoal_data. rewrite Hr. cbv beta iota.
    destruct (findIndex _ goals) as [[i|]|]; cbv beta iota; try exact Same.
    write_back Hm Hroom Hh (splice1 i goals). eauto.
  - unfold DataManager.updateGoalSavings, DataManager.updateGoalSavings_data.
    rewrite Hr. cbv beta iota.
    destruct (findIndex _ goals) as [[i|]|]; cbv beta iota zeta; try exact Same.
    destruct savingsDetails as [details|]; [|exact Same].
    destruct (set_prop_json _ "savingsDetails" _) as [g1|]; cbv beta iota; [|exact Same].
    destruct (DataManager.total_saved _) as [saved|]; cbv beta iota; [|exact Same].
    destruct (set_prop_json g1 "saved" _) as [g2|]; cbv beta iota; [|exact Same].
    destruct (set_prop_json g2 "lastUpdated" _) as [g3|]; cbv beta iota; [|exact Same].
    write_back Hm Hroom Hh (<[i := g3]> goals). eauto.
Qed.

Lemma run_goal_ops_readable ops w goals :
  promise_mode w = false -> unlimited_storage -> goals_are w goals ->
  promise_mode (run_goal_ops ops w) = false
  /\ exists goals', goals_are (run_goal_ops ops w) goals'.
Proof.
  unfold run_goal_ops. revert w goals.
  induction ops as [|op ops IH]; intros w goals Hm Hroom Hh; cbn [fold_left]; [eauto|].
  destruct (run_goal_op_readable op w goals Hm Hroom Hh) as (Hm' & goals' & Hh').
  exact (IH _ goals' Hm' Hroom Hh').
Qed.

(** X14. Without promises and with room in the storage, [addGoal(goal)]
    returns [true] and appends the goal with [id], [saved: 0], empty
    [savingsDetails] and [created]; when no earlier goal has that id,
    [deleteGoal(id)] then returns [true] and the goals are again what they
    were. *)
Theorem deleteGoal_undoes_addGoal
    (w : World) (goals : list json) (goal : list (string * json)) (id now : string) :
  promise_mode w = false -> unlimited_storage ->
  goals_are w goals -> no_record id goals ->
  let w1 := snd (DataManager.addGoal goal id now w) in
  fst (DataManager.addGoal goal id now w) = Ok true
  /\ goals_are w1 (goals ++ [new_goal goal id now])
  /\ fst (DataManager.deleteGoal id w1) = Ok true
  /\ goals_are (snd (DataManager.deleteGoal id w1)) goals.
Proof.
  intros Hm Hroom Hh Hfresh. cbv zeta.
  destruct (addGoal_appends w goals goal id now Hm Hroom Hh) as (A & B & C).
  split; [exact A|]. split; [exact B|].
  destruct (deleteGoal_removes _ goals (new_goal goal id now) [] id
              C Hroom B Hfresh (id_is_new_goal _ _ _)) as (D & E).
  split; [exact D|]. now rewrite app_nil_r in E.
Qed.

Lemma updateGoalSavings_rewrites w before goal after goalId details saved now :
  promise_mode w = false -> unlimited_storage ->
  goals_are w (before ++ JObj goal :: after) ->
  no_record goalId before -> DataManager.id_is goalId (JObj goal) = Ok true ->
  DataManager.total_saved (Some details) = Ok saved ->
  fst (DataManager.updateGoalSavings goalId (Some details) now w) = Ok true
  /\ goals_are (snd (DataManager.updateGoalSavings goalId (Some details) now w))
       (before ++ with_savings goal details (stringified saved) now :: after).
Proof.
  intros Hm Hroom Hh Hb Hx Hs.
  unfold DataManager.updateGoalSavings, DataManager.updateGoalSavings_data.
  pose proof Hh as Hr. unfold goals_are, holds in Hr. rewrite Hr. cbv beta iota.
  rewrite (findIndex_first _ _ _ _ Hb Hx). cbv beta iota zeta.
  rewrite lookup_middle, Hs. cbn [default from_option id set_prop_json].
  rewrite insert_middle.
  change (JObj (set_field "lastUpdated" _ _))
    with (with_savings goal details (stringified saved) now).
  write_back Hm Hroom Hh (before ++ with_savings goal details (stringified saved) now :: after).
  auto.
Qed.

(** X15. For [details] that is [undefined] or a JSON value (its numbers
    integers): [updateGoalSavings(id, details)] returns [false] and changes
    nothing when no goal has the id. Otherwise it throws a [TypeError] and
    changes nothing when [reduce((total, s) => total + s.amount, 0)] does
    ([details] is not an array, or has a [null] element, or an amount that
    has no primitive value); else (without promises, with room in the
    storage) it returns [true] and rewrites the first goal with that id,
    setting [savingsDetails] to [details], [saved] to what the reduction
    gives (a number or a string, stored as [JSON.stringify] writes it) and
    [lastUpdated], and leaves every other goal as it is. *)
Theorem updateGoalSavings_rewrites_first_match_only
    (w : World) (goals : list json) (goalId : string)
    (savingsDetails : option json) (now : string) :
  promise_mode w = false -> unlimited_storage -> goals_are w goals ->
  (no_record goalId goals ->
   DataManager.updateGoalSavings goalId savingsDetails now w = (Ok false, w))
  /\ (forall before goal after,
        goals = before ++ JObj goal :: after ->
        no_record goalId before -> DataManager.id_is goalId (JObj goal) = Ok true ->
        match savingsDetails, DataManager.total_saved savingsDetails with
        | Some details, Ok saved =>
            fst (DataManager.updateGoalSavings goalId savingsDetails now w) = Ok true
            /\ goals_are (snd (DataManager.updateGoalSavings goalId savingsDetails now w))
                 (before ++ with_savings goal details (stringified saved) now :: after)
        | _, _ =>
            DataManager.updateGoalSavings goalId savingsDetails now w = (Throw TypeError, w)
        end).
Proof.
  intros Hm Hroom Hh. split.
  - intros Hn. unfold DataManager.updateGoalSavings, DataManager.updateGoalSavings_data.
    unfold goals_are, holds in Hh. rewrite Hh. cbv beta iota.
    now rewrite (findIndex_all_false _ _ Hn).
  - intros before goal after -> Hb Hx.
    destruct savingsDetails as [details|].
    + destruct (DataManager.total_saved (Some details)) as [saved|e] eqn:Hs.
      * now apply updateGoalSavings_rewrites.
      * assert (e = TypeError) as -> by exact (total_saved_throws _ _ Hs).
        unfold DataManager.updateGoalSavings, DataManager.updateGoalSavings_data.
        unfold goals_are, holds in Hh. rewrite Hh. cbv beta iota.
        rewrite (findIndex_first _ _ _ _ Hb Hx). cbv beta iota zeta.
        rewrite lookup_middle, Hs. reflexivity.
    + unfold DataManager.updateGoalSavings, DataManager.updateGoalSavings_data.
      unfold goals_are, holds in Hh. rewrite Hh. cbv beta iota.
      now rewrite (findIndex_first _ _ _ _ Hb Hx).
Qed.
End Records.

(** ** The log of the assets *)
Section AssetLog.
Context `{H : Host} {L : HostLaws H}.

Lemma write_two_arrays w assets history assets' history' :
  promise_mode w = false -> unlimited_storage ->
  assets_hold w assets history ->
  exists data',
    (let* d := set_prop (or_default (DataManager.getData w "assets") DataManager.empty_assets)
                 "assets" (JArr assets') in
     set_prop d "history" (JArr history')) = Ok data'
    /\ fst (DataManager.setData w "assets" data') = true
    /\ assets_hold (snd (DataManager.setData w "assets" data')) assets' history'.
Proof.
  intros Hm Hroom [Ha Hh]. cbv zeta in *.
  apply read_array_inv in Ha, Hh.
  rewrite getData_plain in * by assumption.
  destruct (or_default_json (read_text (localStorage w !! (DataManager.storagePrefix +:+ "assets")))
              DataManager.empty_assets) as (v & Hv).
  rewrite Hv in *.
  destruct (set_prop_array _ _ _ assets' Ha) as (d1 & Hs1 & P1 & O1 & J1).
  destruct (J1 v eq_refl) as (fields1 & ->).
  assert (Hh1 : prop_val (VJson (JObj fields1)) "history" = Ok (Some (JArr history))).
  { rewrite O1 by discriminate. exact Hh. }
  destruct (set_prop_array _ _ _ history' Hh1) as (d2 & Hs2 & P2 & O2 & J2).
  destruct (J2 _ eq_refl) as (fields2 & ->).
  exists (VJson (JObj fields2)). split; [rewrite Hs1; exact Hs2|].
  destruct (DataManager.setData w "assets" (VJson (JObj fields2))) as [ok w'] eqn:S.
  cbn [fst snd].
  assert (ok = true) as ->.
  { rewrite setData_plain in S by assumption. unfold DataManager.setItem in S.
    rewrite Hroom in S. now inversion S. }
  destruct (setData_getData_plain _ _ _ _ Hm S) as [G Hm'].
  split; [reflexivity|]. unfold assets_hold. rewrite G.
  change (or_default (VJson (JObj fields2)) DataManager.empty_assets)
    with (VJson (JObj fields2)).
  unfold read_array. rewrite P2, (O2 "assets") by discriminate. rewrite P1. split; reflexivity.
Qed.

(** X16. [deleteAsset(name)] returns [false], logs nothing and changes
    nothing when no asset has the name; otherwise (without promises, with
    room in the storage) it returns [true], removes the first asset with
    that name and appends to the history one [delete] entry with the name,
    type and value of the removed asset. *)
Theorem deleteAsset_removes_first_match_and_logs
    (w : World) (assets history : list json) (assetName now id : string) :
  promise_mode w = false -> unlimited_storage -> assets_hold w assets history ->
  (no_asset assetName assets ->
   DataManager.deleteAsset assetName now id w = (Ok false, w))
  /\ (forall before deleted after entry,
        assets = before ++ deleted :: after ->
        no_asset assetName before ->
        DataManager.name_is (Some (JStr assetName)) deleted = Ok true ->
        delete_entry deleted now id = Ok entry ->
        fst (DataManager.deleteAsset assetName now id w) = Ok true
        /\ assets_hold (snd (DataManager.deleteAsset assetName now id w))
             (before ++ after) (history ++ [entry])).
Proof.
  intros Hm Hroom Hh.
  unfold DataManager.deleteAsset, DataManager.deleteAsset_data.
  pose proof Hh as [Ha Hl]. cbv zeta in Ha, Hl. rewrite Ha. cbv beta iota.
  split.
  - intros Hn. now rewrite (findIndex_all_false _ _ Hn).
  - intros before deleted after entry -> Hb Hx He.
    rewrite (findIndex_first _ _ _ _ Hb Hx). cbv beta iota zeta.
    rewrite Hl. cbv beta iota.
    rewrite lookup_middle. change (default JNull (Some deleted)) with deleted.
    rewrite splice1_middle.
    unfold delete_entry in He.
    destruct (prop deleted "name") as [name|]; [|discriminate].
    destruct (prop deleted "type") as [type|]; [|discriminate].
    destruct (prop deleted "value") as [value|]; [|discriminate].
    injection He as <-.
    destruct (write_two_arrays w _ _ (before ++ after)
                (history ++ [JObj ([("id", JStr id)] ++ DataManager.history_of name type value
                                   ++ [("timestamp", JStr now); ("action", JStr "delete")])])
                Hm Hroom Hh) as (data' & Hs & Hok & Hh').
    destruct (set_prop _ "assets" _) as [d1|]; [|discriminate].
    cbv beta iota in Hs |- *. rewrite Hs. cbv beta iota.
    rewrite (surjective_pairing (DataManager.setData _ _ data')). cbn [fst snd].
    rewrite Hok. auto.
Qed.

Lemma run_asset_op_log op w :
  reads_object w "assets" ->
  reads_object (run_asset_op op w) "assets"
  /\ (asset_history (run_asset_op op w) = asset_history w
      \/ exists entry, asset_history (run_asset_op op w) = asset_history w ++ [entry]).
Proof.
  intros Hobj. pose proof (reads_object_plain _ _ Hobj) as Hm.
  pose proof Hobj as (fields & G).
  assert (Hdata : or_default (DataManager.getData w "assets") DataManager.empty_assets
                  = VJson (JObj fields)) by (now rewrite G).
  assert (Same : forall w', DataManager.getData w' "assets" = DataManager.getData w "assets" ->
                            reads_object w' "assets"
                            /\ (asset_history w' = asset_history w
                                \/ exists entry, asset_history w' = asset_history w ++ [entry])).
  { intros w' G'. split; [exists fields; congruence|]. left.
    unfold asset_history. now rewrite G'. }
  destruct op as [asset now id1 id2|assetName now id]; simpl.
  - unfold DataManager.addAsset. rewrite Hdata.
    destruct (DataManager.addAsset_data _ _ _ _ _) as [data'|] eqn:A; [|now apply Same].
    apply addAsset_data_spec in A. destruct A as (U & J).
    destruct (DataManager.setData _ _ _) as [ok w'] eqn:S. simpl.
    destruct (J _ eq_refl) as (fields' & ->).
    destruct (assets_after_write _ _ _ _ Hm (ex_intro _ fields' eq_refl) S) as [(_ & G')|(_ & G')];
      [now apply Same|].
    split; [exists fields'; assumption|]. right.
    unfold asset_history. rewrite G', Hdata.
    change (or_default (VJson (JObj fields')) DataManager.empty_assets)
      with (VJson (JObj fields')).
    destruct U as [(i & old & oldValue & _ & _ & _ & _ & ->) | (_ & _ & ->)]; eauto.
  - unfold DataManager.deleteAsset. rewrite Hdata.
    destruct (DataManager.deleteAsset_data _ _ _ _) as [[data'|]|] eqn:A;
      try now apply Same.
    apply deleteAsset_data_spec in A. destruct A as ((i & entry & _ & HA) & J).
    destruct (DataManager.setData _ _ _) as [ok w'] eqn:S. simpl.
    destruct (J _ eq_refl) as (fields' & ->).
    destruct (assets_after_write _ _ _ _ Hm (ex_intro _ fields' eq_refl) S) as [(_ & G')|(_ & G')];
      [now apply Same|].
    split; [exists fields'; assumption|]. right.
    unfold asset_history. rewrite G', Hdata.
    change (or_default (VJson (JObj fields')) DataManager.empty_assets)
      with (VJson (JObj fields')).
    eauto.
Qed.

(** X17. The asset history is append-only: while the assets RecordSet
    reads as an object, a sequence of [addAsset] and [deleteAsset] calls
    leaves every earlier entry of the history in place and appends at most
    one entry per call. *)
Theorem asset_history_is_append_only (w : World) (ops : list AssetOp) :
  reads_object w "assets" ->
  exists logged,
    asset_history (run_asset_ops ops w) = asset_history w ++ logged
    /\ (length logged <= length ops)%nat.
Proof.
  unfold run_asset_ops. revert w. induction ops as [|op ops IH]; intros w Hobj; cbn [fold_left].
  - exists []. now rewrite app_nil_r.
  - destruct (run_asset_op_log op w Hobj) as (Hobj1 & Hstep).
    destruct (IH _ Hobj1) as (logged & E & Hlen). rewrite E.
    destruct Hstep as [-> | (entry & ->)].
    + exists logged. split; [reflexivity|]. simpl. lia.
    + exists (entry :: logged). split; [now rewrite <- app_assoc|]. simpl. lia.
Qed.
End AssetLog.

(** ** The cipher and the password check *)
Section Sealing.
Context `{H : Host} {L : HostLaws H}.

(** X18. Round trip of the cipher: [encryptData] under a key draws one
    IV and returns an envelope that [decryptData] under the same key
    decrypts to the value; with no key both throw
    [Error('Encryption key not available')]. *)
Theorem encryptData_decryptData_round_trip (key : CryptoKey) (v : json) (w : World) :
  exists envelope,
    SecurityManager.encryptData (Some key) (VJson v) w
    = (Ok envelope, with_rng_calls (S (rng_calls w)) w)
    /\ SecurityManager.decryptData (Some key) envelope = Ok v
    /\ SecurityManager.encryptData None (VJson v) w
       = (Throw (Error "Encryption key not available"), w)
    /\ SecurityManager.decryptData None envelope
       = Throw (Error "Encryption key not available").
Proof.
  eexists. split; [reflexivity|]. split; [|split; reflexivity].
  eapply decryptData_encryptData. reflexivity.
Qed.

Lemma decryptData_other_key key key' v text :
  AuthenticatedCipher H -> sealed_under key v text -> key' <> key ->
  SecurityManager.decryptData (Some key') text = Throw (Error "Failed to decrypt data").
Proof.
  intros Auth (w & w' & HE) Hk. apply encryptData_envelope in HE. destruct HE as (iv & Hiv & ->).
  unfold SecurityManager.decryptData. rewrite atob_btoa.
  rewrite take_app_length' by (now symmetry). rewrite drop_app_length' by (now symmetry).
  rewrite Auth by congruence. reflexivity.
Qed.

Lemma decryptData_sealed key v text :
  sealed_under key v text -> SecurityManager.decryptData (Some key) text = Ok v.
Proof. intros (w & w' & HE). eapply decryptData_encryptData; eauto. Qed.

(** X19. When the settings entry is an envelope sealed under a key
    (and the cipher of the host authenticates under the key),
    [verifyPassword] accepts that key and leaves the state as it is, and
    it refuses every other key, leaving the refused key in
    [securityManager.encryptionKey]. *)
Theorem verifyPassword_accepts_only_the_sealing_key
    (w : World) (key : CryptoKey) (settings : json) (text : string) :
  AuthenticatedCipher H ->
  sealed_under key settings text -> text <> "" ->
  localStorage w !! "financeTracker_settings" = Some text ->
  SecuritySession.verifyPassword key w = (true, w)
  /\ forall key', key' <> key ->
       SecuritySession.verifyPassword key' w = (false, with_sm_encryptionKey (Some key') w).
Proof.
  intros Auth Hs Hne Hl. apply String.eqb_neq in Hne. split.
  - rewrite verifyPassword_spec. unfold verifies. rewrite Hl, Hne.
    now rewrite (decryptData_sealed _ _ _ Hs).
  - intros key' Hk. rewrite verifyPassword_spec. unfold verifies. rewrite Hl, Hne.
    now rewrite (decryptData_other_key _ _ _ _ Auth Hs Hk).
Qed.
End Sealing.

(** ** The unlock loop *)
Section UnlockSafety.
Context `{H : Host}.

Lemma derivations_app (a b : list Event) :
  derivations (a ++ b) = (derivations a + derivations b)%nat.
Proof. unfold derivations. now rewrite List.filter_app, length_app. Qed.

Lemma requestPassword_loop_safe attempts answers w :
  let w' := SecuritySession.requestPassword_loop attempts answers w in
  localStorage w' = localStorage w
  /\ (exists events,
        trace w' = trace w ++ events
        /\ (derivations events <= SecuritySession.maxAttempts - attempts)%nat)
  /\ ((dm_isEncrypted w' = dm_isEncrypted w /\ dm_encryptionKey w' = dm_encryptionKey w)
      \/ exists password,
           In (Some password) answers /\ password <> ""
           /\ verifies (localStorage w) (SecurityManager.derivedKey password) = true
           /\ dm_isEncrypted w' = true
           /\ dm_encryptionKey w' = Some (SecurityManager.derivedKey password)
           /\ sm_encryptionKey w' = Some (SecurityManager.derivedKey password)
           /\ appLocked w' = appLocked w).
Proof.
  cbv zeta. revert attempts w.
  induction answers as [|answer answers IH]; intros attempts w.
  - destruct attempts as [|[|[|n]]]; cbn [SecuritySession.requestPassword_loop Nat.ltb Nat.leb
                                           SecuritySession.maxAttempts];
      try (split; [reflexivity|]; split; [|left; split; reflexivity];
           exists []; rewrite app_nil_r; split; [reflexivity|cbn; lia]).
    split; [reflexivity|]. split; [|left; split; reflexivity].
    exists [EvLockApp]. split; [reflexivity|]. cbn. lia.
  - destruct (Nat.ltb attempts SecuritySession.maxAttempts) eqn:Ha.
    2:{ assert (E : SecuritySession.requestPassword_loop attempts (answer :: answers) w
                    = SecuritySession.lockApp w).
        { cbn [SecuritySession.requestPassword_loop]. now rewrite Ha. }
        rewrite E. split; [reflexivity|]. split; [|left; split; reflexivity].
        exists [EvLockApp]. split; [reflexivity|]. cbn. lia. }
    destruct answer as [password|].
    2:{ assert (E : SecuritySession.requestPassword_loop attempts (None :: answers) w
                    = SecuritySession.lockApp w).
        { cbn [SecuritySession.requestPassword_loop]. now rewrite Ha. }
        rewrite E. split; [reflexivity|]. split; [|left; split; reflexivity].
        exists [EvLockApp]. split; [reflexivity|]. cbn. lia. }
    destruct (String.eqb password "") eqn:Hp.
    { assert (E : SecuritySession.requestPassword_loop attempts (Some password :: answers) w
                  = SecuritySession.lockApp w).
      { cbn [SecuritySession.requestPassword_loop]. now rewrite Ha, Hp. }
      rewrite E. split; [reflexivity|]. split; [|left; split; reflexivity].
      exists [EvLockApp]. split; [reflexivity|]. cbn. lia. }
    apply String.eqb_neq in Hp. apply Nat.ltb_lt in Ha.
    destruct (verifies (localStorage w) (SecurityManager.derivedKey password)) eqn:Hv.
    + rewrite (requestPassword_loop_accepted _ _ _ _ Hp Ha Hv).
      split; [reflexivity|]. split.
      * eexists [EvDeriveKey password; EvSetEncryptionKey _]. split.
        -- cbn. now rewrite <- app_assoc.
        -- cbn. unfold SecuritySession.maxAttempts in *. lia.
      * right. exists password. split; [now left|]. repeat split; auto.
    + rewrite (requestPassword_loop_refused _ _ _ _ Hp Ha Hv).
      set (w1 := SecuritySession.showAlert _ _ _).
      destruct (IH (S attempts) w1) as (A & (events & T & D) & C).
      split; [exact A|]. split.
      * exists ([EvDeriveKey password; EvAlert
                   ("Incorrect password. "
                    +:+ SecuritySession.show_nat (SecuritySession.maxAttempts - S attempts)
                    +:+ " attempts remaining.") "error"] ++ events).
        split.
        -- rewrite T. subst w1. cbn. now rewrite <- !app_assoc.
        -- rewrite derivations_app. cbn. unfold SecuritySession.maxAttempts in *. lia.
      * destruct C as [C|(p & Hin & Hpne & Hpv & C)]; [left; exact C|].
        right. exists p. split; [now right|]. split; [exact Hpne|]. split; [exact Hpv|].
        exact C.
Qed.

(** X20. [requestPassword()] never writes to the storage and derives at
    most three keys; it either leaves the key and the flag of the data
    manager as they were, or it has installed, in both managers, the key
    of a non-empty password that was typed and that [verifyPassword]
    accepted, without locking. *)
Theorem requestPassword_installs_only_verified_keys
    (w : World) (answers : list (option string)) :
  let w' := SecuritySession.requestPassword answers w in
  localStorage w' = localStorage w
  /\ (exists events,
        trace w' = trace w ++ events
        /\ (derivations events <= SecuritySession.maxAttempts)%nat)
  /\ ((dm_isEncrypted w' = dm_isEncrypted w /\ dm_encryptionKey w' = dm_encryptionKey w)
      \/ exists password,
           In (Some password) answers /\ password <> ""
           /\ verifies (localStorage w) (SecurityManager.derivedKey password) = true
           /\ dm_isEncrypted w' = true
           /\ dm_encryptionKey w' = Some (SecurityManager.derivedKey password)
           /\ sm_encryptionKey w' = Some (SecurityManager.derivedKey password)
           /\ appLocked w' = appLocked w).
Proof.
  cbv zeta. unfold SecuritySession.requestPassword.
  destruct (requestPassword_loop_safe 0 answers w) as (A & (events & T & D) & C).
  split; [exact A|]. split; [|exact C].
  exists events. split; [exact T|]. now rewrite Nat.sub_0_r in D.
Qed.
End UnlockSafety.

(** ** The sweeps over the storage *)
Section KeySweeps.
Context `{H : Host}.

Lemma setData_unlimited w key data :
  unlimited_storage -> fst (DataManager.setData w key data) = true.
Proof.
  intros Hroom. unfold DataManager.setData.
  destruct (dm_isEncrypted w && has_key (dm_encryptionKey w)).
  - destruct (DataManager.encryptData data w) as [s w1].
    unfold DataManager.setItem. now rewrite Hroom.
  - unfold DataManager.setItem. now rewrite Hroom.
Qed.

(** One turn of [reencryptAllData] in promise mode. *)
Lemma reencrypt_step_promise w key :
  promise_mode w = true ->
  let w' :=
    (let data := DataManager.getData w key in
     if truthy data then snd (DataManager.setData w key data) else w) in
  same_keys w w'
  /\ (forall full,
        localStorage w' !! full = localStorage w !! full
        \/ localStorage w' !! full = Some "[object Promise]")
  /\ (unlimited_storage ->
      forall text, localStorage w !! (DataManager.storagePrefix +:+ key) = Some text ->
                   text <> "" ->
                   localStorage w' !! (DataManager.storagePrefix +:+ key)
                   = Some "[object Promise]").
Proof.
  intros Hm. cbv zeta.
  destruct (truthy (DataManager.getData w key)) eqn:Ht.
  - destruct (DataManager.setData w key (DataManager.getData w key)) as [ok w'] eqn:S.
    cbn [snd]. pose proof S as S'. apply setData_inv in S'.
    destruct S' as (K & _ & [(-> & Ls & _)|(-> & text & Ls & _ & _ & Hp)]).
    + split; [exact K|]. split; [intros full; left; now rewrite Ls|].
      intros Hroom. pose proof (setData_unlimited w key (DataManager.getData w key) Hroom) as E.
      rewrite S in E. discriminate.
    + rewrite (Hp Hm) in Ls. split; [exact K|]. split.
      * intros full. rewrite Ls.
        destruct (decide (full = DataManager.storagePrefix +:+ key)) as [->|Hne].
        -- right. apply lookup_insert_eq.
        -- left. now apply lookup_insert_ne.
      * intros _ t _ _. rewrite Ls. apply lookup_insert_eq.
  - split; [apply same_keys_refl|]. split; [now left|].
    intros _ text Hl Hne. exfalso.
    apply promise_mode_true in Hm. destruct Hm as [Hd Hs].
    unfold DataManager.getData, DataManager.decryptData in Ht.
    rewrite Hl in Ht. apply String.eqb_neq in Hne. rewrite Hne, Hd, Hs in Ht. discriminate.
Qed.

Lemma reencrypt_sweep_promise keys w :
  promise_mode w = true ->
  let w' :=
    fold_left (fun w key =>
                 let data := DataManager.getData w key in
                 if truthy data then snd (DataManager.setData w key data) else w)
              keys w in
  same_keys w w'
  /\ (forall full,
        localStorage w' !! full = localStorage w !! full
        \/ localStorage w' !! full = Some "[object Promise]")
  /\ (unlimited_storage ->
      forall name text,
        In name keys ->
        localStorage w !! (DataManager.storagePrefix +:+ name) = Some text -> text <> "" ->
        localStorage w' !! (DataManager.storagePrefix +:+ name) = Some "[object Promise]").
Proof.
  revert w. induction keys as [|key keys IH]; intros w Hm; cbv zeta; cbn [fold_left].
  - split; [apply same_keys_refl|]. split; [now left|]. intros _ ? ? [].
  - destruct (reencrypt_step_promise w key Hm) as (K1 & F1 & P1). cbv zeta in K1, F1, P1.
    set (w1 := if truthy (DataManager.getData w key) then _ else w) in *.
    assert (Hm1 : promise_mode w1 = true) by now rewrite (same_keys_promise_mode w w1).
    destruct (IH w1 Hm1) as (K2 & F2 & P2). cbv zeta in K2, F2, P2.
    set (w2 := fold_left _ keys w1) in *.
    split; [eapply same_keys_trans; eauto|]. split.
    + intros full. destruct (F2 full) as [E|E]; [|now right].
      rewrite E. apply F1.
    + intros Hroom name text Hin Hl Hne.
      assert (Keep : localStorage w1 !! (DataManager.storagePrefix +:+ name)
                     = Some "[object Promise]" ->
                     localStorage w2 !! (DataManager.storagePrefix +:+ name)
                     = Some "[object Promise]").
      { intros E1. destruct (F2 (DataManager.storagePrefix +:+ name)) as [E|E];
          [now rewrite E|exact E]. }
      destruct Hin as [->|Hin].
      * apply Keep. eapply P1; eauto.
      * destruct (F1 (DataManager.storagePrefix +:+ name)) as [E|E].
        -- apply (P2 Hroom name text Hin); [now rewrite E|exact Hne].
        -- now apply Keep.
Qed.

(** X21. While both managers hold a key, [reencryptAllData()] stores no
    ciphertext: it leaves an entry as it is or replaces it by the text
    [[object Promise]], and with room in the storage it replaces every
    non-empty RecordSet entry by that text. *)
Theorem reencryptAllData_with_keys_overwrites_entries (w : World) :
  promise_mode w = true ->
  (forall full,
     localStorage (SecuritySession.reencryptAllData w) !! full = localStorage w !! full
     \/ localStorage (SecuritySession.reencryptAllData w) !! full = Some "[object Promise]")
  /\ (unlimited_storage ->
      forall name text,
        localStorage w !! ("financeTracker_" +:+ name) = Some text -> text <> "" ->
        localStorage (SecuritySession.reencryptAllData w) !! ("financeTracker_" +:+ name)
        = Some "[object Promise]").
Proof.
  intros Hm. unfold SecuritySession.reencryptAllData.
  destruct (reencrypt_sweep_promise (DataManager.getAllKeys w) w Hm) as (_ & F & P).
  cbv zeta in F, P. split; [exact F|].
  intros Hroom name text Hl Hne. apply (P Hroom name text); [|exact Hl|exact Hne].
  apply list_elem_of_In, getAllKeys_elem. unfold DataManager.storagePrefix. rewrite Hl. eauto.
Qed.

Context {L : HostLaws H}.

Lemma reencrypt_sweep_plain keys w :
  promise_mode w = false ->
  let w' :=
    fold_left (fun w key =>
                 let data := DataManager.getData w key in
                 if truthy data then snd (DataManager.setData w key data) else w)
              keys w in
  promise_mode w' = false
  /\ forall name, DataManager.getData w' name = DataManager.getData w name.
Proof.
  revert w. induction keys as [|key keys IH]; intros w Hm; cbv zeta; cbn [fold_left].
  - split; [assumption|reflexivity].
  - assert (Hstep : exists w1,
               (let data := DataManager.getData w key in
                if truthy data then snd (DataManager.setData w key data) else w) = w1
               /\ promise_mode w1 = false
               /\ forall name, DataManager.getData w1 name = DataManager.getData w name).
    { cbv zeta. destruct (truthy (DataManager.getData w key)); [|now exists w].
      rewrite (getData_plain w key Hm).
      set (v := read_text _).
      destruct (DataManager.setData w key (VJson v)) as [ok w1] eqn:S. exists w1. cbn [snd].
      split; [reflexivity|].
      assert (Hm1 : promise_mode w1 = false).
      { apply setData_inv in S. destruct S as (K & _). now rewrite (same_keys_promise_mode w w1). }
      split; [exact Hm1|]. intros name.
      destruct (String.eqb name key) eqn:E.
      - apply String.eqb_eq in E. subst name. destruct ok.
        + destruct (setData_getData_plain _ _ _ _ Hm S) as [G _].
          rewrite G. subst v. now rewrite <- getData_plain.
        + apply setData_inv in S. destruct S as (K & _ & [(_ & Ls & _)|(? & _)]); [|discriminate].
          now apply getData_ext.
      - apply String.eqb_neq in E. eapply setData_other; eauto. }
    destruct Hstep as (w1 & E1 & Hm1 & G1). cbv zeta in E1. rewrite E1.
    destruct (IH w1 Hm1) as (Hm2 & G2). cbv zeta in Hm2, G2.
    split; [exact Hm2|]. intros name. now rewrite G2, G1.
Qed.

(** X22. While no promise is involved, [reencryptAllData()] changes
    nothing that can be read: every RecordSet reads after it as before. *)
Theorem reencryptAllData_without_keys_preserves_reads (w : World) (name : string) :
  promise_mode w = false ->
  DataManager.getData (SecuritySession.reencryptAllData w) name = DataManager.getData w name.
Proof.
  intros Hm. unfold SecuritySession.reencryptAllData.
  now apply (reencrypt_sweep_plain (DataManager.getAllKeys w) w Hm).
Qed.
End KeySweeps.

(** ** Disabling encryption *)
Section Disable.
Context `{H : Host}.

Lemma dm_plain_promise_mode w : dm_plain w -> promise_mode w = false.
Proof. unfold promise_mode. now intros [-> _]. Qed.

(** One turn of the loop of [decryptAllData]. *)
Lemma decrypt_step tempKey w key :
  dm_plain w ->
  let w' :=
    match localStorage w !! ("financeTracker_" +:+ key) with
    | None => w
    | Some rawData =>
        if String.eqb rawData "" then w
        else
          let w := with_sm_encryptionKey tempKey w in
          match SecurityManager.decryptData (sm_encryptionKey w) rawData with
          | Ok decryptedData =>
              let w := with_sm_encryptionKey None w in
              snd (DataManager.setData w key (VJson decryptedData))
          | Throw _ => w
          end
    end in
  dm_plain w'
  /\ sm_isEncryptionEnabled w' = sm_isEncryptionEnabled w
  /\ (forall full, full <> DataManager.storagePrefix +:+ key ->
        localStorage w' !! full = localStorage w !! full)
  /\ (forall text,
        localStorage w !! (DataManager.storagePrefix +:+ key) = Some text -> text <> "" ->
        match SecurityManager.decryptData tempKey text with
        | Ok v =>
            unlimited_storage ->
            localStorage w' !! (DataManager.storagePrefix +:+ key) = Some (JSON_stringify v)
        | Throw _ => localStorage w' !! (DataManager.storagePrefix +:+ key) = Some text
        end).
Proof.
  intros Hp. cbv zeta. change ("financeTracker_" +:+ key) with (DataManager.storagePrefix +:+ key).
  destruct (localStorage w !! (DataManager.storagePrefix +:+ key)) as [rawData|] eqn:Hl.
  2:{ split; [exact Hp|]. split; [reflexivity|]. split; [reflexivity|]. intros ? [=]. }
  destruct (String.eqb rawData "") eqn:He.
  { split; [exact Hp|]. split; [reflexivity|]. split; [reflexivity|].
    intros text [= <-] Hne. apply String.eqb_eq in He. contradiction. }
  cbn [sm_encryptionKey with_sm_encryptionKey].
  destruct (SecurityManager.decryptData tempKey rawData) as [v|e] eqn:Hd.
  - set (w0 := with_sm_encryptionKey None _).
    assert (Hp0 : dm_plain w0) by exact Hp.
    destruct (DataManager.setData w0 key (VJson v)) as [ok w'] eqn:S. cbn [snd].
    pose proof S as S'. apply setData_inv in S'.
    destruct S' as ((K1 & K2 & K3 & K4) & _ & Hw).
    split; [destruct Hp0; split; congruence|]. split; [exact K3|]. split.
    + intros full Hne. apply (setData_other_entries _ _ _ _ _ _ S Hne).
    + intros text [= <-] _. rewrite Hd. intros Hroom.
      destruct Hw as [(-> & _)|(_ & t & Ls & _ & Ht & _)].
      * pose proof (setData_unlimited w0 key (VJson v) Hroom) as E. rewrite S in E. discriminate.
      * rewrite Ls, lookup_insert_eq. f_equal. apply Ht. now apply dm_plain_promise_mode.
  - split; [exact Hp|]. split; [reflexivity|]. split; [reflexivity|].
    intros text [= <-] _. rewrite Hd. exact Hl.
Qed.

Lemma decrypt_sweep tempKey keys w :
  dm_plain w -> NoDup keys ->
  let w' :=
    fold_left (fun w key =>
                 let rawData := localStorage w !! ("financeTracker_" +:+ key) in
                 match rawData with
                 | None => w
                 | Some rawData =>
                     if String.eqb rawData "" then w
                     else
                       let w := with_sm_encryptionKey tempKey w in
                       match SecurityManager.decryptData (sm_encryptionKey w) rawData with
                       | Ok decryptedData =>
                           let w := with_sm_encryptionKey None w in
                           snd (DataManager.setData w key (VJson decryptedData))
                       | Throw _ => w
                       end
                 end)
              keys w in
  dm_plain w'
  /\ sm_isEncryptionEnabled w' = sm_isEncryptionEnabled w
  /\ (forall full, (forall key, In key keys -> full <> DataManager.storagePrefix +:+ key) ->
        localStorage w' !! full = localStorage w !! full)
  /\ (forall name text,
        In name keys ->
        localStorage w !! (DataManager.storagePrefix +:+ name) = Some text -> text <> "" ->
        match SecurityManager.decryptData tempKey text with
        | Ok v =>
            unlimited_storage ->
            localStorage w' !! (DataManager.storagePrefix +:+ name) = Some (JSON_stringify v)
        | Throw _ => localStorage w' !! (DataManager.storagePrefix +:+ name) = Some text
        end).
Proof.
  intros Hp Hnd. revert w Hp.
  induction Hnd as [|key keys Hk Hnd IH]; intros w Hp; cbv zeta; cbn [fold_left].
  - split; [exact Hp|]. split; [reflexivity|]. split; [reflexivity|]. intros ? ? [].
  - destruct (decrypt_step tempKey w key Hp) as (Hp1 & E1 & F1 & O1). cbv zeta in Hp1, E1, F1, O1.
    set (w1 := match localStorage w !! _ with Some _ => _ | None => w end) in *.
    destruct (IH w1 Hp1) as (Hp2 & E2 & F2 & O2). cbv zeta in Hp2, E2, F2, O2.
    set (w2 := fold_left _ keys w1) in *.
    split; [exact Hp2|]. split; [congruence|]. split.
    + intros full Hfull. rewrite F2 by (intros k Hin; apply Hfull; now right).
      apply F1. apply Hfull. now left.
    + intros name text [<-|Hin] Hl Hne.
      * assert (E : localStorage w2 !! (DataManager.storagePrefix +:+ key)
                    = localStorage w1 !! (DataManager.storagePrefix +:+ key)).
        { apply F2. intros k Hin E. apply append_inj_r in E. subst k.
          apply Hk. now apply list_elem_of_In. }
        rewrite E. now apply O1.
      * apply O2; [exact Hin| |exact Hne].
        rewrite F1; [exact Hl|]. intros E. apply append_inj_r in E. subst name.
        apply Hk. now apply list_elem_of_In.
Qed.

Lemma decryptAllData_spec w :
  let w' := SecuritySession.decryptAllData w in
  dm_plain w'
  /\ sm_isEncryptionEnabled w' = sm_isEncryptionEnabled w
  /\ (forall full, DataManager.strip_prefix DataManager.storagePrefix full = None ->
        localStorage w' !! full = localStorage w !! full)
  /\ (forall name text,
        localStorage w !! (DataManager.storagePrefix +:+ name) = Some text -> text <> "" ->
        match SecurityManager.decryptData (sm_encryptionKey w) text with
        | Ok v =>
            unlimited_storage ->
            localStorage w' !! (DataManager.storagePrefix +:+ name) = Some (JSON_stringify v)
        | Throw _ => localStorage w' !! (DataManager.storagePrefix +:+ name) = Some text
        end).
Proof.
  cbv zeta. unfold SecuritySession.decryptAllData.
  destruct (decrypt_sweep (sm_encryptionKey w) (DataManager.getAllKeys w)
              (DataManager.removeEncryption w)) as (Hp & E & F & O).
  { split; reflexivity. }
  { apply NoDup_getAllKeys. }
  cbv zeta in Hp, E, F, O.
  split; [exact Hp|]. split; [exact E|]. split.
  - intros full Hs. rewrite F; [reflexivity|].
    intros key _. now apply prefixed_not_foreign.
  - intros name text Hl Hne. apply (O name text); [|exact Hl|exact Hne].
    apply list_elem_of_In, getAllKeys_elem. rewrite Hl. eauto.
Qed.

Context {L : HostLaws H}.

(** X23. [decryptAllData()] removes the key of the data manager; it
    touches no key of the storage outside the prefix, leaves an entry that
    does not decrypt under the key of the security manager as it is, and
    (with room in the storage) makes every non-empty entry that decrypts
    under that key read as the decrypted value. *)
Theorem decryptAllData_stores_plaintext_of_what_decrypts (w : World) :
  let w' := SecuritySession.decryptAllData w in
  (dm_isEncrypted w' = false /\ dm_encryptionKey w' = None)
  /\ (forall full, DataManager.strip_prefix "financeTracker_" full = None ->
        localStorage w' !! full = localStorage w !! full)
  /\ (forall name text e,
        localStorage w !! ("financeTracker_" +:+ name) = Some text -> text <> "" ->
        SecurityManager.decryptData (sm_encryptionKey w) text = Throw e ->
        localStorage w' !! ("financeTracker_" +:+ name) = Some text)
  /\ (unlimited_storage ->
      forall name text v,
        localStorage w !! ("financeTracker_" +:+ name) = Some text -> text <> "" ->
        SecurityManager.decryptData (sm_encryptionKey w) text = Ok v ->
        DataManager.getData w' name = VJson v).
Proof.
  cbv zeta. destruct (decryptAllData_spec w) as (Hp & _ & F & O). cbv zeta in Hp, F, O.
  split; [exact Hp|]. split; [exact F|]. split.
  - intros name text e Hl Hne Hd. specialize (O name text Hl Hne). now rewrite Hd in O.
  - intros Hroom name text v Hl Hne Hd. specialize (O name text Hl Hne). rewrite Hd in O.
    rewrite getData_plain by now apply dm_plain_promise_mode.
    rewrite (O Hroom). now rewrite read_text_stringify.
Qed.

(** X24. [disableEncryption()] with a password that [verifyPassword]
    accepts, on settings that decrypt to an object under the session key:
    afterwards neither manager holds a key or has its flag set, the
    settings read as that object with [encryptionEnabled: false], and
    every other non-empty entry that decrypts under the session key reads
    as the decrypted value. *)
Theorem disableEncryption_decrypts_under_session_key
    (w : World) (password text : string) (fields : list (string * json)) :
  password <> "" ->
  verifies (localStorage w) (SecurityManager.derivedKey password) = true ->
  unlimited_storage ->
  localStorage w !! "financeTracker_settings" = Some text -> text <> "" ->
  SecurityManager.decryptData (sm_encryptionKey w) text = Ok (JObj fields) ->
  let w' := SecuritySession.disableEncryption (Some password) w in
  dm_isEncrypted w' = false /\ dm_encryptionKey w' = None
  /\ sm_isEncryptionEnabled w' = false /\ sm_encryptionKey w' = None
  /\ DataManager.getData w' "settings"
     = VJson (JObj (set_field "encryptionEnabled" (JBool false) fields))
  /\ forall name entry v,
       name <> "settings" ->
       localStorage w !! ("financeTracker_" +:+ name) = Some entry -> entry <> "" ->
       SecurityManager.decryptData (sm_encryptionKey w) entry = Ok v ->
       DataManager.getData w' name = VJson v.
Proof.
  intros Hp Hv Hroom Hl Hne Hd. cbv zeta.
  unfold SecuritySession.disableEncryption.
  apply String.eqb_neq in Hp. rewrite Hp.
  unfold SecurityManager.deriveKey. rewrite verifyPassword_spec.
  cbn [localStorage emit]. rewrite Hv. cbn [negb].
  set (w1 := emit (EvDeriveKey password) w).
  destruct (decryptAllData_spec w1) as (Hp2 & _ & _ & O). cbv zeta in Hp2, O.
  set (w2 := SecuritySession.decryptAllData w1) in *.
  pose proof (dm_plain_promise_mode _ Hp2) as Hm2.
  assert (Hs2 : localStorage w2 !! (DataManager.storagePrefix +:+ "settings")
                = Some (JSON_stringify (JObj fields))).
  { specialize (O "settings" text Hl Hne). cbn [sm_encryptionKey w1 emit] in O.
    rewrite Hd in O. exact (O Hroom). }
  rewrite (getData_plain w2 "settings" Hm2), Hs2, read_text_stringify.
  cbn [or_default truthy truthy_json set_prop set_prop_json].
  destruct (DataManager.setData w2 "settings" _) as [ok w3] eqn:S. cbn [snd].
  assert (ok = true) as ->.
  { pose proof (setData_unlimited w2 "settings"
                  (VJson (JObj (set_field "encryptionEnabled" (JBool false) fields))) Hroom) as E.
    now rewrite S in E. }
  destruct (setData_getData_plain _ _ _ _ Hm2 S) as [G3 Hm3].
  set (w' := SecuritySession.showAlert _ _ _).
  assert (Hls : localStorage w' = localStorage w3) by reflexivity.
  assert (Hplain : promise_mode w' = false) by reflexivity.
  split; [reflexivity|]. split; [reflexivity|]. split; [reflexivity|]. split; [reflexivity|].
  assert (Hm3' : forall name,
             DataManager.getData w' name
             = VJson (read_text (localStorage w3 !! (DataManager.storagePrefix +:+ name)))).
  { intros name. rewrite getData_plain by exact Hplain. now rewrite Hls. }
  split.
  - rewrite Hm3'. rewrite <- (getData_plain w3 "settings" Hm3). exact G3.
  - intros name entry v Hname Hle Hnee Hde. rewrite Hm3'.
    rewrite (setData_other_entries _ _ _ _ _ _ S).
    2:{ intros E. apply append_inj_r in E. contradiction. }
    specialize (O name entry Hle Hnee). cbn [sm_encryptionKey w1 emit] in O.
    rewrite Hde in O. rewrite (O Hroom). now rewrite read_text_stringify.
Qed.
End Disable.

(** ** Changing the password, loading the state *)
Section ChangePassword.
Context `{H : Host}.

Lemma reencryptAllData_same_keys w :
  same_keys w (SecuritySession.reencryptAllData w)
  /\ appLocked (SecuritySession.reencryptAllData w) = appLocked w.
Proof.
  unfold SecuritySession.reencryptAllData. generalize (DataManager.getAllKeys w) as keys.
  intros keys. revert w. induction keys as [|key keys IH]; intros w; cbn [fold_left].
  - split; [apply same_keys_refl|reflexivity].
  - assert (Hstep : exists w1,
               (let data := DataManager.getData w key in
                if truthy data then snd (DataManager.setData w key data) else w) = w1
               /\ same_keys w w1 /\ appLocked w1 = appLocked w).
    { cbv zeta. destruct (truthy (DataManager.getData w key)).
      - destruct (DataManager.setData w key (DataManager.getData w key)) as [ok w1] eqn:S.
        exists w1. cbn [snd]. split; [reflexivity|]. apply setData_inv in S.
        destruct S as (K & A & _). now split.
      - exists w. split; [reflexivity|]. split; [apply same_keys_refl|reflexivity]. }
    destruct Hstep as (w1 & E1 & K1 & A1). cbv zeta in E1. rewrite E1.
    destruct (IH w1) as (K2 & A2). split; [eapply same_keys_trans; eauto|congruence].
Qed.

(** X25. [showChangePasswordModal()] either leaves the storage and the
    key of the data manager as they were, or encryption was enabled, the
    current password was accepted by [verifyPassword], the new password
    was not empty and was confirmed, and the key of the new password is
    installed in both managers. *)
Theorem showChangePasswordModal_changes_key_only_when_verified
    (w : World) (currentPassword newPassword confirmPassword : option string) :
  let w' :=
    SecuritySession.showChangePasswordModal currentPassword newPassword confirmPassword w in
  (localStorage w' = localStorage w
   /\ dm_isEncrypted w' = dm_isEncrypted w /\ dm_encryptionKey w' = dm_encryptionKey w)
  \/ exists current new,
       currentPassword = Some current /\ current <> ""
       /\ newPassword = Some new /\ new <> "" /\ confirmPassword = Some new
       /\ sm_isEncryptionEnabled w = true
       /\ verifies (localStorage w) (SecurityManager.derivedKey current) = true
       /\ dm_isEncrypted w' = true
       /\ dm_encryptionKey w' = Some (SecurityManager.derivedKey new)
       /\ sm_encryptionKey w' = Some (SecurityManager.derivedKey new)
       /\ appLocked w' = appLocked w.
Proof.
  cbv zeta. unfold SecuritySession.showChangePasswordModal.
  destruct (sm_isEncryptionEnabled w) eqn:Hen; cbn [negb]; [|left; repeat split].
  destruct currentPassword as [current|]; [|left; repeat split].
  destruct (String.eqb current "") eqn:Hc; [left; repeat split|].
  unfold SecurityManager.deriveKey. rewrite verifyPassword_spec.
  cbn [localStorage emit].
  destruct (verifies (localStorage w) (SecurityManager.derivedKey current)) eqn:Hv;
    cbn [negb]; [|left; repeat split].
  destruct newPassword as [new|]; [|left; repeat split].
  destruct (String.eqb new "") eqn:Hn; [left; repeat split|].
  destruct (bool_decide (confirmPassword = Some new)) eqn:Hcf; cbn [negb];
    [|left; repeat split].
  apply bool_decide_eq_true in Hcf. apply String.eqb_neq in Hc, Hn.
  right. exists current, new.
  set (w1 := with_sm_encryptionKey _ _).
  destruct (reencryptAllData_same_keys w1) as ((_ & _ & _ & K4) & A).
  repeat (split; [assumption || reflexivity|]).
  exact A.
Qed.

Lemma requestPassword_loop_flag attempts answers w :
  sm_isEncryptionEnabled (SecuritySession.requestPassword_loop attempts answers w)
  = sm_isEncryptionEnabled w.
Proof.
  revert attempts w. induction answers as [|answer answers IH]; intros attempts w;
    cbn [SecuritySession.requestPassword_loop].
  - now destruct (Nat.ltb attempts SecuritySession.maxAttempts).
  - destruct (Nat.ltb attempts SecuritySession.maxAttempts); [|reflexivity].
    destruct answer as [password|]; [|reflexivity].
    destruct (String.eqb password ""); [reflexivity|].
    unfold SecurityManager.deriveKey. rewrite verifyPassword_spec.
    destruct (verifies _ _); [reflexivity|]. now rewrite IH.
Qed.

(** X26. [loadEncryptionState()] never writes to the storage; it changes
    nothing unless the settings read with a truthy [encryptionEnabled];
    and it installs a key in the data manager only if a typed,
    non-empty password was accepted by [verifyPassword]. *)
Theorem loadEncryptionState_unlocks_only_flagged_and_verified
    (w : World) (answers : list (option string)) :
  let w' := SecuritySession.loadEncryptionState answers w in
  localStorage w' = localStorage w
  /\ (flags_encryption (DataManager.getData w "settings") = false -> w' = w)
  /\ ((dm_isEncrypted w' = dm_isEncrypted w /\ dm_encryptionKey w' = dm_encryptionKey w)
      \/ exists password,
           In (Some password) answers /\ password <> ""
           /\ flags_encryption (DataManager.getData w "settings") = true
           /\ verifies (localStorage w) (SecurityManager.derivedKey password) = true
           /\ dm_isEncrypted w' = true
           /\ dm_encryptionKey w' = Some (SecurityManager.derivedKey password)
           /\ sm_isEncryptionEnabled w' = true
           /\ sm_encryptionKey w' = Some (SecurityManager.derivedKey password)).
Proof.
  cbv zeta. unfold SecuritySession.loadEncryptionState.
  change (truthy (DataManager.getData w "settings") && _)
    with (flags_encryption (DataManager.getData w "settings")).
  destruct (flags_encryption (DataManager.getData w "settings")) eqn:Hf.
  2:{ split; [reflexivity|]. split; [reflexivity|]. left. split; reflexivity. }
  unfold SecuritySession.requestPassword.
  destruct (requestPassword_loop_safe 0 answers (with_sm_isEncryptionEnabled true w))
    as (A & _ & C).
  split; [exact A|]. split; [discriminate|].
  destruct C as [C|(p & Hin & Hp & Hv & D1 & D2 & D3 & _)]; [left; exact C|].
  right. exists p. repeat (split; [assumption || reflexivity|]).
  split; [|exact D3].
  now rewrite requestPassword_loop_flag.
Qed.
End ChangePassword.

(** ** Enabling encryption: the state it ends in *)
Section Enabled.
Context `{H : Host} {L : HostLaws H}.

(** X28. [enableEncryption()] with a non-empty password typed twice,
    entered with the security manager disabled, with room in the storage
    and on settings that read as an object: afterwards both managers hold
    the key of the password and have their flag set, and the storage is
    still plain text: the settings entry parses to that object with
    [encryptionEnabled: true], and every other entry parses to what it
    parsed to before. *)
Theorem enableEncryption_installs_key_and_keeps_plaintext
    (w : World) (password : string) (fields : list (string * json)) :
  unlimited_storage ->
  password <> "" ->
  sm_isEncryptionEnabled w = false ->
  DataManager.getData w "settings" = VJson (JObj fields) ->
  let w' := SecuritySession.enableEncryption (Some password) (Some password) w in
  (dm_isEncrypted w' = true
   /\ dm_encryptionKey w' = Some (SecurityManager.derivedKey password)
   /\ sm_isEncryptionEnabled w' = true
   /\ sm_encryptionKey w' = Some (SecurityManager.derivedKey password))
  /\ read_text (localStorage w' !! "financeTracker_settings")
     = JObj (set_field "encryptionEnabled" (JBool true) fields)
  /\ forall name, name <> "settings" ->
       read_text (localStorage w' !! ("financeTracker_" +:+ name))
       = read_text (localStorage w !! ("financeTracker_" +:+ name)).
Proof.
  intros Hroom Hp Hsm Hset. cbv zeta. unfold SecuritySession.enableEncryption.
  apply String.eqb_neq in Hp. rewrite Hp.
  rewrite bool_decide_eq_true_2 by reflexivity. cbn [negb].
  unfold SecurityManager.deriveKey.
  set (w0 := with_sm_encryptionKey _ (emit _ w)).
  pose proof (promise_mode_sm_disabled w Hsm) as Hm.
  assert (Hm0 : promise_mode w0 = false) by (apply promise_mode_sm_disabled; exact Hsm).
  assert (G0 : forall name, DataManager.getData w0 name = DataManager.getData w name).
  { intros name. now rewrite (getData_plain w0 name Hm0), (getData_plain w name Hm). }
  unfold SecuritySession.reencryptAllData.
  destruct (reencrypt_sweep_plain (DataManager.getAllKeys w0) w0 Hm0) as (Hm1 & G1).
  cbv zeta in Hm1, G1. set (w1 := fold_left _ _ w0) in *.
  destruct (reencrypt_sm_disabled (DataManager.getAllKeys w0) w0 Hsm) as ((_ & _ & _ & K) & _).
  cbv zeta in K. fold w1 in K.
  rewrite (G1 "settings"), (G0 "settings"), Hset.
  cbn [or_default truthy truthy_json set_prop set_prop_json].
  destruct (DataManager.setData w1 "settings" _) as [ok w2] eqn:S. cbn [snd].
  assert (ok = true) as ->.
  { pose proof (setData_unlimited w1 "settings"
                  (VJson (JObj (set_field "encryptionEnabled" (JBool true) fields))) Hroom) as E.
    now rewrite S in E. }
  destruct (setData_getData_plain _ _ _ _ Hm1 S) as [G2 Hm2].
  pose proof S as S'. apply setData_inv in S'. destruct S' as ((_ & _ & _ & K2) & _).
  split.
  { cbn. rewrite K2, K. repeat split. }
  cbn [localStorage SecuritySession.showAlert emit with_sm_isEncryptionEnabled
         DataManager.setEncryptionKey with_dm].
  split.
  - rewrite (getData_plain w2 "settings" Hm2) in G2. now injection G2.
  - intros name Hname.
    rewrite (setData_other_entries _ _ _ _ _ _ S).
    2:{ intros E. apply append_inj_r in E. contradiction. }
    pose proof (G1 name) as E1. rewrite (G0 name) in E1.
    rewrite (getData_plain w1 name Hm1), (getData_plain w name Hm) in E1.
    now injection E1.
Qed.
End Enabled.

(** ** The backup code *)
Lemma charAt_backup_chars (k : nat) :
  (k < 36)%nat ->
  exists c, SecuritySession.charAt SecuritySession.backup_chars k = String c EmptyString
            /\ c <> "-"%char
            /\ In c (list_ascii_of_string SecuritySession.backup_chars).
Proof.
  intros Hk.
  do 36 (destruct k as [|k];
         [eexists; split; [reflexivity|]; split; [discriminate|];
          cbn; repeat (first [left; reflexivity|right])|]).
  lia.
Qed.

(** X27. [generateBackupCode()] returns nineteen characters: a hyphen at
    the positions 4, 9 and 14 and nowhere else, every other character one
    of the thirty-six of [A-Z0-9]. *)
Theorem generateBackupCode_format (random : nat -> nat) :
  (forall i, (random i < 36)%nat) ->
  let code := SecuritySession.generateBackupCode random in
  String.length code = 19%nat
  /\ (forall n, (n < 19)%nat ->
        (String.get n code = Some "-"%char <-> n = 4%nat \/ n = 9%nat \/ n = 14%nat))
  /\ (forall n c, String.get n code = Some c ->
        c = "-"%char \/ In c (list_ascii_of_string SecuritySession.backup_chars)).
Proof.
  intros Hr. cbv zeta. unfold SecuritySession.generateBackupCode.
  cbn [seq fold_left Nat.ltb Nat.leb Nat.eqb Nat.modulo Nat.divmod fst snd andb Nat.sub].
  repeat match goal with
         | |- context [SecuritySession.charAt SecuritySession.backup_chars (random ?i)] =>
             let c := fresh "c" in
             let E := fresh "E" in
             let D := fresh "D" in
             let A := fresh "A" in
             destruct (charAt_backup_chars (random i) (Hr i)) as (c & E & D & A);
             rewrite E; clear E
         end.
  simpl. split; [reflexivity|]. split.
  - intros n Hn.
    do 19 (destruct n as [|n];
           [simpl; split;
            [intros E;
             first [left; reflexivity | right; left; reflexivity | right; right; reflexivity
                   | exfalso; congruence]
            |intros [E|[E|E]]; first [reflexivity | discriminate E]]|]).
    lia.
  - intros n x.
    do 19 (destruct n as [|n]; [simpl; intros E; inversion E; subst; auto|]).
    simpl. discriminate.
Qed.

(** ** The goals and the assets, call by call *)
Section GoalRuns.
Context `{H : Host} {L : HostLaws H}.

Lemma new_goal_starts_empty goal id now :
  prop (new_goal goal id now) "saved" = Ok (Some (JNum 0))
  /\ prop (new_goal goal id now) "savingsDetails" = Ok (Some (JArr [])).
Proof.
  unfold new_goal. simpl. split.
  - rewrite !get_field_set_field_ne by discriminate. now rewrite get_field_set_field_eq.
  - rewrite get_field_set_field_ne by discriminate. now rewrite get_field_set_field_eq.
Qed.

(** C9. If every goal of the goals RecordSet has its [saved] equal to the
    sum of the amounts of its [savingsDetails], so it is after any sequence
    of [addGoal], [deleteGoal] and [updateGoalSavings] in which every
    [updateGoalSavings] is given an array of objects with integer amounts,
    every amount and every running total of a magnitude below [2^53].
    After such a sequence, without promises and with room in the storage,
    [addGoal] returns [true] and appends a goal with [saved] 0 and an empty
    [savingsDetails], and [updateGoalSavings] with such an array returns
    [true] and leaves the first goal of the given id with these
    [savingsDetails] and with [saved] the sum of their amounts. *)
Theorem goals_saved_is_sum_of_savingsDetails (w : World) (ops : list GoalOp) :
  goals_invariant w ->
  forallb exact_update ops = true ->
  let w' := run_goal_ops ops w in
  goals_invariant w'
  /\ (promise_mode w = false -> unlimited_storage -> (exists goals, goals_are w goals) ->
      exists goals,
        goals_are w' goals
        /\ (forall goal id now,
              fst (DataManager.addGoal goal id now w') = Ok true
              /\ goals_are (snd (DataManager.addGoal goal id now w'))
                   (goals ++ [new_goal goal id now])
              /\ prop (new_goal goal id now) "saved" = Ok (Some (JNum 0))
              /\ prop (new_goal goal id now) "savingsDetails" = Ok (Some (JArr [])))
        /\ (forall before goal after goalId details now,
              goals = before ++ JObj goal :: after ->
              no_record goalId before ->
              DataManager.id_is goalId (JObj goal) = Ok true ->
              safe_totals 0 details = true ->
              exists total,
                sum_amounts details = Some total
                /\ fst (DataManager.updateGoalSavings goalId (Some (JArr details)) now w')
                   = Ok true
                /\ goals_are
                     (snd (DataManager.updateGoalSavings goalId (Some (JArr details)) now w'))
                     (before ++ with_savings goal (JArr details) (JNum total) now :: after))).
Proof.
  intros Inv Hx. cbv zeta. split.
  - revert w Inv. unfold run_goal_ops.
    induction ops as [|op ops IH]; intros w Inv; cbn [fold_left]; [assumption|].
    simpl in Hx. apply andb_true_iff in Hx. destruct Hx as [Hop Hops].
    apply (IH Hops). now apply run_goal_op_invariant.
  - intros Hm Hroom (goals0 & Hh0).
    destruct (run_goal_ops_readable ops w goals0 Hm Hroom Hh0) as (Hm' & goals & Hh).
    exists goals. split; [exact Hh|]. split.
    + intros goal id now.
      destruct (addGoal_appends _ goals goal id now Hm' Hroom Hh) as (A & B & _).
      destruct (new_goal_starts_empty goal id now) as (C & D). auto.
    + intros before goal after goalId details now -> Hb Hid Hs.
      destruct (total_saved_exact details Hs) as (total & Ht & Hsum).
      exists total. split; [exact Ht|].
      exact (updateGoalSavings_rewrites _ before goal after goalId (JArr details)
               (PNum (Finite total)) now Hm' Hroom Hh Hb Hid Hsum).
Qed.
End GoalRuns.

Section AssetRuns.
Context `{H : Host} {L : HostLaws H}.

Lemma name_is_total name a : a <> JNull -> exists b, DataManager.name_is name a = Ok b.
Proof. unfold DataManager.name_is. destruct a; simpl; try contradiction; eauto. Qed.

Lemma prop_total a k : a <> JNull -> exists x, prop a k = Ok x.
Proof. destruct a; simpl; try contradiction; eauto. Qed.

Lemma findIndex_total pred (l : list json) :
  Forall (fun x => exists b, pred x = Ok b) l -> exists r, findIndex pred l = Ok r.
Proof.
  induction 1 as [|x l [b Hb] Hl [r IH]]; simpl; [eauto|].
  rewrite Hb, IH. destruct b; [eauto|]. destruct r; eauto.
Qed.

Lemma findIndex_assets name assets :
  Forall (fun a => a <> JNull) assets ->
  exists r, findIndex (DataManager.name_is name) assets = Ok r.
Proof.
  intros Hn. apply findIndex_total. eapply Forall_impl; [exact Hn|].
  intros a Ha. now apply name_is_total.
Qed.

(** The two arrays written into the value the assets read as. *)
Lemma set_two_arrays_read v assets history assets' history' :
  read_array (VJson v) "assets" = Ok assets ->
  read_array (VJson v) "history" = Ok history ->
  exists fields',
    (let* d := set_prop (VJson v) "assets" (JArr assets') in
     set_prop d "history" (JArr history')) = Ok (VJson (JObj fields'))
    /\ read_array (VJson (JObj fields')) "assets" = Ok assets'
    /\ read_array (VJson (JObj fields')) "history" = Ok history'.
Proof.
  intros Ha Hh. apply read_array_inv in Ha, Hh.
  destruct (set_prop_array _ _ _ assets' Ha) as (d1 & Hs1 & P1 & O1 & J1).
  destruct (J1 v eq_refl) as (fields1 & ->).
  assert (Hh1 : prop_val (VJson (JObj fields1)) "history" = Ok (Some (JArr history))).
  { rewrite O1 by discriminate. exact Hh. }
  destruct (set_prop_array _ _ _ history' Hh1) as (d2 & Hs2 & P2 & O2 & J2).
  destruct (J2 _ eq_refl) as (fields2 & ->).
  exists fields2. split; [rewrite Hs1; exact Hs2|].
  unfold read_array. rewrite P2, (O2 "assets") by discriminate. rewrite P1. split; reflexivity.
Qed.

(** What the assets read as when [setData] has returned. *)
Lemma assets_written w fields ok w1 assets history assets' history' :
  promise_mode w = false ->
  assets_hold w assets history ->
  read_array (VJson (JObj fields)) "assets" = Ok assets' ->
  read_array (VJson (JObj fields)) "history" = Ok history' ->
  DataManager.setData w "assets" (VJson (JObj fields)) = (ok, w1) ->
  promise_mode w1 = false
  /\ (unlimited_storage -> ok = true)
  /\ (ok = true -> assets_hold w1 assets' history')
  /\ (ok = false -> assets_hold w1 assets history).
Proof.
  intros Hm Hh Ha' Hh' S.
  destruct (setData_object_plain _ _ _ _ _ Hm S) as (Hm1 & G).
  split; [exact Hm1|]. split.
  - intros Hroom. pose proof (setData_unlimited w "assets" (VJson (JObj fields)) Hroom) as F.
    now rewrite S in F.
  - split; intros ->; destruct G as [(E & G)|(E & G)]; try discriminate;
      unfold assets_hold; rewrite G; [split; assumption|exact Hh].
Qed.

(** A call of [addAsset] on readable assets, none of them [null]. *)
Lemma addAsset_call w assets history asset now id1 id2 :
  promise_mode w = false -> assets_hold w assets history ->
  Forall (fun a => a <> JNull) assets ->
  exists ok w1 assets1 history1,
    DataManager.addAsset asset now id1 id2 w = (Ok ok, w1)
    /\ promise_mode w1 = false
    /\ upsert assets history asset now id1 id2 assets1 history1
    /\ Forall (fun a => a <> JNull) assets1
    /\ (unlimited_storage -> ok = true)
    /\ (ok = true -> assets_hold w1 assets1 history1)
    /\ (ok = false -> assets_hold w1 assets history).
Proof.
  intros Hm Hh Hn. pose proof Hh as [Ha Hl]. cbv zeta in Ha, Hl.
  unfold DataManager.addAsset, DataManager.addAsset_data.
  assert (Hv : exists v, or_default (DataManager.getData w "assets") DataManager.empty_assets
                         = VJson v).
  { rewrite getData_plain by assumption. apply or_default_json. }
  destruct Hv as (v & Hv). rewrite Hv in *. rewrite Ha. cbv beta iota.
  destruct (findIndex_assets (get_field "name" asset) assets Hn) as (r & F).
  rewrite F. cbv beta iota zeta. destruct r as [i|].
  - apply findIndex_Some in F. destruct F as (old & Hold & Hname).
    apply name_is_true in Hname. rewrite Hold.
    assert (Hnn : old <> JNull).
    { rewrite Forall_lookup in Hn. exact (Hn _ _ Hold). }
    destruct (prop_total old "value" Hnn) as (oldValue & Hvalue).
    rewrite Hvalue, Hl. cbv beta iota.
    destruct (set_two_arrays_read v assets history
                (<[i := JObj (set_field "lastUpdated" (JStr now) asset)]> assets)
                (history ++ [update_entry asset oldValue now id1]) Ha Hl)
      as (fields' & Hs & Ha' & Hl').
    unfold update_entry in Hs. rewrite Hs.
    destruct (DataManager.setData w "assets" (VJson (JObj fields'))) as [ok w1] eqn:S.
    destruct (assets_written _ _ _ _ _ _ _ _ Hm Hh Ha' Hl' S) as (Hm1 & Hr & Ht & Hf).
    exists ok, w1, (<[i := JObj (set_field "lastUpdated" (JStr now) asset)]> assets),
      (history ++ [update_entry asset oldValue now id1]).
    split; [reflexivity|]. split; [exact Hm1|]. split.
    { left. exists i, old, oldValue. repeat split; assumption. }
    split; [|auto]. apply Forall_insert; [exact Hn|discriminate].
  - apply findIndex_None in F. rewrite Hl. cbv beta iota.
    destruct (set_two_arrays_read v assets history
                (assets ++ [JObj (set_field "lastUpdated" (JStr now)
                                    (set_field "created" (JStr now)
                                       (set_field "id" (JStr id1) asset)))])
                (history ++ [create_entry asset now id2]) Ha Hl)
      as (fields' & Hs & Ha' & Hl').
    unfold create_entry in Hs. rewrite Hs.
    destruct (DataManager.setData w "assets" (VJson (JObj fields'))) as [ok w1] eqn:S.
    destruct (assets_written _ _ _ _ _ _ _ _ Hm Hh Ha' Hl' S) as (Hm1 & Hr & Ht & Hf).
    exists ok, w1, (assets ++ [JObj (set_field "lastUpdated" (JStr now)
                                      (set_field "created" (JStr now)
                                         (set_field "id" (JStr id1) asset)))]),
      (history ++ [create_entry asset now id2]).
    split; [reflexivity|]. split; [exact Hm1|]. split.
    { right. repeat split; assumption. }
    split; [|auto]. apply Forall_app. split; [exact Hn|]. constructor; [discriminate|constructor].
Qed.

Lemma run_asset_op_kept op w : assets_kept w -> assets_kept (run_asset_op op w).
Proof.
  intros (Hm & assets & history & Hh & Hn & Hu).
  destruct op as [asset now id1 id2|assetName now id]; cbn [run_asset_op].
  - destruct (addAsset_call w assets history asset now id1 id2 Hm Hh Hn)
      as (ok & w1 & assets1 & history1 & -> & Hm1 & U & Hn1 & _ & Ht & Hf).
    cbn [snd]. split; [exact Hm1|]. destruct ok.
    + exists assets1, history1. split; [now apply Ht|]. split; [exact Hn1|].
      eapply unique_names_upsert; eauto.
    + exists assets, history. split; [now apply Hf|]. split; assumption.
  - assert (Same : assets_kept w) by (split; [exact Hm|]; eauto).
    pose proof Hh as [Ha Hl]. cbv zeta in Ha, Hl.
    unfold DataManager.deleteAsset, DataManager.deleteAsset_data.
    assert (Hv : exists v, or_default (DataManager.getData w "assets") DataManager.empty_assets
                           = VJson v).
    { rewrite getData_plain by assumption. apply or_default_json. }
    destruct Hv as (v & Hv). rewrite Hv in *. rewrite Ha. cbv beta iota.
    destruct (findIndex _ assets) as [[i|]|]; cbv beta iota zeta; try exact Same.
    rewrite Hl. cbv beta iota.
    destruct (prop _ "name") as [name|]; cbv beta iota; [|exact Same].
    destruct (prop _ "type") as [type|]; cbv beta iota; [|exact Same].
    destruct (prop _ "value") as [value|]; cbv beta iota; [|exact Same].
    match goal with
    | |- context [set_prop _ "history" (JArr ?h)] =>
        destruct (set_two_arrays_read v assets history (splice1 i assets) h Ha Hl)
          as (fields' & Hs & Ha' & Hl')
    end.
    destruct (set_prop (VJson v) "assets" _) as [d1|]; [|discriminate].
    cbv beta iota in Hs |- *. rewrite Hs. cbv beta iota.
    destruct (DataManager.setData w "assets" (VJson (JObj fields'))) as [ok w1] eqn:S.
    destruct (assets_written _ _ _ _ _ _ _ _ Hm Hh Ha' Hl' S) as (Hm1 & Hr & Ht & Hf).
    cbn [snd]. split; [exact Hm1|]. destruct ok.
    + eexists _, _. split; [now apply Ht|]. split.
      * now apply Forall_splice1.
      * now apply unique_names_splice1.
    + exists assets, history. split; [now apply Hf|]. split; assumption.
Qed.

Lemma run_asset_ops_kept ops w : assets_kept w -> assets_kept (run_asset_ops ops w).
Proof.
  unfold run_asset_ops. revert w.
  induction ops as [|op ops IH]; intros w K; cbn [fold_left]; [assumption|].
  apply IH. now apply run_asset_op_kept.
Qed.

(** C10. In a session without promises whose assets RecordSet reads as the
    arrays [assets] (none [null], with pairwise distinct names) and
    [history], after any sequence of [addAsset] and [deleteAsset] the
    RecordSet still reads as two arrays and the names are still pairwise
    distinct. Every [addAsset] then returns [true] or [false], and [true]
    when the storage has room. It is an upsert on the name: when it
    returns [true], the asset of that name is replaced in place (with
    [lastUpdated], the previous value logged) or, when there is none, the
    asset is appended with [id], [created] and [lastUpdated], and the
    history has exactly one entry more; when it returns [false] (the
    storage refused the write), the assets and the history are as they
    were. *)
Theorem addAsset_upsert_keeps_names_unique
    (w : World) (ops : list AssetOp) (assets history : list json) :
  promise_mode w = false ->
  assets_hold w assets history ->
  Forall (fun a => a <> JNull) assets ->
  unique_names assets = true ->
  let w' := run_asset_ops ops w in
  exists assets' history',
    assets_hold w' assets' history'
    /\ unique_names assets' = true
    /\ forall asset now id1 id2,
         exists ok w1,
           DataManager.addAsset asset now id1 id2 w' = (Ok ok, w1)
           /\ (unlimited_storage -> ok = true)
           /\ (ok = true ->
               exists assets1 history1,
                 assets_hold w1 assets1 history1
                 /\ upsert assets' history' asset now id1 id2 assets1 history1
                 /\ unique_names assets1 = true
                 /\ length history1 = S (length history'))
           /\ (ok = false -> assets_hold w1 assets' history').
Proof.
  intros Hm Hh Hn Hu. cbv zeta.
  assert (K : assets_kept (run_asset_ops ops w)).
  { apply run_asset_ops_kept. split; [exact Hm|]. eauto. }
  destruct K as (Hm' & assets' & history' & Hh' & Hn' & Hu').
  exists assets', history'. split; [exact Hh'|]. split; [exact Hu'|].
  intros asset now id1 id2.
  destruct (addAsset_call _ assets' history' asset now id1 id2 Hm' Hh' Hn')
    as (ok & w1 & assets1 & history1 & E & _ & U & _ & Hr & Ht & Hf).
  exists ok, w1. split; [exact E|]. split; [exact Hr|]. split; [|exact Hf].
  intros Hok. exists assets1, history1. split; [now apply Ht|]. split; [exact U|].
  split; [eapply unique_names_upsert; eauto|].
  destruct U as [(i & old & oldValue & _ & _ & _ & _ & ->) | (_ & _ & ->)];
    rewrite length_app; simpl; lia.
Qed.
End AssetRuns.

(** ** The properties on the runs of the reference host *)
Section Runs.
Import RefHost Scenario.
#[local] Existing Instance host.
#[local] Existing Instance RefHostFacts.laws.

Lemma host_unlimited : unlimited_storage.
Proof. intros ls k v. reflexivity. Defined.

Lemma setData_getData_with_key_witness :
  promise_mode enabled = true
  /\ DataManager.setData enabled "assets" (VJson cash) = (true, written)
  /\ localStorage written !! (DataManager.storagePrefix +:+ "assets")
     = Some "[object Promise]"
  /\ DataManager.getData written "assets" <> VJson cash.
Proof.
  assert (Hm : promise_mode enabled = true) by (vm_compute; reflexivity).
  assert (F : fst (DataManager.setData enabled "assets" (VJson cash)) = true)
    by (vm_compute; reflexivity).
  assert (S : DataManager.setData enabled "assets" (VJson cash) = (true, written)).
  { rewrite (surjective_pairing (DataManager.setData enabled "assets" (VJson cash))), F.
    reflexivity. }
  destruct (setData_getData_with_key_returns_promise enabled written "assets" cash Hm S)
    as (A & _ & B).
  split; [exact Hm|]. split; [exact S|]. split; [exact A|exact B].
Defined.

Lemma enableEncryption_rewrites_plaintext_witness :
  "pw" <> ""
  /\ sm_isEncryptionEnabled fresh = false
  /\ exists writes tail,
       trace enabled = trace fresh ++ EvDeriveKey "pw" :: writes ++ tail
       /\ Forall plain_write writes
       /\ (tail = [EvSetEncryptionKey (Some (SecurityManager.derivedKey "pw"));
                   EvAlert "Encryption enabled successfully!" "success"]
           \/ tail = [EvAlert "Failed to enable encryption. Please try again." "error"]).
Proof.
  split; [discriminate|]. split; [vm_compute; reflexivity|].
  apply (enableEncryption_rewrites_plaintext_before_key fresh "pw");
    [discriminate|vm_compute; reflexivity].
Defined.

Lemma disableEncryption_wrong_password_witness :
  "other" <> ""
  /\ fst (SecuritySession.verifyPassword (SecurityManager.derivedKey "other") enabled) = false
  /\ localStorage (SecuritySession.disableEncryption (Some "other") enabled)
     = localStorage enabled
  /\ sm_encryptionKey (SecuritySession.disableEncryption (Some "other") enabled)
     = Some (SecurityManager.derivedKey "other").
Proof.
  assert (Hp : "other" <> "") by discriminate.
  assert (Hv : fst (SecuritySession.verifyPassword (SecurityManager.derivedKey "other")
                      enabled) = false) by (vm_compute; reflexivity).
  destruct (disableEncryption_wrong_password_leaves_refused_key enabled "other" Hp Hv)
    as (A & _ & _ & _ & B & _).
  split; [exact Hp|]. split; [exact Hv|]. split; [exact A|exact B].
Defined.



Lemma decryptData_wrong_key_witness :
  AuthenticatedCipher host
  /\ SecurityManager.encryptData (Some (SecurityManager.derivedKey "pw"))
       (VJson DataManager.default_settings) fresh
     = (Ok envelope, with_rng_calls 1 fresh)
  /\ SecurityManager.derivedKey "other" <> SecurityManager.derivedKey "pw"
  /\ SecurityManager.decryptData (Some (SecurityManager.derivedKey "other")) envelope
     = Throw (Error "Failed to decrypt data").
Proof.
  assert (E : SecurityManager.encryptData (Some (SecurityManager.derivedKey "pw"))
                (VJson DataManager.default_settings) fresh
              = (Ok envelope, with_rng_calls 1 fresh)) by reflexivity.
  assert (K : SecurityManager.derivedKey "other" <> SecurityManager.derivedKey "pw")
    by (vm_compute; discriminate).
  split; [exact RefHostFacts.authenticated|]. split; [exact E|]. split; [exact K|].
  exact (decryptData_wrong_key_rejected _ _ _ _ _ _ RefHostFacts.authenticated E K).
Defined.

Lemma getData_undecryptable_witness :
  localStorage enabled !! (DataManager.storagePrefix +:+ "assets")
  = Some (JSON_stringify DataManager.empty_assets)
  /\ JSON_stringify DataManager.empty_assets <> ""
  /\ promise_mode enabled = true
  /\ DataManager.getData enabled "assets"
     = VPromise (Throw (Error "Failed to decrypt data")) [].
Proof.
  assert (Hd : localStorage enabled !! (DataManager.storagePrefix +:+ "assets")
               = Some (JSON_stringify DataManager.empty_assets))
    by (vm_compute; reflexivity).
  assert (Hne : JSON_stringify DataManager.empty_assets <> "")
    by (vm_compute; discriminate).
  assert (Hm : promise_mode enabled = true) by (vm_compute; reflexivity).
  assert (He : SecurityManager.decryptData (sm_encryptionKey enabled)
                 (JSON_stringify DataManager.empty_assets)
               = Throw (Error "Failed to decrypt data")) by (vm_compute; reflexivity).
  split; [exact Hd|]. split; [exact Hne|]. split; [exact Hm|].
  exact (proj1 (getData_undecryptable_returns_rejected_promise enabled "assets" _ _
                  Hd Hne Hm He)).
Defined.

Lemma enableEncryption_mismatch_witness :
  "X" <> "Y"
  /\ localStorage (SecuritySession.enableEncryption (Some "X") (Some "Y") fresh)
     = localStorage fresh
  /\ sm_encryptionKey (SecuritySession.enableEncryption (Some "X") (Some "Y") fresh)
     = sm_encryptionKey fresh
  /\ dm_encryptionKey (SecuritySession.enableEncryption (Some "X") (Some "Y") fresh)
     = dm_encryptionKey fresh.
Proof.
  assert (Hne : "X" <> "Y") by discriminate.
  destruct (enableEncryption_mismatch_aborts fresh "X" "Y" Hne)
    as (A & _ & _ & B & _ & C & _).
  split; [exact Hne|]. split; [exact A|]. split; [exact C|exact B].
Defined.

Lemma goals_saved_is_sum_witness :
  goals_invariant fresh
  /\ forallb exact_update goal_ops = true
  /\ goals_invariant (run_goal_ops goal_ops fresh)
  /\ exists goals,
       goals_are (run_goal_ops goal_ops fresh) goals
       /\ fst (DataManager.addGoal car "g3" "2024-03-01" (run_goal_ops goal_ops fresh))
          = Ok true
       /\ goals_are (snd (DataManager.addGoal car "g3" "2024-03-01"
                            (run_goal_ops goal_ops fresh)))
            (goals ++ [new_goal car "g3" "2024-03-01"]).
Proof.
  assert (H0 : goals_invariant fresh) by (vm_compute; reflexivity).
  assert (Hx : forallb exact_update goal_ops = true) by (vm_compute; reflexivity).
  assert (Hm : promise_mode fresh = false) by (vm_compute; reflexivity).
  assert (Hh : goals_are fresh []) by (vm_compute; reflexivity).
  destruct (goals_saved_is_sum_of_savingsDetails fresh goal_ops H0 Hx) as (Inv & Calls).
  destruct (Calls Hm host_unlimited (ex_intro _ [] Hh)) as (goals & Hg & Hadd & _).
  destruct (Hadd car "g3" "2024-03-01") as (A & B & _).
  split; [exact H0|]. split; [exact Hx|]. split; [exact Inv|].
  exists goals. split; [exact Hg|]. split; [exact A|exact B].
Defined.

(** After [updateGoalSavings] with the amounts [2^53], 1 and 1 the goal
    has [saved] [2^53], which is not their sum; with an entry that has no
    amount it has [saved] [null]. *)
Lemma goals_saved_is_sum_counterexample :
  forallb saved_is_sum (goals_of busy) = true
  /\ DataManager.total_saved (Some large_savings) = Ok (PNum (Finite (2 ^ 53)))
  /\ sum_amounts large_details = Some (2 ^ 53 + 2)
  /\ fst (DataManager.updateGoalSavings "g1" (Some large_savings) "2024-02-01" busy)
     = Ok true
  /\ (fun g => prop g "saved")
       <$> goals_of (run_goal_ops [UpdateGoalSavings "g1" (Some large_savings) "2024-02-01"]
                       busy)
     = [Ok (Some (JNum (2 ^ 53)))]
  /\ forallb saved_is_sum
       (goals_of (run_goal_ops [UpdateGoalSavings "g1" (Some large_savings) "2024-02-01"]
                    busy))
     = false
  /\ fst (DataManager.updateGoalSavings "g1" (Some noted_savings) "2024-02-01" busy)
     = Ok true
  /\ (fun g => prop g "saved")
       <$> goals_of (run_goal_ops [UpdateGoalSavings "g1" (Some noted_savings) "2024-02-01"]
                       busy)
     = [Ok (Some JNull)]
  /\ forallb saved_is_sum
       (goals_of (run_goal_ops [UpdateGoalSavings "g1" (Some noted_savings) "2024-02-01"]
                    busy))
     = false.
Proof. vm_compute. repeat split. Qed.

Lemma addAsset_upsert_witness :
  promise_mode fresh = false
  /\ assets_hold fresh [] []
  /\ exists assets' history',
       assets_hold (run_asset_ops asset_ops fresh) assets' history'
       /\ unique_names assets' = true
       /\ exists w1 assets1 history1,
            DataManager.addAsset Quota.gold "2024-01-05" "a5" "h5"
              (run_asset_ops asset_ops fresh) = (Ok true, w1)
            /\ assets_hold w1 assets1 history1
            /\ upsert assets' history' Quota.gold "2024-01-05" "a5" "h5" assets1 history1
            /\ length history1 = S (length history').
Proof.
  assert (Hm : promise_mode fresh = false) by (vm_compute; reflexivity).
  assert (Hh : assets_hold fresh [] []) by (split; vm_compute; reflexivity).
  split; [exact Hm|]. split; [exact Hh|].
  destruct (addAsset_upsert_keeps_names_unique fresh asset_ops [] [] Hm Hh
              (List.Forall_nil _) eq_refl)
    as (assets' & history' & Hh' & Hu' & Calls).
  exists assets', history'. split; [exact Hh'|]. split; [exact Hu'|].
  destruct (Calls Quota.gold "2024-01-05" "a5" "h5") as (ok & w1 & E & Hroom & Htrue & _).
  pose proof (Hroom host_unlimited) as Hok. subst ok.
  destruct (Htrue eq_refl) as (assets1 & history1 & A & B & _ & C).
  exists w1, assets1, history1. split; [exact E|]. split; [exact A|]. split; [exact B|exact C].
Defined.

(** On a storage of 800 characters that holds one asset, an [addAsset]
    for which there is no room returns [false]: the asset is not added
    and the history has no new entry. *)
Lemma addAsset_refused_write_counterexample :
  unique_names (assets_of Quota.crowded) = true
  /\ length (assets_of Quota.crowded) = 1%nat
  /\ length (asset_history Quota.crowded) = 1%nat
  /\ fst Quota.one_more = Ok false
  /\ assets_of (snd Quota.one_more) = assets_of Quota.crowded
  /\ asset_history (snd Quota.one_more) = asset_history Quota.crowded
  /\ length (asset_history (snd Quota.one_more)) = 1%nat.
Proof. vm_compute. repeat split. Qed.

(** The failing runs, evaluated. *)

Example enabled_storage_is_plaintext :
  localStorage enabled !! "financeTracker_assets"
  = Some (JSON_stringify DataManager.empty_assets)
  /\ read_text (localStorage enabled !! "financeTracker_settings")
     = JObj [("theme", JStr "light"); ("currency", JStr "INR");
             ("dateFormat", JStr "DD/MM/YYYY"); ("encryptionEnabled", JBool true);
             ("lastBackup", JNull)]
  /\ dm_encryptionKey enabled = Some (SecurityManager.derivedKey "pw").
Proof. vm_compute. repeat split. Qed.

Example with_key_round_trip_fails :
  DataManager.getData written "assets"
  = VPromise (Throw (Error "Failed to decrypt data")) [].
Proof. vm_compute. reflexivity. Qed.

Example refused_key_replaces_session_key :
  sm_encryptionKey enabled = Some (SecurityManager.derivedKey "pw")
  /\ sm_encryptionKey (SecuritySession.disableEncryption (Some "other") enabled)
     = Some (SecurityManager.derivedKey "other")
  /\ SecurityManager.derivedKey "other" <> SecurityManager.derivedKey "pw".
Proof. vm_compute. repeat split. discriminate. Qed.

Example goals_after_run :
  (fun g => prop g "saved") <$> goals_of (run_goal_ops goal_ops fresh)
  = [Ok (Some (JNum 350)); Ok (Some (JNum 0))].
Proof. vm_compute. reflexivity. Qed.

Example reloaded_page_refuses_the_password :
  sm_isEncryptionEnabled (reloaded []) = true
  /\ fst (SecuritySession.verifyPassword (SecurityManager.derivedKey "pw") (reloaded []))
     = false
  /\ appLocked (reloaded [Some "pw"; Some "pw"; Some "pw"]) = true
  /\ dm_encryptionKey (reloaded [Some "pw"; Some "pw"; Some "pw"]) = None.
Proof. vm_compute. repeat split. Qed.

Example total_saved_of_other_arguments :
  DataManager.total_saved None = Throw TypeError
  /\ DataManager.total_saved (Some (JStr "100")) = Throw TypeError
  /\ DataManager.total_saved (Some (JArr [JNull])) = Throw TypeError
  /\ DataManager.total_saved
       (Some (JArr [JObj [("amount", JObj [("toString", JNum 1)])]]))
     = Throw TypeError
  /\ DataManager.total_saved
       (Some (JArr [january; JObj [("amount", JArr [JNull; JNum 3; JArr [JBool true]])];
                    JNum 7]))
     = Ok (PStr "100,3,trueundefined")
  /\ DataManager.total_saved (Some (JArr [january; JObj [("amount", JStr "5")]]))
     = Ok (PStr "1005")
  /\ DataManager.total_saved (Some (JArr [JObj [("amount", JNum (2 ^ 1023))];
                                           JObj [("amount", JNum (2 ^ 1023))]]))
     = Ok (PNum (Infinity false))
  /\ DataManager.total_saved (Some (JArr [january; february])) = Ok (PNum (Finite 350)).
Proof. vm_compute. repeat split. Qed.

Example number_to_string_of_large_numbers :
  number_to_string (to_double (2 ^ 53 + 1)) = "9007199254740992"
  /\ number_to_string (to_double (2 ^ 64)) = "18446744073709552000"
  /\ number_to_string (to_double (10 ^ 21)) = "1e+21"
  /\ number_to_string (to_double (2 ^ 70)) = "1.1805916207174113e+21"
  /\ number_to_string (to_double (- 2 ^ 1023)) = "-8.98846567431158e+307".
Proof. vm_compute. repeat split. Qed.

Example to_double_is_the_nearest_binary64 :
  number_of (double (2 ^ 53 + 1) 0) = Some (to_double (2 ^ 53 + 1))
  /\ number_of (double (2 ^ 53 + 3) 0) = Some (to_double (2 ^ 53 + 3))
  /\ number_of (double (2 ^ 62 + 1) 0) = Some (to_double (2 ^ 62 + 1))
  /\ number_of (double (2 ^ 63 - 1) 0) = Some (to_double (2 ^ 63 - 1))
  /\ number_of (double (10 ^ 18 + 65) 0) = Some (to_double (10 ^ 18 + 65))
  /\ number_of (double 350 0) = Some (to_double 350).
Proof. vm_compute. repeat split. Qed.

Example number_add_is_the_addition_of_binary64 :
  number_of (PrimFloat.add (double (2 ^ 53) 0) (double 1 0))
  = Some (number_add (Finite (2 ^ 53)) (Finite 1))
  /\ number_of (PrimFloat.add (double (2 ^ 53) 0) (double 1 0)) = Some (Finite (2 ^ 53))
  /\ number_of (PrimFloat.add (double (2 ^ 53 + 2) 0) (double 1 0))
     = Some (number_add (Finite (2 ^ 53 + 2)) (Finite 1))
  /\ number_of (PrimFloat.add (double (2 ^ 53 + 2) 0) (double 1 0))
     = Some (Finite (2 ^ 53 + 4))
  /\ number_of (PrimFloat.add (double 12345 0) (double 1 100))
     = Some (number_add (Finite 12345) (Finite (2 ^ 100)))
  /\ number_of (PrimFloat.add (double (2 ^ 53 - 1) 971) (double 1 969))
     = Some (number_add (Finite ((2 ^ 53 - 1) * 2 ^ 971)) (Finite (2 ^ 969)))
  /\ number_of (PrimFloat.add (double (2 ^ 53 - 1) 971) (double 1 970))
     = Some (number_add (Finite ((2 ^ 53 - 1) * 2 ^ 971)) (Finite (2 ^ 970)))
  /\ number_of (PrimFloat.add (double (2 ^ 53 - 1) 971) (double 1 970))
     = Some (Infinity false)
  /\ number_of (PrimFloat.add (double 100 0) (PrimFloat.opp (double 350 0)))
     = Some (number_add (Finite 100) (Finite (- 350))).
Proof. vm_compute. repeat split. Qed.

Example assets_after_run :
  (fun a => prop a "name") <$> assets_of (run_asset_ops asset_ops fresh)
  = [Ok (Some (JStr "Cash"))]
  /\ length (asset_history (run_asset_ops asset_ops fresh)) = 4%nat.
Proof. vm_compute. split; reflexivity. Qed.

(** The further properties, on runs of the reference host. *)

Lemma setData_getData_round_trip_witness :
  promise_mode fresh = false
  /\ DataManager.getData stocked "assets" = VJson cash.
Proof.
  assert (Hm : promise_mode fresh = false) by (vm_compute; reflexivity).
  assert (Hs : DataManager.setData fresh "assets" (VJson cash) = (true, stocked)).
  { assert (F : fst (DataManager.setData fresh "assets" (VJson cash)) = true)
      by (vm_compute; reflexivity).
    rewrite (surjective_pairing (DataManager.setData fresh "assets" (VJson cash))), F.
    reflexivity. }
  split; [exact Hm|].
  exact (proj1 (setData_getData_round_trip_without_key fresh stocked "assets" cash Hm Hs)).
Defined.

Lemma clearAllData_foreign_witness :
  localStorage (DataManager.clearAllData shared) !! "theme" = localStorage shared !! "theme".
Proof.
  exact (clearAllData_leaves_foreign_keys shared "theme" eq_refl).
Defined.

Lemma initializeDefaults_never_overwrites_witness :
  DataManager.getData (DataManager.initializeDefaults stocked) "assets"
  = DataManager.getData stocked "assets".
Proof.
  assert (Ht : truthy (DataManager.getData stocked "assets") = true)
    by (vm_compute; reflexivity).
  exact (proj2 (initializeDefaults_never_overwrites stocked "assets" (or_introl Ht))).
Defined.

Lemma initializeDefaults_fills_witness :
  truthy (DataManager.getData
            (DataManager.initializeDefaults (snd (DataManager.removeData stocked "goals")))
            "goals") = true.
Proof.
  assert (Hm : promise_mode (snd (DataManager.removeData stocked "goals")) = false)
    by (vm_compute; reflexivity).
  assert (Hin : In ("goals", DataManager.empty_goals) DataManager.defaults)
    by (simpl; tauto).
  exact (proj2 (initializeDefaults_fills_only_what_is_missing _ "goals" _ Hm host_unlimited Hin)).
Defined.

Lemma clearAllData_resets_witness :
  DataManager.getData (DataManager.clearAllData stocked) "assets"
  = VJson DataManager.empty_assets.
Proof.
  assert (Hm : promise_mode stocked = false) by (vm_compute; reflexivity).
  exact (clearAllData_resets_to_defaults stocked "assets" Hm host_unlimited).
Defined.

Lemma importData_stores_witness :
  DataManager.getData
    (snd (DataManager.importData (JObj [("assets", cash); ("version", JStr "0.9")])
            "2024-03-01" fresh)) "assets"
  = VJson cash.
Proof.
  assert (Hm : promise_mode fresh = false) by (vm_compute; reflexivity).
  assert (Hnd : NoDup (map fst [("assets", cash); ("version", JStr "0.9")])).
  { simpl. apply NoDup_cons. split; [|apply NoDup_singleton].
    intros Hin. apply list_elem_of_singleton in Hin. discriminate. }
  destruct (importData_stores_each_property fresh _ "2024-03-01" Hm host_unlimited Hnd)
    as (_ & W & _).
  apply W; [now left|discriminate|discriminate].
Defined.


Lemma deleteExpense_undoes_addExpense_witness :
  expenses_are fresh []
  /\ expenses_are
       (snd (DataManager.deleteExpense "e1"
               (snd (DataManager.addExpense rent "e1" "2024-01-01" fresh)))) [].
Proof.
  assert (Hm : promise_mode fresh = false) by (vm_compute; reflexivity).
  assert (Hh : expenses_are fresh []) by (vm_compute; reflexivity).
  split; [exact Hh|].
  exact (proj2 (proj2 (proj2 (deleteExpense_undoes_addExpense fresh [] rent "e1" "2024-01-01"
                                Hm host_unlimited Hh (List.Forall_nil _))))).
Defined.

Lemma deleteExpense_removes_first_match_witness :
  expenses_are busy [stamped rent "e1" "2024-01-01"]
  /\ fst (DataManager.deleteExpense "e1" busy) = Ok true
  /\ expenses_are (snd (DataManager.deleteExpense "e1" busy)) [].
Proof.
  assert (Hm : promise_mode busy = false) by (vm_compute; reflexivity).
  assert (Hh : expenses_are busy [stamped rent "e1" "2024-01-01"])
    by (vm_compute; reflexivity).
  split; [exact Hh|].
  exact (proj2 (deleteExpense_removes_first_match busy _ "e1" Hm host_unlimited Hh)
           [] (stamped rent "e1" "2024-01-01") [] eq_refl (List.Forall_nil _) eq_refl).
Defined.

Lemma deleteIncome_undoes_addIncome_witness :
  income_is fresh []
  /\ income_is
       (snd (DataManager.deleteIncome "i1"
               (snd (DataManager.addIncome salary "i1" "2024-01-02" fresh)))) [].
Proof.
  assert (Hm : promise_mode fresh = false) by (vm_compute; reflexivity).
  assert (Hh : income_is fresh []) by (vm_compute; reflexivity).
  split; [exact Hh|].
  exact (proj2 (proj2 (proj2 (deleteIncome_undoes_addIncome fresh [] salary "i1" "2024-01-02"
                                Hm host_unlimited Hh (List.Forall_nil _))))).
Defined.

Lemma deleteIncome_removes_first_match_witness :
  income_is busy [stamped salary "i1" "2024-01-02"]
  /\ DataManager.deleteIncome "i0" busy = (Ok false, busy).
Proof.
  assert (Hm : promise_mode busy = false) by (vm_compute; reflexivity).
  assert (Hh : income_is busy [stamped salary "i1" "2024-01-02"])
    by (vm_compute; reflexivity).
  assert (Hn : no_record "i0" [stamped salary "i1" "2024-01-02"]).
  { constructor; [reflexivity|constructor]. }
  split; [exact Hh|].
  exact (proj1 (deleteIncome_removes_first_match busy _ "i0" Hm host_unlimited Hh) Hn).
Defined.

Lemma deleteGoal_undoes_addGoal_witness :
  goals_are fresh []
  /\ goals_are
       (snd (DataManager.deleteGoal "g1"
               (snd (DataManager.addGoal car "g1" "2024-01-03" fresh)))) [].
Proof.
  assert (Hm : promise_mode fresh = false) by (vm_compute; reflexivity).
  assert (Hh : goals_are fresh []) by (vm_compute; reflexivity).
  split; [exact Hh|].
  exact (proj2 (proj2 (proj2 (deleteGoal_undoes_addGoal fresh [] car "g1" "2024-01-03"
                                Hm host_unlimited Hh (List.Forall_nil _))))).
Defined.

Lemma updateGoalSavings_rewrites_first_match_witness :
  goals_are busy [new_goal car "g1" "2024-01-03"]
  /\ DataManager.updateGoalSavings "g0" (Some (JArr [])) "2024-02-01" busy = (Ok false, busy)
  /\ (fst (DataManager.updateGoalSavings "g1" (Some (JArr [january; february]))
             "2024-02-01" busy) = Ok true
      /\ goals_are (snd (DataManager.updateGoalSavings "g1" (Some (JArr [january; february]))
                           "2024-02-01" busy))
           [JObj [("name", JStr "Car"); ("amount", JNum 500000); ("id", JStr "g1");
                  ("saved", JNum 350); ("savingsDetails", JArr [january; february]);
                  ("created", JStr "2024-01-03"); ("lastUpdated", JStr "2024-02-01")]])
  /\ DataManager.updateGoalSavings "g1" (Some (JStr "100")) "2024-02-01" busy
     = (Throw TypeError, busy)
  /\ DataManager.updateGoalSavings "g1" None "2024-02-01" busy = (Throw TypeError, busy).
Proof.
  assert (Hm : promise_mode busy = false) by (vm_compute; reflexivity).
  assert (Hh : goals_are busy [new_goal car "g1" "2024-01-03"])
    by (vm_compute; reflexivity).
  assert (Hn : no_record "g0" [new_goal car "g1" "2024-01-03"]).
  { constructor; [reflexivity|constructor]. }
  split; [exact Hh|]. split.
  { exact (proj1 (updateGoalSavings_rewrites_first_match_only busy _ "g0" (Some (JArr []))
                    "2024-02-01" Hm host_unlimited Hh) Hn). }
  split.
  { exact (proj2 (updateGoalSavings_rewrites_first_match_only busy _ "g1"
                    (Some (JArr [january; february])) "2024-02-01" Hm host_unlimited Hh)
             [] _ [] eq_refl (List.Forall_nil _) eq_refl). }
  split.
  { exact (proj2 (updateGoalSavings_rewrites_first_match_only busy _ "g1"
                    (Some (JStr "100")) "2024-02-01" Hm host_unlimited Hh)
             [] _ [] eq_refl (List.Forall_nil _) eq_refl). }
  exact (proj2 (updateGoalSavings_rewrites_first_match_only busy _ "g1"
                  None "2024-02-01" Hm host_unlimited Hh)
           [] _ [] eq_refl (List.Forall_nil _) eq_refl).
Defined.

Lemma deleteAsset_removes_first_match_witness :
  assets_hold stocked [JObj [("name", JStr "Cash"); ("value", JNum 1000)]] []
  /\ fst (DataManager.deleteAsset "Cash" "2024-01-04" "h1" stocked) = Ok true
  /\ assets_hold (snd (DataManager.deleteAsset "Cash" "2024-01-04" "h1" stocked)) []
       [JObj [("id", JStr "h1"); ("name", JStr "Cash"); ("value", JNum 1000);
              ("timestamp", JStr "2024-01-04"); ("action", JStr "delete")]].
Proof.
  assert (Hm : promise_mode stocked = false) by (vm_compute; reflexivity).
  assert (Hh : assets_hold stocked [JObj [("name", JStr "Cash"); ("value", JNum 1000)]] [])
    by (split; vm_compute; reflexivity).
  split; [exact Hh|].
  exact (proj2 (deleteAsset_removes_first_match_and_logs stocked _ _ "Cash" "2024-01-04" "h1"
                  Hm host_unlimited Hh)
           [] (JObj [("name", JStr "Cash"); ("value", JNum 1000)]) [] _
           eq_refl (List.Forall_nil _) eq_refl eq_refl).
Defined.

Lemma asset_history_is_append_only_witness :
  reads_object fresh "assets"
  /\ exists logged,
       asset_history (run_asset_ops asset_ops fresh) = asset_history fresh ++ logged
       /\ (length logged <= length asset_ops)%nat.
Proof.
  assert (Ho : reads_object fresh "assets").
  { exists [("assets", JArr []); ("history", JArr [])]. vm_compute. reflexivity. }
  split; [exact Ho|].
  exact (asset_history_is_append_only fresh asset_ops Ho).
Defined.

Lemma encryptData_decryptData_round_trip_witness :
  exists e,
    SecurityManager.encryptData (Some (SecurityManager.derivedKey "pw"))
      (VJson DataManager.default_settings) fresh
    = (Ok e, with_rng_calls (S (rng_calls fresh)) fresh)
    /\ SecurityManager.decryptData (Some (SecurityManager.derivedKey "pw")) e
       = Ok DataManager.default_settings.
Proof.
  destruct (encryptData_decryptData_round_trip (SecurityManager.derivedKey "pw")
              DataManager.default_settings fresh) as (e & A & B & _).
  exists e. split; [exact A|exact B].
Defined.

Lemma verifyPassword_accepts_only_the_sealing_key_witness :
  sealed_under (SecurityManager.derivedKey "pw") DataManager.default_settings envelope
  /\ fst (SecuritySession.verifyPassword (SecurityManager.derivedKey "pw") sealed) = true
  /\ fst (SecuritySession.verifyPassword (SecurityManager.derivedKey "other") sealed) = false.
Proof.
  assert (Hs : sealed_under (SecurityManager.derivedKey "pw") DataManager.default_settings
                 envelope).
  { exists fresh, (with_rng_calls 1 fresh). reflexivity. }
  assert (Hne : envelope <> "") by (vm_compute; discriminate).
  assert (Hl : localStorage sealed !! "financeTracker_settings" = Some envelope)
    by reflexivity.
  assert (Hk : SecurityManager.derivedKey "other" <> SecurityManager.derivedKey "pw")
    by (vm_compute; discriminate).
  destruct (verifyPassword_accepts_only_the_sealing_key sealed _ _ _
              RefHostFacts.authenticated Hs Hne Hl) as (A & B).
  split; [exact Hs|]. split.
  - exact (f_equal fst A).
  - exact (f_equal fst (B _ Hk)).
Defined.

Lemma reencryptAllData_with_keys_witness :
  promise_mode enabled = true
  /\ localStorage (SecuritySession.reencryptAllData enabled) !! ("financeTracker_" +:+ "assets")
     = Some "[object Promise]".
Proof.
  assert (Hm : promise_mode enabled = true) by (vm_compute; reflexivity).
  assert (Hl : localStorage enabled !! ("financeTracker_" +:+ "assets")
               = Some (JSON_stringify DataManager.empty_assets)) by (vm_compute; reflexivity).
  assert (Hne : JSON_stringify DataManager.empty_assets <> "") by (vm_compute; discriminate).
  split; [exact Hm|].
  exact (proj2 (reencryptAllData_with_keys_overwrites_entries enabled Hm)
           host_unlimited "assets" _ Hl Hne).
Defined.

Lemma reencryptAllData_without_keys_witness :
  promise_mode stocked = false
  /\ DataManager.getData (SecuritySession.reencryptAllData stocked) "assets"
     = DataManager.getData stocked "assets".
Proof.
  assert (Hm : promise_mode stocked = false) by (vm_compute; reflexivity).
  split; [exact Hm|].
  exact (reencryptAllData_without_keys_preserves_reads stocked "assets" Hm).
Defined.

Lemma decryptAllData_stores_plaintext_witness :
  DataManager.getData (SecuritySession.decryptAllData unlocked) "settings"
  = VJson DataManager.default_settings.
Proof.
  assert (Hl : localStorage unlocked !! ("financeTracker_" +:+ "settings") = Some envelope)
    by (vm_compute; reflexivity).
  assert (Hne : envelope <> "") by (vm_compute; discriminate).
  assert (Hd : SecurityManager.decryptData (sm_encryptionKey unlocked) envelope
               = Ok DataManager.default_settings) by (vm_compute; reflexivity).
  exact (proj2 (proj2 (proj2 (decryptAllData_stores_plaintext_of_what_decrypts unlocked)))
           host_unlimited "settings" envelope _ Hl Hne Hd).
Defined.

Lemma disableEncryption_decrypts_witness :
  verifies (localStorage unlocked) (SecurityManager.derivedKey "pw") = true
  /\ sm_encryptionKey (SecuritySession.disableEncryption (Some "pw") unlocked) = None
  /\ DataManager.getData (SecuritySession.disableEncryption (Some "pw") unlocked) "settings"
     = VJson (JObj [("theme", JStr "light"); ("currency", JStr "INR");
                    ("dateFormat", JStr "DD/MM/YYYY"); ("encryptionEnabled", JBool false);
                    ("lastBackup", JNull)]).
Proof.
  assert (Hv : verifies (localStorage unlocked) (SecurityManager.derivedKey "pw") = true)
    by (vm_compute; reflexivity).
  assert (Hl : localStorage unlocked !! "financeTracker_settings" = Some envelope)
    by (vm_compute; reflexivity).
  assert (Hne : envelope <> "") by (vm_compute; discriminate).
  assert (Hd : SecurityManager.decryptData (sm_encryptionKey unlocked) envelope
               = Ok (JObj [("theme", JStr "light"); ("currency", JStr "INR");
                           ("dateFormat", JStr "DD/MM/YYYY");
                           ("encryptionEnabled", JBool false); ("lastBackup", JNull)]))
    by (vm_compute; reflexivity).
  destruct (disableEncryption_decrypts_under_session_key unlocked "pw" envelope _
              ltac:(discriminate) Hv host_unlimited Hl Hne Hd) as (_ & _ & _ & A & B & _).
  split; [exact Hv|]. split; [exact A|exact B].
Defined.

Lemma generateBackupCode_format_witness :
  (forall i, (i mod 36 < 36)%nat)
  /\ String.length (SecuritySession.generateBackupCode (fun i => (i mod 36)%nat)) = 19%nat.
Proof.
  assert (Hr : forall i, (i mod 36 < 36)%nat).
  { intros i. apply Nat.mod_upper_bound. discriminate. }
  split; [exact Hr|].
  exact (proj1 (generateBackupCode_format (fun i => (i mod 36)%nat) Hr)).
Defined.

Lemma enableEncryption_installs_key_witness :
  sm_isEncryptionEnabled fresh = false
  /\ dm_encryptionKey enabled = Some (SecurityManager.derivedKey "pw")
  /\ read_text (localStorage enabled !! ("financeTracker_" +:+ "assets"))
     = read_text (localStorage fresh !! ("financeTracker_" +:+ "assets")).
Proof.
  assert (Hsm : sm_isEncryptionEnabled fresh = false) by (vm_compute; reflexivity).
  assert (Hset : DataManager.getData fresh "settings"
                 = VJson (JObj [("theme", JStr "light"); ("currency", JStr "INR");
                                ("dateFormat", JStr "DD/MM/YYYY");
                                ("encryptionEnabled", JBool false); ("lastBackup", JNull)]))
    by (vm_compute; reflexivity).
  destruct (enableEncryption_installs_key_and_keeps_plaintext fresh "pw" _
              host_unlimited ltac:(discriminate) Hsm Hset) as ((_ & A & _) & _ & B).
  split; [exact Hsm|]. split; [exact A|].
  exact (B "assets" ltac:(discriminate)).
Defined.
End Runs.
